(** * Lineage API routes of the recupare dashboard: a shallow embedding

    The development follows the route handlers under [src/app/api/lineage]:

    - [mermaid/route.ts]        : lineage chain + diagram synthesis ([Mermaid]),
    - [relationships/route.ts]  : relationship lookup ([Relationships]),
    - [search/route.ts]         : free-text search ([Search]),
    - [tables/route.ts]         : transformation lookup ([Transformations])
                                  and table listing ([TablesRoute]),
    - the columns route ([Columns]) and the graph assembly of the data-flow
      route ([Flow]),
    - [handleNodeClick] of the lineage viewer ([Viewer]) and the middleware
      in front of the routes ([Middleware]).

    Conventions.
    - A JavaScript string is a [string] (one [ascii] per code unit).  The
      case mapping [Js.toUpperCase] is the one of the language on ASCII
      strings; properties of a text that the code upper-cases assume ASCII
      layer names ([Js.is_ascii]).
    - The body of a [POST] to the transformation and columns routes is the
      outcome of [req.json()]: the parsed body or the error thrown
      ([Res]).
    - Integers of the store (ids, counts, depths) are [Z]; SQL [numeric]
      values (confidence scores) are exact rationals [Q].
    - A nullable column or an optional JSON field is an [option].
    - The relational store is a record of row lists; a SQL join is a
      nested [flat_map] over the joined tables in [FROM] order, [WHERE] is a
      boolean test, [ORDER BY] is a stable insertion sort (rows that compare
      equal keep the order of the unsorted result, strings compare by code
      unit), a query without [ORDER BY] returns rows in that nested order.
    - A handler runs in the monad [Sql]: it counts the store queries issued
      so far and a query may throw ([outage] of the store tells which one). *)

From Stdlib Require Import String Ascii List ZArith QArith Lia Bool Arith.
From Stdlib Require Import Permutation Sorted DecimalString.
Import ListNotations.

Local Open Scope string_scope.
Local Open Scope Z_scope.

(** Stable insertion sort for a total preorder given as [leb]: the model of
    [ORDER BY], and of the ascending order of integer-like object keys. *)
Section OrderBy.
Context {A : Type} (leb : A -> A -> bool).

Fixpoint insert_sorted (x : A) (l : list A) : list A :=
  match l with
  | [] => [x]
  | y :: r => if leb x y then x :: l else y :: insert_sorted x r
  end.

Definition order_by (l : list A) : list A := fold_right insert_sorted [] l.

End OrderBy.

(* ===================================================================== *)
(** ** JavaScript built-ins used by the routes                            *)
(* ===================================================================== *)

Module Js.

(** Truthiness of a string-or-missing value: [undefined], [null] and the
    empty string are falsy. *)
Definition truthy (v : option string) : bool :=
  match v with
  | Some s => negb (String.eqb s "")
  | None => false
  end.

(** [a || b] on such values, with a string default. *)
Definition or_default (v : option string) (d : string) : string :=
  match v with
  | Some s => if String.eqb s "" then d else s
  | None => d
  end.

(** [String.prototype.toUpperCase].  The letters [a] to [z] are mapped to
    [A] to [Z] and every other code unit is kept: this is the case mapping
    of the language on the strings whose code units are all below 128
    ([is_ascii]).  Letters beyond that range have upper-case forms that the
    mapping below does not produce, so what is stated of a text that the
    code upper-cases is stated for names within the range. *)
Definition upper_ascii (c : ascii) : ascii :=
  let n := nat_of_ascii c in
  if (Nat.leb 97 n && Nat.leb n 122)%bool then ascii_of_nat (n - 32) else c.

Fixpoint toUpperCase (s : string) : string :=
  match s with
  | EmptyString => EmptyString
  | String c r => String (upper_ascii c) (toUpperCase r)
  end.

Fixpoint is_ascii (s : string) : bool :=
  match s with
  | EmptyString => true
  | String c r => Nat.ltb (nat_of_ascii c) 128 && is_ascii r
  end.

(** [s.charAt(0)] and [s.slice(1)]. *)
Definition charAt0 (s : string) : string :=
  match s with
  | EmptyString => EmptyString
  | String c _ => String c EmptyString
  end.

Definition slice1 (s : string) : string :=
  match s with
  | EmptyString => EmptyString
  | String _ r => r
  end.

(** Template interpolation [${n}] of an integer and of a nullable string. *)
Definition show_Z (z : Z) : string := NilZero.string_of_int (Z.to_int z).

Definition show_opt (v : option string) : string :=
  match v with
  | Some s => s
  | None => "null"
  end.

(** [[...new Set(l)]]: first occurrences, in order. *)
Fixpoint uniq (l : list string) : list string :=
  match l with
  | [] => []
  | x :: r => x :: filter (fun y => negb (String.eqb y x)) (uniq r)
  end.

(** [Math.max(...l)] for a non-empty list of integers ([l.length > 0] is
    tested by the caller). *)
Definition max_list (l : list Z) : Z :=
  match l with
  | [] => 0
  | x :: r => fold_left Z.max r x
  end.

(** *** [parseInt(s)] without radix

    Leading white space is skipped (tab to carriage return, space and
    the no-break space), a sign is read, a [0x]/[0X] prefix selects base
    16, and the longest prefix of digits is the value; no digit at all is
    [NaN] ([None]).  The value is kept exact, as it is in the code for the
    integers below [2^53]. *)
Definition is_space (c : ascii) : bool :=
  let n := nat_of_ascii c in
  ((Nat.leb 9 n && Nat.leb n 13) || Nat.eqb n 32 || Nat.eqb n 160)%bool.

Fixpoint skip_spaces (s : string) : string :=
  match s with
  | String c r => if is_space c then skip_spaces r else s
  | EmptyString => EmptyString
  end.

Definition digit_value (radix : Z) (c : ascii) : option Z :=
  let n := Z.of_nat (nat_of_ascii c) in
  let v := if (48 <=? n) && (n <=? 57) then Some (n - 48)
           else if (97 <=? n) && (n <=? 122) then Some (n - 87)
           else if (65 <=? n) && (n <=? 90) then Some (n - 55)
           else None in
  match v with
  | Some d => if d <? radix then Some d else None
  | None => None
  end.

Fixpoint digits (radix : Z) (s : string) (acc : option Z) : option Z :=
  match s with
  | EmptyString => acc
  | String c r =>
      match digit_value radix c with
      | Some d => digits radix r (Some (radix * match acc with Some a => a | None => 0 end + d))
      | None => acc
      end
  end.

Definition parse_unsigned (s : string) : option Z :=
  match s with
  | String "0" (String "x" r) => digits 16 r None
  | String "0" (String "X" r) => digits 16 r None
  | _ => digits 10 s None
  end.

Definition parseInt (s : string) : option Z :=
  match skip_spaces s with
  | String "-" r => option_map Z.opp (parse_unsigned r)
  | String "+" r => parse_unsigned r
  | r => parse_unsigned r
  end.

(** *** Plain objects used as dictionaries

    An object literal [{}] with string keys: the own properties in
    insertion order.  Reading [acc[k]] also sees the properties inherited
    from [Object.prototype]; [Object.entries] lists integer-like keys first,
    in ascending numeric order, then the other keys in insertion order. *)
Definition object_prototype_keys : list string :=
  [ "constructor"; "__defineGetter__"; "__defineSetter__"; "hasOwnProperty";
    "__lookupGetter__"; "__lookupSetter__"; "isPrototypeOf";
    "propertyIsEnumerable"; "toString"; "valueOf"; "__proto__";
    "toLocaleString" ].

Definition inherited (k : string) : bool :=
  existsb (String.eqb k) object_prototype_keys.

(** The array index a key denotes, if it is the canonical decimal form of an
    integer below [2^32 - 1]. *)
Definition array_index (k : string) : option N :=
  match NilZero.uint_of_string k with
  | Some u =>
      let n := N.of_uint u in
      if (String.eqb (NilZero.string_of_uint (N.to_uint n)) k && (n <? 4294967295)%N)%bool
      then Some n else None
  | None => None
  end.

Section Dict.
Context {V : Type}.

Definition dict := list (string * V).

Fixpoint own (d : dict) (k : string) : option V :=
  match d with
  | [] => None
  | (k', v) :: r => if String.eqb k' k then Some v else own r k
  end.

(** [d[k] = v] for a key that is not yet an own property. *)
Definition add_key (d : dict) (k : string) (v : V) : dict :=
  (d ++ [(k, v)])%list.

(** In-place update of the value of an own property. *)
Fixpoint update (d : dict) (k : string) (f : V -> V) : dict :=
  match d with
  | [] => []
  | (k', v) :: r =>
      if String.eqb k' k then (k', f v) :: r else (k', v) :: update r k f
  end.

Definition index_entries (d : dict) : list (N * (string * V)) :=
  flat_map (fun kv => match array_index (fst kv) with
                      | Some n => [(n, kv)]
                      | None => []
                      end) d.

Definition entries (d : dict) : list (string * V) :=
  (map snd (order_by (fun a b => (fst a <=? fst b)%N) (index_entries d))
   ++ filter (fun kv => match array_index (fst kv) with
                        | Some _ => false
                        | None => true
                        end) d)%list.

End Dict.
Arguments dict V : clear implicits.

End Js.

(* ===================================================================== *)
(** ** The relational store and the query monad                          *)
(* ===================================================================== *)

Record LayerRow := {
  l_id : Z;
  l_name : string
}.

Record TableRow := {
  t_id : Z;
  t_name : string;
  t_description : option string;
  t_layer_id : Z
}.

Record ColumnRow := {
  c_id : Z;
  c_name : string;
  c_data_type : string;
  c_table_id : Z;
  c_layer_id : Z
}.

Record TransformationRow := {
  tr_id : Z;
  tr_name : string;
  tr_description : string;
  tr_script : option string;
  tr_transformation_type : option string;
  tr_status : option string;
  tr_created_at : Z;
  tr_confidence_score : Q;
  tr_source_table_id : Z;
  tr_target_table_id : Z
}.

Record RelationshipRow := {
  rel_id : Z;
  rel_relationship_type : string;
  rel_description : string;
  rel_confidence_score : Q;
  rel_source_table_id : Z;
  rel_target_table_id : Z
}.

(** [outage n = Some msg]: the [n]-th query of a request (counted from 0)
    fails and throws [Error(msg)]. *)
Record Store := {
  layers : list LayerRow;
  tables : list TableRow;
  columns : list ColumnRow;
  transformations : list TransformationRow;
  table_relationships : list RelationshipRow;
  outage : nat -> option string
}.

Inductive Res (A : Type) : Type :=
| Ok (a : A)
| Throw (msg : string).
Arguments Ok {A} a.
Arguments Throw {A} msg.

Definition Sql (A : Type) : Type := nat -> Res A * nat.

Definition ret {A} (a : A) : Sql A := fun n => (Ok a, n).

Definition bind {A B} (m : Sql A) (k : A -> Sql B) : Sql B :=
  fun n => match m n with
           | (Ok a, n') => k a n'
           | (Throw msg, n') => (Throw msg, n')
           end.

Definition throw {A} (msg : string) : Sql A := fun n => (Throw msg, n).

(** [await sql`...`]: the rows are what the statement denotes on the store;
    the call counts as one query and throws during an outage. *)
Definition query {A} (st : Store) (rows : A) : Sql A :=
  fun n => match outage st n with
           | Some msg => (Throw msg, S n)
           | None => (Ok rows, S n)
           end.

Declare Scope sql_scope.
Delimit Scope sql_scope with sql.
Notation "x <- m ;; k" := (bind m (fun x => k))
  (at level 100, m at next level, right associativity) : sql_scope.
Local Open Scope sql_scope.

(** A [for ... of] loop that awaits in its body and pushes one result per
    element. *)
Fixpoint for_each {A B} (f : A -> Sql B) (l : list A) : Sql (list B) :=
  match l with
  | [] => ret []
  | a :: r => b <- f a ;; bs <- for_each f r ;; ret (b :: bs)
  end.

(** What [NextResponse.json(body, { status })] carries, with the number of
    store queries the handler issued before answering. *)
Record Response (B : Type) := {
  status : Z;
  body : B;
  queries : nat
}.
Arguments status {B} r.
Arguments body {B} r.
Arguments queries {B} r.


(** Characters that the source writes as escapes. *)
Definition nl : string := String (ascii_of_nat 10) EmptyString.
Definition dquote : string := String (ascii_of_nat 34) EmptyString.

(* ===================================================================== *)
(** ** [mermaid/route.ts]: lineage chain and diagram                       *)
(* ===================================================================== *)

Module Mermaid.

Record LineageNode := {
  n_id : Z;
  n_name : string;
  n_layer : string;
  n_layer_id : Z;
  n_depth : Z;
  n_column_count : Z;
  n_description : string
}.

Record LineageEdge := {
  e_source : string;
  e_target : string;
  e_source_layer : string;
  e_target_layer : string;
  e_transformation_type : option string
}.

Record MermaidLineageResponse := {
  nodes : list LineageNode;
  edges : list LineageEdge;
  mermaid_syntax : string;
  selected_table : string;
  selected_layer : string;
  total_depth : Z;
  layers_involved : list string;
  error : option string
}.

Record MermaidRequestBody := {
  table_name : option string;
  layer : option string;
  direction : option string
}.

(** *** The recursive query [lineage_chain] *)

Record ChainRow := {
  r_id : Z;
  r_name : string;
  r_layer : string;
  r_layer_id : Z;
  r_depth : Z;
  r_description : option string
}.

(** The non-recursive term: the selected table, at depth 0. *)
Definition seed_term (st : Store) (table_name layer : string) : list ChainRow :=
  flat_map (fun t =>
    flat_map (fun l =>
      if (t_layer_id t =? l_id l)
         && String.eqb (t_name t) table_name && String.eqb (l_name l) layer
      then [ {| r_id := t_id t; r_name := t_name t; r_layer := l_name l;
                r_layer_id := l_id l; r_depth := 0;
                r_description := t_description t |} ]
      else []) (layers st)) (tables st).

(** The recursive term, evaluated on the working table [lc]: one row per
    transformation leaving a row of [lc] whose depth is below 3. *)
Definition recursive_term (st : Store) (work : list ChainRow) : list ChainRow :=
  flat_map (fun lc =>
    flat_map (fun tr =>
      if r_id lc =? tr_source_table_id tr then
        flat_map (fun tt =>
          if tr_target_table_id tr =? t_id tt then
            flat_map (fun tl =>
              if (t_layer_id tt =? l_id tl) && (r_depth lc <? 3)
              then [ {| r_id := t_id tt; r_name := t_name tt;
                        r_layer := l_name tl; r_layer_id := l_id tl;
                        r_depth := r_depth lc + 1;
                        r_description := t_description tt |} ]
              else []) (layers st)
          else []) (tables st)
      else []) (transformations st)) work.

(** [WITH RECURSIVE ... UNION ALL]: the working table is appended to the
    result and replaced by the recursive term evaluated on it, until it is
    empty.  [None]: the iteration did not end within [fuel] rounds. *)
Fixpoint with_recursive (st : Store) (fuel : nat) (work : list ChainRow)
  : option (list ChainRow) :=
  match work with
  | [] => Some []
  | _ :: _ =>
      match fuel with
      | O => None
      | S fuel' =>
          option_map (fun rest => (work ++ rest)%list)
                     (with_recursive st fuel' (recursive_term st work))
      end
  end.

(** [ORDER BY layer_id, name]. *)
Definition chain_leb (a b : ChainRow) : bool :=
  (r_layer_id a <? r_layer_id b)
  || ((r_layer_id a =? r_layer_id b) && String.leb (r_name a) (r_name b)).

(** Rounds granted to the iteration; [lineage_chain_returns] below shows
    that they are never used up and that more rounds change nothing. *)
Definition chain_rounds : nat := 5.

Definition lineage_chain (st : Store) (table_name layer : string)
  : option (list ChainRow) :=
  option_map (order_by chain_leb)
             (with_recursive st chain_rounds (seed_term st table_name layer)).

(** [SELECT COUNT( * ) FROM columns c WHERE c.table_id = id]. *)
Definition column_count (st : Store) (id : Z) : Z :=
  Z.of_nat (length (filter (fun c => c_table_id c =? id) (columns st))).

Definition make_node (row : ChainRow) (count : Z) : LineageNode :=
  {| n_id := r_id row;
     n_name := r_name row;
     n_layer := r_layer row;
     n_layer_id := r_layer_id row;
     n_depth := r_depth row;
     n_column_count := count;
     n_description :=
       Js.or_default (r_description row)
                     (r_name row ++ " table in " ++ r_layer row ++ " layer") |}.

Definition build_nodes (st : Store) (rows : list ChainRow) : Sql (list LineageNode) :=
  for_each (fun row =>
              (count <- query st (column_count st (r_id row)) ;;
               ret (make_node row count))%sql) rows.

(** *** Edges between consecutive nodes *)

Record TransformationBetween := {
  tb_transformation_type : option string;
  tb_source_table : string;
  tb_target_table : string;
  tb_source_layer : string;
  tb_target_layer : string
}.

Definition transformation_between (st : Store) (source_id target_id : Z)
  : list TransformationBetween :=
  flat_map (fun t =>
    flat_map (fun s =>
      if tr_source_table_id t =? t_id s then
        flat_map (fun tt =>
          if tr_target_table_id t =? t_id tt then
            flat_map (fun sl =>
              if t_layer_id s =? l_id sl then
                flat_map (fun tl =>
                  if (t_layer_id tt =? l_id tl)
                     && (t_id s =? source_id) && (t_id tt =? target_id)
                  then [ {| tb_transformation_type := tr_transformation_type t;
                            tb_source_table := t_name s;
                            tb_target_table := t_name tt;
                            tb_source_layer := l_name sl;
                            tb_target_layer := l_name tl |} ]
                  else []) (layers st)
              else []) (layers st)
          else []) (tables st)
      else []) (tables st)) (transformations st).

Definition make_edge (sourceNode targetNode : LineageNode)
  (transformation : TransformationBetween) : LineageEdge :=
  {| e_source := n_name sourceNode;
     e_target := n_name targetNode;
     e_source_layer := n_layer sourceNode;
     e_target_layer := n_layer targetNode;
     e_transformation_type := tb_transformation_type transformation |}.

(** [for (let i = 0; i < nodes.length - 1; i++)]: one query per pair
    [nodes[i]], [nodes[i + 1]]; the first row, if any, gives the edge. *)
Fixpoint build_edges (st : Store) (nodes : list LineageNode) : Sql (list LineageEdge) :=
  match nodes with
  | sourceNode :: ((targetNode :: _) as rest) =>
      (rows <- query st (transformation_between st (n_id sourceNode) (n_id targetNode)) ;;
       es <- build_edges st rest ;;
       ret (match rows with
            | transformation :: _ => make_edge sourceNode targetNode transformation :: es
            | [] => es
            end))%sql
  | _ => ret []
  end.

(** *** Diagram synthesis *)

(** The [reduce] that groups the nodes by layer in an object literal.  A
    layer named like a property of [Object.prototype] reads as present, and
    the [push] on what is read throws a [TypeError]. *)
Definition group_step (acc : Js.dict (list LineageNode)) (node : LineageNode)
  : Res (Js.dict (list LineageNode)) :=
  match Js.own acc (n_layer node) with
  | Some _ => Ok (Js.update acc (n_layer node) (fun l => (l ++ [node])%list))
  | None =>
      if Js.inherited (n_layer node)
      then Throw "acc[node.layer].push is not a function"
      else Ok (Js.add_key acc (n_layer node) [node])
  end.

Fixpoint group_from (acc : Js.dict (list LineageNode)) (nodes : list LineageNode)
  : Res (Js.dict (list LineageNode)) :=
  match nodes with
  | [] => Ok acc
  | node :: rest =>
      match group_step acc node with
      | Ok acc' => group_from acc' rest
      | Throw msg => Throw msg
      end
  end.

Definition nodesByLayer (nodes : list LineageNode) : Res (Js.dict (list LineageNode)) :=
  group_from [] nodes.

Definition layerTitle (layerName : string) : string :=
  Js.toUpperCase (Js.charAt0 layerName) ++ Js.slice1 layerName ++ " Layer".

Definition layerDescription (layerName : string) : string :=
  if String.eqb layerName "bronze" then "Raw Data"
  else if String.eqb layerName "silver" then "Cleansed Data"
  else "Business Ready".

Definition nodeId (node : LineageNode) : string :=
  Js.toUpperCase (n_layer node) ++ "_" ++ n_name node.

Definition nodeLabel (node : LineageNode) : string :=
  n_name node ++ "<br/>" ++ Js.show_Z (n_column_count node) ++ " columns<br/>"
  ++ n_description node.

Definition subgraph_header (layerName : string) : string :=
  "    subgraph " ++ dquote ++ layerTitle layerName ++ " - "
  ++ layerDescription layerName ++ dquote ++ nl.

Definition node_line (node : LineageNode) : string :=
  "        " ++ nodeId node ++ "[" ++ dquote ++ nodeLabel node ++ dquote ++ "]" ++ nl.

Definition subgraph (entry : string * list LineageNode) : string :=
  subgraph_header (fst entry)
  ++ String.concat EmptyString (map node_line (snd entry))
  ++ "    end" ++ nl ++ nl.

Definition edge_line (edge : LineageEdge) : string :=
  "    " ++ Js.toUpperCase (e_source_layer edge) ++ "_" ++ e_source edge
  ++ " -->|" ++ Js.show_opt (e_transformation_type edge) ++ "| "
  ++ Js.toUpperCase (e_target_layer edge) ++ "_" ++ e_target edge ++ nl.

Definition layer_styling : string :=
  nl ++ "    %% Layer Styling" ++ nl
  ++ "    classDef bronze fill:#fff3e0,stroke:#e65100,stroke-width:2px,color:#000" ++ nl
  ++ "    classDef silver fill:#f3e5f5,stroke:#4a148c,stroke-width:2px,color:#000" ++ nl
  ++ "    classDef gold fill:#e8f5e8,stroke:#1b5e20,stroke-width:2px,color:#000" ++ nl ++ nl.

Definition class_lines (entry : string * list LineageNode) : string :=
  String.concat EmptyString
    (map (fun node => "    class " ++ nodeId node ++ " " ++ fst entry ++ nl) (snd entry)).

Definition mermaidSyntax (groups : Js.dict (list LineageNode)) (edges : list LineageEdge)
  : string :=
  "graph LR" ++ nl ++ nl
  ++ String.concat EmptyString (map subgraph (Js.entries groups))
  ++ String.concat EmptyString (map edge_line edges)
  ++ layer_styling
  ++ String.concat EmptyString (map class_lines (Js.entries groups)).

Definition synthesize (nodes : list LineageNode) (edges : list LineageEdge) : Res string :=
  match nodesByLayer nodes with
  | Ok groups => Ok (mermaidSyntax groups edges)
  | Throw msg => Throw msg
  end.

Definition totalDepth (nodes : list LineageNode) : Z :=
  match nodes with
  | [] => 0
  | _ :: _ => Js.max_list (map n_depth nodes)
  end.

Definition layersInvolved (nodes : list LineageNode) : list string :=
  Js.uniq (map n_layer nodes).

(** *** The handler *)

Definition empty_response (table layer : string) (err : string) : MermaidLineageResponse :=
  {| nodes := []; edges := []; mermaid_syntax := EmptyString;
     selected_table := table; selected_layer := layer;
     total_depth := 0; layers_involved := []; error := Some err |}.

(** The body of the [try] block once the request is validated and the rows
    of the recursive query are known. *)
Definition resolve (st : Store) (table_name layer : string) (rows : list ChainRow)
  : Sql MermaidLineageResponse :=
  (lineageResult <- query st rows ;;
   nodes <- build_nodes st lineageResult ;;
   edges <- build_edges st nodes ;;
   match synthesize nodes edges with
   | Ok text =>
       ret {| nodes := nodes; edges := edges; mermaid_syntax := text;
              selected_table := table_name; selected_layer := layer;
              total_depth := totalDepth nodes;
              layers_involved := layersInvolved nodes;
              error := None |}
   | Throw msg => throw msg
   end)%sql.

(** [POST], from the body [req] that [await req.json()] has read (a request
    whose body cannot be read goes to the [catch] block before any query
    and is not among the requests below).  [None] stands for a request
    whose recursive query does not return. *)
Definition POST (st : Store) (req : MermaidRequestBody)
  : option (Response MermaidLineageResponse) :=
  if negb (Js.truthy (table_name req)) || negb (Js.truthy (layer req)) then
    Some {| status := 400;
            body := empty_response (Js.or_default (table_name req) EmptyString)
                                   (Js.or_default (layer req) EmptyString)
                                   "table_name and layer are required";
            queries := 0 |}
  else
    let table := Js.or_default (table_name req) EmptyString in
    let lay := Js.or_default (layer req) EmptyString in
    match lineage_chain st table lay with
    | None => None
    | Some rows =>
        match resolve st table lay rows 0%nat with
        | (Ok response, n) => Some {| status := 200; body := response; queries := n |}
        | (Throw msg, n) =>
            Some {| status := 500;
                    body := empty_response EmptyString EmptyString
                                           ("Database error: " ++ msg);
                    queries := n |}
        end
    end.

(** [GET]: the same validation on the search parameters, then [POST]. *)
Definition GET (st : Store) (params : MermaidRequestBody)
  : option (Response MermaidLineageResponse) :=
  if negb (Js.truthy (table_name params)) || negb (Js.truthy (layer params)) then
    Some {| status := 400;
            body := empty_response (Js.or_default (table_name params) EmptyString)
                                   (Js.or_default (layer params) EmptyString)
                                   "table_name and layer parameters are required";
            queries := 0 |}
  else
    POST st {| table_name := table_name params;
               layer := layer params;
               direction := Some (Js.or_default (direction params) "both") |}.

End Mermaid.

(* ===================================================================== *)
(** ** [relationships/route.ts]: relationship lookup                      *)
(* ===================================================================== *)

Module Relationships.

Record Relationship := {
  id : Z;
  relationship_type : string;
  description : string;
  confidence_score : Q;
  source_table : string;
  source_table_id : Z;
  source_layer : string;
  target_table : string;
  target_table_id : Z;
  target_layer : string;
  direction : string
}.

Record RelationshipSummary := {
  total : Z;
  upstream : Z;
  downstream : Z;
  avg_confidence : Q
}.

Record RelationshipResponse := {
  relationships : list Relationship;
  summary : RelationshipSummary;
  error : option string
}.

(** The search parameters of the request URL. *)
Record Request := {
  q_table_id : option string;
  q_table_name : option string;
  q_direction : option string
}.

(** The [SELECT ... FROM table_relationships tr JOIN tables st ... JOIN
    tables tt ... JOIN layers sl ... JOIN layers tl] shared by the three
    query texts; [label] is the [direction] column and [cond] the [WHERE]
    clause appended to it. *)
Definition select (st : Store)
  (label : RelationshipRow -> TableRow -> TableRow -> string)
  (cond : RelationshipRow -> TableRow -> TableRow -> bool) : list Relationship :=
  flat_map (fun tr =>
    flat_map (fun s =>
      if rel_source_table_id tr =? t_id s then
        flat_map (fun tt =>
          if rel_target_table_id tr =? t_id tt then
            flat_map (fun sl =>
              if t_layer_id s =? l_id sl then
                flat_map (fun tl =>
                  if (t_layer_id tt =? l_id tl) && cond tr s tt
                  then [ {| id := rel_id tr;
                            relationship_type := rel_relationship_type tr;
                            description := rel_description tr;
                            confidence_score := rel_confidence_score tr;
                            source_table := t_name s;
                            source_table_id := t_id s;
                            source_layer := l_name sl;
                            target_table := t_name tt;
                            target_table_id := t_id tt;
                            target_layer := l_name tl;
                            direction := label tr s tt |} ]
                  else []) (layers st)
              else []) (layers st)
          else []) (tables st)
      else []) (tables st)) (table_relationships st).

(** [ORDER BY tr.confidence_score DESC]. *)
Definition confidence_desc (a b : Relationship) : bool :=
  Qle_bool (confidence_score b) (confidence_score a).

(** [CASE WHEN tr.source_table_id = $1 THEN 'downstream' ELSE 'upstream' END]. *)
Definition label_by_id (p : Z) (tr : RelationshipRow) (s tt : TableRow) : string :=
  if rel_source_table_id tr =? p then "downstream" else "upstream".

Definition where_by_id (direction : string) (p : Z)
  (tr : RelationshipRow) (s tt : TableRow) : bool :=
  if String.eqb direction "upstream" then rel_target_table_id tr =? p
  else if String.eqb direction "downstream" then rel_source_table_id tr =? p
  else (rel_source_table_id tr =? p) || (rel_target_table_id tr =? p).

(** [CASE WHEN st.name = $1 THEN 'downstream' ELSE 'upstream' END]. *)
Definition label_by_name (p : string) (tr : RelationshipRow) (s tt : TableRow) : string :=
  if String.eqb (t_name s) p then "downstream" else "upstream".

Definition where_by_name (direction : string) (p : string)
  (tr : RelationshipRow) (s tt : TableRow) : bool :=
  if String.eqb direction "upstream" then String.eqb (t_name tt) p
  else if String.eqb direction "downstream" then String.eqb (t_name s) p
  else String.eqb (t_name s) p || String.eqb (t_name tt) p.

Definition by_id (st : Store) (direction : string) (p : Z) : list Relationship :=
  order_by confidence_desc (select st (label_by_id p) (where_by_id direction p)).

Definition by_name (st : Store) (direction : string) (p : string) : list Relationship :=
  order_by confidence_desc (select st (label_by_name p) (where_by_name direction p)).

Definition all_relationships (st : Store) : list Relationship :=
  order_by confidence_desc (select st (fun _ _ _ => "both") (fun _ _ _ => true)).

Definition count_direction (d : string) (rs : list Relationship) : Z :=
  Z.of_nat (length (filter (fun r => String.eqb (direction r) d) rs)).

(** The mean is computed by the source in double precision; it is kept
    exact here. *)
Definition avgConfidence (rs : list Relationship) : Q :=
  match rs with
  | [] => 0%Q
  | _ :: _ =>
      (fold_left (fun sum r => sum + confidence_score r) rs 0 / inject_Z (Z.of_nat (length rs)))%Q
  end.

Definition empty_response (err : string) : RelationshipResponse :=
  {| relationships := [];
     summary := {| total := 0; upstream := 0; downstream := 0; avg_confidence := 0%Q |};
     error := Some err |}.

(** The query, the summary and the [catch] block; no response of this route
    sets a status, so all of them carry the default 200. *)
Definition answer (st : Store) (rows : list Relationship) : Response RelationshipResponse :=
  match query st rows 0%nat with
  | (Ok relationships, n) =>
      {| status := 200;
         body := {| relationships := relationships;
                    summary := {| total := Z.of_nat (length relationships);
                                  upstream := count_direction "upstream" relationships;
                                  downstream := count_direction "downstream" relationships;
                                  avg_confidence := avgConfidence relationships |};
                    error := None |};
         queries := n |}
  | (Throw msg, n) =>
      {| status := 200; body := empty_response msg; queries := n |}
  end.

Definition GET (st : Store) (req : Request) : Response RelationshipResponse :=
  let direction := Js.or_default (q_direction req) "both" in
  if Js.truthy (q_table_id req) then
    match Js.parseInt (Js.or_default (q_table_id req) EmptyString) with
    | None => {| status := 200; body := empty_response "Invalid table ID"; queries := 0 |}
    | Some tableIdNum => answer st (by_id st direction tableIdNum)
    end
  else if Js.truthy (q_table_name req) then
    answer st (by_name st direction (Js.or_default (q_table_name req) EmptyString))
  else
    answer st (all_relationships st).

End Relationships.

(* ===================================================================== *)
(** ** [search/route.ts]: free-text search                                *)
(* ===================================================================== *)

Module Search.

Record SearchTable := {
  st_id : Z;
  st_name : string;
  st_description : option string;
  st_layer : string
}.

Record SearchColumn := {
  sc_id : Z;
  sc_name : string;
  sc_data_type : string;
  sc_table_name : string;
  sc_layer : string
}.

Record SearchTransformation := {
  sx_id : Z;
  sx_name : string;
  sx_description : string;
  sx_transformation_type : option string;
  sx_source_table : string;
  sx_target_table : string;
  sx_confidence_score : Q
}.

Record SearchResults := {
  r_tables : list SearchTable;
  r_columns : list SearchColumn;
  r_transformations : list SearchTransformation;
  r_total : Z
}.

Record SearchSuggestions := {
  s_tables : list string;
  s_layers : list string
}.

Record SearchResponse := {
  query_echo : string;
  results : SearchResults;
  suggestions : SearchSuggestions;
  error : option string
}.

Record Request := {
  q : option string;
  type : option string
}.

(** [text ILIKE pattern]: [%] matches any run of characters, [_] any one
    character, a backslash quotes the next pattern character; letters match
    without regard to case. *)
Definition same_letter (a b : ascii) : bool :=
  Ascii.eqb (Js.upper_ascii a) (Js.upper_ascii b).

Fixpoint ilike (pattern text : string) {struct pattern} : bool :=
  match pattern with
  | EmptyString => match text with EmptyString => true | _ => false end
  | String "%" p =>
      (fix any (t : string) : bool :=
         ilike p t || match t with
                      | EmptyString => false
                      | String _ t' => any t'
                      end) text
  | String "_" p =>
      match text with
      | EmptyString => false
      | String _ t => ilike p t
      end
  | String "\" (String c p) =>
      match text with
      | EmptyString => false
      | String d t => same_letter c d && ilike p t
      end
  | String c p =>
      match text with
      | EmptyString => false
      | String d t => same_letter c d && ilike p t
      end
  end.

Definition contains (query text : string) : bool := ilike ("%" ++ query ++ "%") text.

Definition contains_opt (query : string) (text : option string) : bool :=
  match text with
  | Some t => contains query t
  | None => false
  end.

Definition search_tables (st : Store) (query : string) : list SearchTable :=
  firstn 10 (order_by (fun a b => String.leb (st_name a) (st_name b))
    (flat_map (fun t =>
       flat_map (fun l =>
         if (t_layer_id t =? l_id l)
            && (contains query (t_name t) || contains_opt query (t_description t))
         then [ {| st_id := t_id t; st_name := t_name t;
                   st_description := t_description t; st_layer := l_name l |} ]
         else []) (layers st)) (tables st))).

Definition search_columns (st : Store) (query : string) : list SearchColumn :=
  firstn 10 (order_by (fun a b => String.leb (sc_name a) (sc_name b))
    (flat_map (fun c =>
       flat_map (fun t =>
         if c_table_id c =? t_id t then
           flat_map (fun l =>
             if (c_layer_id c =? l_id l) && contains query (c_name c)
             then [ {| sc_id := c_id c; sc_name := c_name c;
                       sc_data_type := c_data_type c;
                       sc_table_name := t_name t; sc_layer := l_name l |} ]
             else []) (layers st)
         else []) (tables st)) (columns st))).

Definition search_transformations (st : Store) (query : string)
  : list SearchTransformation :=
  firstn 10 (order_by (fun a b => Qle_bool (sx_confidence_score b) (sx_confidence_score a))
    (flat_map (fun t =>
       flat_map (fun s =>
         if tr_source_table_id t =? t_id s then
           flat_map (fun tt =>
             if (tr_target_table_id t =? t_id tt)
                && (contains query (tr_name t) || contains query (tr_description t))
             then [ {| sx_id := tr_id t; sx_name := tr_name t;
                       sx_description := tr_description t;
                       sx_transformation_type := tr_transformation_type t;
                       sx_source_table := t_name s; sx_target_table := t_name tt;
                       sx_confidence_score := tr_confidence_score t |} ]
             else []) (tables st)
         else []) (tables st)) (transformations st))).

Definition empty_results : SearchResults :=
  {| r_tables := []; r_columns := []; r_transformations := []; r_total := 0 |}.

Definition failure (query err : string) : SearchResponse :=
  {| query_echo := query;
     results := empty_results;
     suggestions := {| s_tables := []; s_layers := [] |};
     error := Some err |}.

Definition wanted (type kind : string) : bool :=
  String.eqb type "all" || String.eqb type kind.

(** The body of the [try] block; [term] is the query string. *)
Definition run_search (st : Store) (term type : string) : Sql SearchResponse :=
  (tables <- (if wanted type "tables"
              then query st (search_tables st term) else ret []) ;;
   columns <- (if wanted type "columns"
               then query st (search_columns st term) else ret []) ;;
   transformations <- (if wanted type "transformations"
                       then query st (search_transformations st term) else ret []) ;;
   ret {| query_echo := term;
          results := {| r_tables := tables; r_columns := columns;
                        r_transformations := transformations;
                        r_total := Z.of_nat (length tables) + Z.of_nat (length columns)
                                   + Z.of_nat (length transformations) |};
          suggestions := {| s_tables := map st_name (firstn 3 tables);
                            s_layers := firstn 3 (Js.uniq (map st_layer tables)) |};
          error := None |})%sql.

Definition GET (st : Store) (req : Request) : Response SearchResponse :=
  let type := Js.or_default (type req) "all" in
  match q req with
  | Some term =>
      if (String.length term <? 2)%nat then
        {| status := 400;
           body := failure term "Query must be at least 2 characters long";
           queries := 0 |}
      else
        match run_search st term type 0%nat with
        | (Ok response, n) => {| status := 200; body := response; queries := n |}
        | (Throw msg, n) => {| status := 500; body := failure term msg; queries := n |}
        end
  | None =>
      {| status := 400;
         body := failure EmptyString "Query must be at least 2 characters long";
         queries := 0 |}
  end.

End Search.

(* ===================================================================== *)
(** ** [tables/route.ts]: transformation lookup                           *)
(* ===================================================================== *)

Module Transformations.

Record Transformation := {
  id : Z;
  name : string;
  description : string;
  source_table : string;
  target_table : string;
  source_layer : string;
  target_layer : string;
  transformation_type : option string;
  confidence_score : Q;
  created_at : Z;
  script : option string;
  status_of : option string
}.

Record TransformationSummary := {
  total : Z;
  table_name : string;
  layers_involved : list string;
  avg_confidence : Q
}.

Record TransformationResponse := {
  transformations_of : list Transformation;
  summary : TransformationSummary;
  error : option string
}.

(** [table_id] is a JSON number: [None] stands for a missing one and for
    [NaN]. *)
Record TransformationRequestBody := {
  b_table_name : option string;
  b_table_id : option Z;
  b_source_layer : option string;
  b_target_layer : option string;
  b_direction : option string
}.

Definition truthy_id (v : option Z) : bool :=
  match v with
  | Some z => negb (z =? 0)
  | None => false
  end.

(** A row of the join, before the handler maps it: the selected columns and
    the two layer ids the table-scoped query orders by. *)
Record JoinRow := {
  j_row : TransformationRow;
  j_source : TableRow;
  j_target : TableRow;
  j_source_layer : LayerRow;
  j_target_layer : LayerRow
}.

Definition join (st : Store) (cond : JoinRow -> bool) : list JoinRow :=
  flat_map (fun t =>
    flat_map (fun s =>
      if tr_source_table_id t =? t_id s then
        flat_map (fun tt =>
          if tr_target_table_id t =? t_id tt then
            flat_map (fun sl =>
              if t_layer_id s =? l_id sl then
                flat_map (fun tl =>
                  let j := {| j_row := t; j_source := s; j_target := tt;
                              j_source_layer := sl; j_target_layer := tl |} in
                  if (t_layer_id tt =? l_id tl) && cond j then [j] else [])
                  (layers st)
              else []) (layers st)
          else []) (tables st)
      else []) (tables st)) (transformations st).

(** [ORDER BY sl.id, tl.id, t.created_at DESC] and [ORDER BY t.created_at DESC]. *)
Definition table_scoped_leb (a b : JoinRow) : bool :=
  let sa := l_id (j_source_layer a) in let sb := l_id (j_source_layer b) in
  let ta := l_id (j_target_layer a) in let tb := l_id (j_target_layer b) in
  (sa <? sb)
  || ((sa =? sb)
      && ((ta <? tb)
          || ((ta =? tb) && (tr_created_at (j_row b) <=? tr_created_at (j_row a))))).

Definition created_desc (a b : JoinRow) : bool :=
  tr_created_at (j_row b) <=? tr_created_at (j_row a).

Definition where_name (direction targetTable : string) (j : JoinRow) : bool :=
  if String.eqb direction "upstream" then String.eqb (t_name (j_target j)) targetTable
  else if String.eqb direction "downstream" then String.eqb (t_name (j_source j)) targetTable
  else String.eqb (t_name (j_source j)) targetTable
       || String.eqb (t_name (j_target j)) targetTable.

Definition where_id (direction : string) (targetId : Z) (j : JoinRow) : bool :=
  if String.eqb direction "upstream" then tr_target_table_id (j_row j) =? targetId
  else if String.eqb direction "downstream" then tr_source_table_id (j_row j) =? targetId
  else (tr_source_table_id (j_row j) =? targetId)
       || (tr_target_table_id (j_row j) =? targetId).

Definition where_layers (source_layer target_layer : string) (j : JoinRow) : bool :=
  String.eqb (l_name (j_source_layer j)) source_layer
  && String.eqb (l_name (j_target_layer j)) target_layer.

(** [result.rows.map(row => ({ ..., confidence_score: 1.0, ... }))]. *)
Definition to_transformation (j : JoinRow) : Transformation :=
  {| id := tr_id (j_row j);
     name := tr_name (j_row j);
     description := tr_description (j_row j);
     source_table := t_name (j_source j);
     target_table := t_name (j_target j);
     source_layer := l_name (j_source_layer j);
     target_layer := l_name (j_target_layer j);
     transformation_type := tr_transformation_type (j_row j);
     confidence_score := 1%Q;
     created_at := tr_created_at (j_row j);
     script := tr_script (j_row j);
     status_of := tr_status (j_row j) |}.

(** The arrow of the layer-pair title, U+2192, written as the three bytes
    of its UTF-8 form: it is the one character of the routes beyond the
    8-bit range of [ascii]. *)
Definition arrow : string :=
  String (ascii_of_nat 226) (String (ascii_of_nat 134) (String (ascii_of_nat 146) EmptyString)).

Definition failure (err : string) : TransformationResponse :=
  {| transformations_of := [];
     summary := {| total := 0; table_name := EmptyString; layers_involved := [];
                   avg_confidence := 0%Q |};
     error := Some err |}.

(** The table-scoped branch. *)
Definition table_specific (st : Store) (b : TransformationRequestBody) (direction : string)
  : Sql TransformationResponse :=
  let targetTable := b_table_name b in
  let targetId := b_table_id b in
  let cond :=
    if Js.truthy targetTable
    then where_name direction (Js.or_default targetTable EmptyString)
    else where_id direction (match targetId with Some z => z | None => 0 end) in
  (rows <- query st (order_by table_scoped_leb (join st cond)) ;;
   let transformations := map to_transformation rows in
   let layersInvolved :=
     Js.uniq (map source_layer transformations ++ map target_layer transformations)%list in
   let avgConfidence := 1%Q in
   ret {| transformations_of := transformations;
          summary :=
            {| total := Z.of_nat (length transformations);
               table_name :=
                 Js.or_default targetTable
                   ("Table ID " ++ match targetId with
                                   | Some z => Js.show_Z z
                                   | None => "undefined"
                                   end);
               layers_involved := layersInvolved;
               avg_confidence := avgConfidence |};
          error := None |})%sql.

(** The layer-pair branch. *)
Definition layer_to_layer (st : Store) (source_layer target_layer : string)
  : Sql TransformationResponse :=
  (rows <- query st (order_by created_desc
                       (join st (where_layers source_layer target_layer))) ;;
   let transformations := map to_transformation rows in
   let avgConfidence := 1%Q in
   ret {| transformations_of := transformations;
          summary :=
            {| total := Z.of_nat (length transformations);
               table_name := source_layer ++ " " ++ arrow ++ " " ++ target_layer;
               layers_involved := [source_layer; target_layer];
               avg_confidence := avgConfidence |};
          error := None |})%sql.

(** [POST].  [json] is the outcome of [await req.json()] and of the
    destructuring that follows it, both inside the [try]: the body, with
    fields of the types the interface declares, or the error thrown when
    the request carries no body, a text that is not JSON, or [null]. *)
Definition POST (st : Store) (json : Res TransformationRequestBody)
  : Response TransformationResponse :=
  let finish (r : Res TransformationResponse * nat) :=
    match r with
    | (Ok response, n) => {| status := 200; body := response; queries := n |}
    | (Throw msg, n) =>
        {| status := 500; body := failure ("Database error: " ++ msg); queries := n |}
    end in
  match json with
  | Throw msg => finish (Throw msg, 0%nat)
  | Ok b =>
      let direction := Js.or_default (b_direction b) "both" in
      if Js.truthy (b_table_name b) || truthy_id (b_table_id b) then
        finish (table_specific st b direction 0%nat)
      else if Js.truthy (b_source_layer b) && Js.truthy (b_target_layer b) then
        finish (layer_to_layer st (Js.or_default (b_source_layer b) EmptyString)
                                  (Js.or_default (b_target_layer b) EmptyString) 0%nat)
      else
        {| status := 400;
           body := failure
                     "Either table_name/table_id or source_layer/target_layer must be provided";
           queries := 0 |}
  end.

(** The search parameters of the [GET] variant, turned into a body that a
    mock request hands to [POST]. *)
Record Params := {
  p_table_name : option string;
  p_table_id : option string;
  p_source_layer : option string;
  p_target_layer : option string;
  p_direction : option string
}.

Definition falsy_to_undefined (v : option string) : option string :=
  if Js.truthy v then v else None.

Definition GET (st : Store) (p : Params) : Response TransformationResponse :=
  POST st (Ok {| b_table_name := falsy_to_undefined (p_table_name p);
                 b_table_id := if Js.truthy (p_table_id p)
                               then Js.parseInt (Js.or_default (p_table_id p) EmptyString)
                               else None;
                 b_source_layer := falsy_to_undefined (p_source_layer p);
                 b_target_layer := falsy_to_undefined (p_target_layer p);
                 b_direction := Some (Js.or_default (p_direction p) "both") |}).

End Transformations.

(* ===================================================================== *)
(** ** [tables/route.ts], [GET]: the tables of a layer                    *)
(* ===================================================================== *)

Module TablesRoute.

Record TableOut := {
  id : Z;
  name : string;
  description : option string;
  layer : string
}.

Record TablesResponse := {
  tables_of : list TableOut;
  error : option string
}.

(** [SELECT t.id, t.name, t.description, l.name as layer FROM tables t JOIN
    layers l ON t.layer_id = l.id], with the [WHERE] clause [cond] on the
    layer. *)
Definition select (st : Store) (cond : LayerRow -> bool) : list TableOut :=
  flat_map (fun t =>
    flat_map (fun l =>
      if (t_layer_id t =? l_id l) && cond l
      then [ {| id := t_id t; name := t_name t;
                description := t_description t; layer := l_name l |} ]
      else []) (layers st)) (tables st).

(** [ORDER BY l.name, t.name]. *)
Definition by_layer_then_name (a b : TableOut) : bool :=
  String.ltb (layer a) (layer b)
  || (String.eqb (layer a) (layer b) && String.leb (name a) (name b)).

Definition GET (st : Store) (layer : option string) : Response TablesResponse :=
  let rows :=
    if Js.truthy layer
    then order_by by_layer_then_name
           (select st (fun l => String.eqb (l_name l) (Js.or_default layer EmptyString)))
    else order_by by_layer_then_name (select st (fun _ => true)) in
  match query st rows 0%nat with
  | (Ok result, n) =>
      {| status := 200; body := {| tables_of := result; error := None |}; queries := n |}
  | (Throw msg, n) =>
      {| status := 200; body := {| tables_of := []; error := Some msg |}; queries := n |}
  end.

End TablesRoute.

(* ===================================================================== *)
(** ** The columns route ([POST] of [/api/lineage/columns])               *)
(* ===================================================================== *)

Module Columns.

(** The two flags of a row of [columns] that the routes above do not read. *)
Record Flags := {
  is_key : bool;
  is_nullable : bool
}.

Record Column := {
  id : Z;
  name : string;
  data_type : string;
  key : bool;
  nullable : bool
}.

(** [ColumnsResponse | ErrorResponse]. *)
Inductive Body : Type :=
| Found (columns : list Column) (table_name layer_name : string) (total_columns : Z)
| Failed (columns : list Column) (error : string).

Record ColumnsRequestBody := {
  table : option string;
  layer : option string
}.

(** [Object.keys(LAYER_MAP)]. *)
Definition LAYER_MAP_keys : list string := ["bronze"; "silver"; "gold"].

(** The rows of the query, ordered by column name; [flags] gives the
    columns [is_key] and [is_nullable] of a row. *)
Definition select (flags : ColumnRow -> Flags) (st : Store) (table layer : string)
  : list Column :=
  order_by (fun a b => String.leb (name a) (name b))
    (flat_map (fun c =>
       flat_map (fun t =>
         if c_table_id c =? t_id t then
           flat_map (fun l =>
             if (c_layer_id c =? l_id l)
                && String.eqb (t_name t) table && String.eqb (l_name l) layer
             then [ {| id := c_id c; name := c_name c; data_type := c_data_type c;
                       key := is_key (flags c); nullable := is_nullable (flags c) |} ]
             else []) (layers st)
         else []) (tables st)) (columns st)).

(** [POST].  [json] is the outcome of [await req.json()] and of the
    destructuring that follows it, both inside the [try]: the body, or the
    error thrown when the request carries no body, a text that is not JSON,
    or [null]. *)
Definition POST (flags : ColumnRow -> Flags) (st : Store) (json : Res ColumnsRequestBody)
  : Response Body :=
  match json with
  | Throw msg =>
      {| status := 500; body := Failed [] ("Database error: " ++ msg); queries := 0 |}
  | Ok req =>
      if negb (Js.truthy (table req)) then
        {| status := 400;
           body := Failed [] ("Missing " ++ dquote ++ "table" ++ dquote
                              ++ " parameter in request body");
           queries := 0 |}
      else if negb (Js.truthy (layer req)) then
        {| status := 400;
           body := Failed [] ("Missing " ++ dquote ++ "layer" ++ dquote
                              ++ " parameter in request body");
           queries := 0 |}
      else
        let table := Js.or_default (table req) EmptyString in
        let layer := Js.or_default (layer req) EmptyString in
        if negb (existsb (String.eqb layer) LAYER_MAP_keys) then
          {| status := 400;
             body := Failed [] ("Invalid layer " ++ dquote ++ layer ++ dquote
                                ++ ". Must be one of: bronze, silver, gold");
             queries := 0 |}
        else
          match query st (select flags st table layer) 0%nat with
          | (Ok columns, n) =>
              {| status := 200;
                 body := Found columns table layer (Z.of_nat (length columns));
                 queries := n |}
          | (Throw msg, n) =>
              {| status := 500; body := Failed [] ("Database error: " ++ msg); queries := n |}
          end
  end.

End Columns.

(* ===================================================================== *)
(** ** The data-flow route: assembling the graph from the rows            *)
(* ===================================================================== *)

Module Flow.

Record FlowNode := {
  id : Z;
  name : string;
  layer : string;
  type : string
}.

Record FlowEdge := {
  e_id : Z;
  source : Z;
  target : Z;
  e_type : string;
  confidence : Q;
  depth : Z
}.

Record FlowSummary := {
  total_nodes : Z;
  total_edges : Z;
  max_depth : Z;
  layers_of : list string
}.

Record FlowResponse := {
  nodes : list FlowNode;
  edges : list FlowEdge;
  summary : FlowSummary;
  error : option string
}.

Record FlowRow := {
  relationship_id : Z;
  source_table_id : Z;
  target_table_id : Z;
  source_table : string;
  target_table : string;
  source_layer : string;
  target_layer : string;
  relationship_type : string;
  confidence_score : Q;
  row_depth : Z
}.

(** [new Map<number, FlowNode>()]: the entries in insertion order. *)
Definition has (m : list FlowNode) (k : Z) : bool :=
  existsb (fun n => id n =? k) m.

(** [if (!nodes.has(k)) nodes.set(k, node)]. *)
Definition set_if_absent (m : list FlowNode) (node : FlowNode) : list FlowNode :=
  if has m (id node) then m else (m ++ [node])%list.

(** The body of [flowRows.forEach]. *)
Definition visit (acc : list FlowNode * list FlowEdge) (row : FlowRow)
  : list FlowNode * list FlowEdge :=
  let m1 := set_if_absent (fst acc)
              {| id := source_table_id row; name := source_table row;
                 layer := source_layer row; type := "table" |} in
  let m2 := set_if_absent m1
              {| id := target_table_id row; name := target_table row;
                 layer := target_layer row; type := "table" |} in
  (m2, (snd acc ++ [ {| e_id := relationship_id row;
                        source := source_table_id row;
                        target := target_table_id row;
                        e_type := relationship_type row;
                        confidence := confidence_score row;
                        depth := row_depth row |} ])%list).

(** The response built from the rows of the recursive query. *)
Definition assemble (flowRows : list FlowRow) : FlowResponse :=
  let (nodeArray, edges) := fold_left visit flowRows ([], []) in
  {| nodes := nodeArray;
     edges := edges;
     summary := {| total_nodes := Z.of_nat (length nodeArray);
                   total_edges := Z.of_nat (length edges);
                   max_depth := match edges with
                                | [] => 0
                                | _ :: _ => Js.max_list (map depth edges)
                                end;
                   layers_of := Js.uniq (map layer nodeArray) |};
     error := None |}.

(** The handler once the query text is sent: [result] is what the store
    gives for it, rows or a thrown error; no response sets a status. *)
Definition GET (result : Res (list FlowRow)) : Response FlowResponse :=
  match result with
  | Ok flowRows => {| status := 200; body := assemble flowRows; queries := 1 |}
  | Throw msg =>
      {| status := 200;
         body := {| nodes := []; edges := [];
                    summary := {| total_nodes := 0; total_edges := 0;
                                  max_depth := 0; layers_of := [] |};
                    error := Some msg |};
         queries := 1 |}
  end.

End Flow.

(* ===================================================================== *)
(** ** The lineage viewer: from a clicked node id back to the table       *)
(* ===================================================================== *)

Module Viewer.

(** [s.split(sep)] for a one-character separator. *)
Fixpoint split (sep : ascii) (s : string) : list string :=
  match s with
  | EmptyString => [EmptyString]
  | String c r =>
      if Ascii.eqb c sep then EmptyString :: split sep r
      else match split sep r with
           | h :: t => String c h :: t
           | [] => [String c EmptyString]
           end
  end.

(** [handleNodeClick]: the table name handed to [onTableSelect], if any. *)
Definition handleNodeClick (nodeId : string) : option string :=
  let parts := split "_" nodeId in
  if (2 <=? length parts)%nat
  then Some (String.concat "_" (tl parts))
  else None.

End Viewer.

(* ===================================================================== *)
(** ** The middleware in front of the routes                              *)
(* ===================================================================== *)

Module Middleware.

Definition protectedRoutes : list string :=
  [ "/dashboard"; "/settings"; "/profile"; "/admin"; "/api/lineage";
    "/api/tables"; "/api/columns"; "/api/relationships"; "/api/transformations" ].

Definition adminRoutes : list string := [ "/admin"; "/api/admin" ].

Definition publicRoutes : list string :=
  [ "/"; "/about"; "/contact"; "/handler"; "/auth" ].

(** What [stackServerApp.getUser()] gives: an error, no user, or a user
    with or without the [admin] permission. *)
Inductive Session : Type :=
| Fails
| Anonymous
| User (admin : bool).

Inductive Decision : Type :=
| Next
| RedirectToSignIn (after_auth_return_to : string)
| AccessDenied.

Definition startsWith (pathname route : string) : bool := String.prefix route pathname.

Definition middleware (pathname : string) (session : Session) : Decision :=
  if startsWith pathname "/handler/" then Next
  else if existsb (startsWith pathname) publicRoutes then Next
  else if negb (existsb (startsWith pathname) protectedRoutes) then Next
  else
    match session with
    | Fails => RedirectToSignIn pathname
    | Anonymous => RedirectToSignIn pathname
    | User admin =>
        if existsb (startsWith pathname) adminRoutes && negb admin
        then AccessDenied
        else Next
    end.

End Middleware.

(* ===================================================================== *)
(** ** Sample stores                                                      *)
(* ===================================================================== *)

Module Samples.

Definition healthy : nat -> option string := fun _ => None.

Definition three_layers : list LayerRow :=
  [ {| l_id := 1; l_name := "bronze" |};
    {| l_id := 2; l_name := "silver" |};
    {| l_id := 3; l_name := "gold" |} ].

Definition table (id : Z) (name : string) (layer_id : Z) : TableRow :=
  {| t_id := id; t_name := name; t_description := None; t_layer_id := layer_id |}.

Definition transformation (id source target : Z) (kind : string) : TransformationRow :=
  {| tr_id := id; tr_name := "job"; tr_description := "declared";
     tr_script := None; tr_transformation_type := Some kind; tr_status := None;
     tr_created_at := id; tr_confidence_score := (1 # 2)%Q;
     tr_source_table_id := source; tr_target_table_id := target |}.

Definition relationship (id source target : Z) (confidence : Q) : RelationshipRow :=
  {| rel_id := id; rel_relationship_type := "lineage"; rel_description := "flow";
     rel_confidence_score := confidence;
     rel_source_table_id := source; rel_target_table_id := target |}.

(** [orders] (bronze) -> [orders_clean] (silver) -> [orders_agg] (gold). *)
Definition chain_store : Store :=
  {| layers := three_layers;
     tables := [ table 1 "orders" 1; table 2 "orders_clean" 2; table 3 "orders_agg" 3 ];
     columns := [];
     transformations := [ transformation 1 1 2 "cleansing";
                          transformation 2 2 3 "aggregation" ];
     table_relationships := [ relationship 1 1 2 (9 # 10)%Q;
                              relationship 2 2 3 (4 # 5)%Q;
                              relationship 3 2 2 (1 # 2)%Q ];
     outage := healthy |}.

(** The same chain in a store that holds more: a table and a relationship
    that the chain from [orders] does not reach. *)
Definition busier_store : Store :=
  {| layers := three_layers;
     tables := [ table 1 "orders" 1; table 2 "orders_clean" 2; table 3 "orders_agg" 3;
                 table 4 "customers" 1 ];
     columns := [];
     transformations := [ transformation 1 1 2 "cleansing";
                          transformation 2 2 3 "aggregation" ];
     table_relationships := [ relationship 1 4 1 (3 # 4)%Q ];
     outage := healthy |}.

(** A cycle [A -> B -> C -> A] inside one layer. *)
Definition cycle_store : Store :=
  {| layers := three_layers;
     tables := [ table 1 "A" 1; table 2 "B" 1; table 3 "C" 1 ];
     columns := [];
     transformations := [ transformation 1 1 2 "copy"; transformation 2 2 3 "copy";
                          transformation 3 3 1 "copy" ];
     table_relationships := [];
     outage := healthy |}.

(** [raw -> clean -> mart] with a direct transformation [raw -> mart]. *)
Definition shortcut_store : Store :=
  {| layers := three_layers;
     tables := [ table 1 "raw" 1; table 2 "clean" 2; table 3 "mart" 3 ];
     columns := [];
     transformations := [ transformation 1 1 2 "cleansing";
                          transformation 2 2 3 "aggregation";
                          transformation 3 1 3 "export" ];
     table_relationships := [];
     outage := healthy |}.

(** One table in a fourth layer. *)
Definition platinum_store : Store :=
  {| layers := [ {| l_id := 4; l_name := "platinum" |} ];
     tables := [ table 1 "kpi" 4 ];
     columns := [];
     transformations := [];
     table_relationships := [];
     outage := healthy |}.

Definition lineage_of (name layer : string) (direction : option string)
  : Mermaid.MermaidRequestBody :=
  {| Mermaid.table_name := Some name; Mermaid.layer := Some layer;
     Mermaid.direction := direction |}.

End Samples.

(* ===================================================================== *)
(** ** Vocabulary of the properties                                       *)
(* ===================================================================== *)

Module ChainTerms.
Import Mermaid.

(** The rows the recursive query accumulates in [n] rounds. *)
Fixpoint levels (st : Store) (n : nat) (work : list ChainRow) : list ChainRow :=
  match n with
  | O => []
  | S n' => (work ++ levels st n' (recursive_term st work))%list
  end.

(** The node list built from the rows of the recursive query when every
    column-count query is answered. *)
Definition nodes_of (st : Store) (rows : list ChainRow) : list LineageNode :=
  map (fun row => make_node row (column_count st (r_id row))) rows.

(** The edge, if any, that the loop pushes for one pair of consecutive
    nodes, and the edge list it builds when every query is answered. *)
Definition edge_between (st : Store) (pair : LineageNode * LineageNode) : list LineageEdge :=
  match transformation_between st (n_id (fst pair)) (n_id (snd pair)) with
  | transformation :: _ => [make_edge (fst pair) (snd pair) transformation]
  | [] => []
  end.

Definition edges_of (st : Store) (nodes : list LineageNode) : list LineageEdge :=
  flat_map (edge_between st) (combine nodes (tl nodes)).

(** The three shapes of an answer of [POST]: rejected, failed, resolved. *)
Inductive answered (st : Store) (req : MermaidRequestBody)
  : Response MermaidLineageResponse -> Prop :=
| answered_400 out :
    Js.truthy (table_name req) && Js.truthy (layer req) = false ->
    status out = 400 -> queries out = 0%nat ->
    nodes (body out) = [] -> edges (body out) = [] ->
    mermaid_syntax (body out) = EmptyString ->
    error (body out) = Some "table_name and layer are required" ->
    answered st req out
| answered_500 out msg :
    Js.truthy (table_name req) && Js.truthy (layer req) = true ->
    status out = 500 ->
    body out = empty_response EmptyString EmptyString ("Database error: " ++ msg) ->
    answered st req out
| answered_200 out rows text :
    Js.truthy (table_name req) && Js.truthy (layer req) = true ->
    status out = 200 ->
    rows = order_by chain_leb
             (levels st 4 (seed_term st (Js.or_default (table_name req) EmptyString)
                                        (Js.or_default (layer req) EmptyString))) ->
    nodes (body out) = nodes_of st rows ->
    edges (body out) = edges_of st (nodes (body out)) ->
    synthesize (nodes (body out)) (edges (body out)) = Ok text ->
    mermaid_syntax (body out) = text ->
    total_depth (body out) = totalDepth (nodes (body out)) ->
    layers_involved (body out) = layersInvolved (nodes (body out)) ->
    error (body out) = None ->
    answered st req out.

(** [ORDER BY layer_id, name], read on the nodes. *)
Definition node_leb (a b : LineageNode) : bool :=
  (n_layer_id a <? n_layer_id b)
  || ((n_layer_id a =? n_layer_id b) && String.leb (n_name a) (n_name b)).

(** Number of walks of [k] transformations from table [from] to table
    [to]; parallel transformations between two tables count separately. *)
Fixpoint walks (st : Store) (k : nat) (from to : Z) : nat :=
  match k with
  | O => if from =? to then 1 else 0
  | S k' =>
      list_sum (map (fun tr => if from =? tr_source_table_id tr
                               then walks st k' (tr_target_table_id tr) to
                               else 0%nat)
                    (transformations st))
  end.

(** What the store adapter guarantees: keys are unique and references
    resolve. *)
Record well_formed (st : Store) : Prop := {
  wf_table_ids : NoDup (map t_id (tables st));
  wf_layer_ids : NoDup (map l_id (layers st));
  wf_table_layer :
    forall t, In t (tables st) -> exists l, In l (layers st) /\ l_id l = t_layer_id t;
  wf_transformation_target :
    forall tr, In tr (transformations st) ->
               exists t, In t (tables st) /\ t_id t = tr_target_table_id tr
}.

(** Entries of the node list for table [t] recorded at depth [d]. *)
Definition entries_at (t d : Z) (ns : list LineageNode) : nat :=
  length (filter (fun n => (n_id n =? t) && (n_depth n =? d)) ns).

(** The row that the recursive term selects for a row [lc] of the working
    table, the target table [tt] of a transformation and its layer [tl]. *)
Definition next_row (lc : ChainRow) (tt : TableRow) (tl : LayerRow) : ChainRow :=
  {| r_id := t_id tt; r_name := t_name tt; r_layer := l_name tl;
     r_layer_id := l_id tl; r_depth := r_depth lc + 1;
     r_description := t_description tt |}.

(** The subgraph header as the specification words it: no subtitle for a
    layer other than bronze, silver and gold. *)
Definition claimed_header (layerName : string) : string :=
  "    subgraph " ++ dquote ++ layerTitle layerName
  ++ (if String.eqb layerName "bronze" then " - Raw Data"
      else if String.eqb layerName "silver" then " - Cleansed Data"
      else if String.eqb layerName "gold" then " - Business Ready"
      else EmptyString)
  ++ dquote ++ nl.

(** *** The text of a diagram, described layer by layer

    The identifier of a table in the diagram: its layer in upper case, an
    underscore and its name. *)
Definition identifier (layer name : string) : string :=
  Js.toUpperCase layer ++ "_" ++ name.

(** The line that declares a node: its identifier, then its label (name,
    number of columns, description) between brackets and quotes. *)
Definition declaration (n : LineageNode) : string :=
  "        " ++ identifier (n_layer n) (n_name n) ++ "[" ++ dquote
  ++ (n_name n ++ "<br/>" ++ Js.show_Z (n_column_count n) ++ " columns<br/>"
      ++ n_description n)
  ++ dquote ++ "]" ++ nl.

(** The line that connects the two ends of an edge. *)
Definition connection (e : LineageEdge) : string :=
  "    " ++ identifier (e_source_layer e) (e_source e)
  ++ " -->|" ++ Js.show_opt (e_transformation_type e) ++ "| "
  ++ identifier (e_target_layer e) (e_target e) ++ nl.

(** The nodes of one layer, in the order of the node list. *)
Definition members (l : string) (ns : list LineageNode) : list LineageNode :=
  filter (fun n => String.eqb (n_layer n) l) ns.

(** The subgraph of the layer [l]: the header line, one declaration per
    node of the layer, and the closing line. *)
Definition block (header : string -> string) (ns : list LineageNode) (l : string)
  : string :=
  header l
  ++ String.concat EmptyString (map declaration (members l ns))
  ++ "    end" ++ nl ++ nl.

(** The lines that give the nodes of the layer [l] the class [l]. *)
Definition classes (ns : list LineageNode) (l : string) : string :=
  String.concat EmptyString
    (map (fun n => "    class " ++ identifier (n_layer n) (n_name n) ++ " " ++ l ++ nl)
         (members l ns)).

Definition styling : string :=
  nl ++ "    %% Layer Styling" ++ nl
  ++ "    classDef bronze fill:#fff3e0,stroke:#e65100,stroke-width:2px,color:#000" ++ nl
  ++ "    classDef silver fill:#f3e5f5,stroke:#4a148c,stroke-width:2px,color:#000" ++ nl
  ++ "    classDef gold fill:#e8f5e8,stroke:#1b5e20,stroke-width:2px,color:#000" ++ nl ++ nl.

(** The whole text for the layers [ls], the nodes [ns] and the edges [es]:
    the first line, one subgraph per layer of [ls], one connection per
    edge, the styling, and the class lines layer by layer. *)
Definition diagram (header : string -> string) (ls : list string)
  (ns : list LineageNode) (es : list LineageEdge) : string :=
  "graph LR" ++ nl ++ nl
  ++ String.concat EmptyString (map (block header ns) ls)
  ++ String.concat EmptyString (map connection es)
  ++ styling
  ++ String.concat EmptyString (map (classes ns) ls).

(** The header line of a subgraph: the layer name with its first letter in
    upper case, [Layer], and the subtitle, which is [Business Ready] for
    every layer other than bronze and silver. *)
Definition header (l : string) : string :=
  "    subgraph " ++ dquote
  ++ (Js.toUpperCase (Js.charAt0 l) ++ Js.slice1 l ++ " Layer")
  ++ " - "
  ++ (if String.eqb l "bronze" then "Raw Data"
      else if String.eqb l "silver" then "Cleansed Data"
      else "Business Ready")
  ++ dquote ++ nl.

(** The layer names that the text upper-cases, those of the nodes and of
    the two ends of the edges, are in ASCII. *)
Definition ascii_layers (ns : list LineageNode) (es : list LineageEdge) : Prop :=
  (forall n, In n ns -> Js.is_ascii (n_layer n) = true)
  /\ (forall e, In e es -> Js.is_ascii (e_source_layer e) = true
                          /\ Js.is_ascii (e_target_layer e) = true).

(** [line] is written somewhere in [text]. *)
Definition occurs (line text : string) : Prop :=
  exists before rest, text = before ++ line ++ rest.

(** What the [reduce] has built after the nodes [seen]: one key per layer
    seen, none of them inherited, each holding the nodes of its layer in
    the order seen. *)
Definition grouped (seen : list LineageNode) (acc : Js.dict (list LineageNode)) : Prop :=
  NoDup (map fst acc)
  /\ (forall l, In l (map fst acc) <-> In l (map n_layer seen))
  /\ (forall l, In l (map fst acc) -> Js.inherited l = false)
  /\ (forall l v, In (l, v) acc -> v = filter (fun n => String.eqb (n_layer n) l) seen).

End ChainTerms.

Module LookupTerms.
Import Relationships.

(** The unrestricted join: no [WHERE] clause. *)
Definition unfiltered (_ : RelationshipRow) (_ _ : TableRow) : bool := true.

(** The [WHERE] clause for direction [d], on the selected columns. *)
Definition restriction (d : string) (src tgt : Relationship -> bool) (r : Relationship)
  : bool :=
  if String.eqb d "upstream" then tgt r
  else if String.eqb d "downstream" then src r
  else src r || tgt r.

(** What a lookup on a table returns, for the requested direction [d]:
    [labelled] are all the edges of the store, labelled relative to the
    table; [at_source] and [at_target] say that the table is the source,
    the target of an edge. *)
Definition answers_lookup (d : string) (labelled : list Relationship)
  (at_source at_target : Relationship -> Prop) (rs : list Relationship) : Prop :=
  (d = "upstream" -> forall r, In r rs <-> In r labelled /\ at_target r)
  /\ (d = "downstream" -> forall r, In r rs <-> In r labelled /\ at_source r)
  /\ (forall r, In r rs ->
        (direction r = "downstream" <-> at_source r)
        /\ (direction r = "upstream" <-> ~ at_source r)
        /\ (at_source r \/ at_target r))
  /\ Sorted (fun a b => (confidence_score b <= confidence_score a)%Q) rs.

(** A lookup by table id. *)
Definition lookup (table_id direction : string) : Request :=
  {| q_table_id := Some table_id; q_table_name := None;
     q_direction := Some direction |}.

End LookupTerms.

Module SearchTerms.

(** The characters that [ILIKE] reads as wildcards or as the escape. *)
Definition wildcard (c : ascii) : bool :=
  Ascii.eqb c "%" || Ascii.eqb c "_" || Ascii.eqb c "\".

(** A query string without any of them. *)
Fixpoint plain (s : string) : bool :=
  match s with
  | EmptyString => true
  | String c r => negb (wildcard c) && plain r
  end.

(** A query string made of [%] only. *)
Fixpoint all_percent (s : string) : bool :=
  match s with
  | EmptyString => true
  | String c r => Ascii.eqb c "%" && all_percent r
  end.

(** Two texts of the same length that differ by the case of letters only. *)
Fixpoint same_text (a b : string) : bool :=
  match a, b with
  | EmptyString, EmptyString => true
  | String c a', String d b' => Search.same_letter c d && same_text a' b'
  | _, _ => false
  end.

End SearchTerms.

Module FlowTerms.
Import Flow.

(** The node and the edge that a row of the data flow stands for. *)
Definition source_node (row : FlowRow) : FlowNode :=
  {| id := source_table_id row; name := source_table row;
     layer := source_layer row; type := "table" |}.

Definition target_node (row : FlowRow) : FlowNode :=
  {| id := target_table_id row; name := target_table row;
     layer := target_layer row; type := "table" |}.

Definition edge_of (row : FlowRow) : FlowEdge :=
  {| e_id := relationship_id row;
     source := source_table_id row;
     target := target_table_id row;
     e_type := relationship_type row;
     confidence := confidence_score row;
     depth := row_depth row |}.

(** The tables the rows mention, in the order the handler meets them:
    source, then target, row after row. *)
Definition mentions (rows : list FlowRow) : list FlowNode :=
  flat_map (fun row => [source_node row; target_node row]) rows.

(** A sample row. *)
Definition flow_row (k source target : Z) (source_name target_name : string) (d : Z)
  : FlowRow :=
  {| relationship_id := k; source_table_id := source; target_table_id := target;
     source_table := source_name; target_table := target_name;
     source_layer := "bronze"; target_layer := "silver";
     relationship_type := "lineage"; confidence_score := (9 # 10)%Q;
     row_depth := d |}.

End FlowTerms.

Module LookupSamples.

Definition by_name_request (name direction : string)
  : Transformations.TransformationRequestBody :=
  {| Transformations.b_table_name := Some name;
     Transformations.b_table_id := Some 7;
     Transformations.b_source_layer := None;
     Transformations.b_target_layer := None;
     Transformations.b_direction := Some direction |}.

Definition layer_pair_request (source target : string)
  : Transformations.TransformationRequestBody :=
  {| Transformations.b_table_name := None;
     Transformations.b_table_id := None;
     Transformations.b_source_layer := Some source;
     Transformations.b_target_layer := Some target;
     Transformations.b_direction := None |}.

End LookupSamples.

(* ===================================================================== *)
(** ** General facts: strings, lists, [ORDER BY], the query monad         *)
(* ===================================================================== *)

Lemma string_append_assoc (a b c : string) : (a ++ b) ++ c = a ++ b ++ c.
Proof. induction a as [|x a IH]; simpl; [reflexivity | rewrite IH; reflexivity]. Qed.

Lemma string_append_nil_r (a : string) : a ++ EmptyString = a.
Proof. induction a as [|x a IH]; simpl; [reflexivity | rewrite IH; reflexivity]. Qed.

Lemma concat_cons (x : string) (l : list string) :
  String.concat EmptyString (x :: l) = x ++ String.concat EmptyString l.
Proof.
  destruct l; simpl; [rewrite string_append_nil_r; reflexivity | reflexivity].
Qed.

Lemma filter_partition_perm {A} (p : A -> bool) (l : list A) :
  Permutation (filter p l ++ filter (fun x => negb (p x)) l)%list l.
Proof.
  induction l as [|x l IH]; simpl; [constructor|].
  destruct (p x); simpl.
  - constructor; exact IH.
  - apply Permutation_sym, Permutation_cons_app, Permutation_sym; exact IH.
Qed.

Lemma flat_map_ext_in {A B} (f g : A -> list B) (l : list A) :
  (forall a, In a l -> f a = g a) -> flat_map f l = flat_map g l.
Proof.
  induction l as [|a l IH]; intros H; simpl; [reflexivity|].
  rewrite (H a) by (left; reflexivity).
  rewrite IH by (intros b Hb; apply H; right; exact Hb). reflexivity.
Qed.

(** A list without repetition that holds [a] and nothing else. *)
Lemma nodup_singleton {A} (a : A) (l : list A) :
  NoDup l -> (forall x, In x l <-> x = a) -> l = [a].
Proof.
  intros Hnd H. destruct l as [|x l].
  - exfalso. apply (proj2 (H a) eq_refl).
  - assert (Hx : x = a) by (apply H; left; reflexivity). subst x.
    destruct l as [|y l]; [reflexivity|].
    assert (Hy : y = a) by (apply H; right; left; reflexivity). subst y.
    apply NoDup_cons_iff in Hnd as [Hn _]. exfalso. apply Hn. left. reflexivity.
Qed.

Lemma flat_map_nil {A B} (f : A -> list B) (l : list A) :
  (forall x, In x l -> f x = []) -> flat_map f l = [].
Proof.
  induction l as [|a l IH]; intros H; simpl; [reflexivity|].
  rewrite (H a (or_introl eq_refl)), IH; [reflexivity|].
  intros x Hx; apply H; right; exact Hx.
Qed.

(** A join on a key that is unique in the joined table selects one row. *)
Lemma flat_map_unique_key {A B} (key : A -> Z) (f : A -> list B) (l : list A) (x : A) :
  NoDup (map key l) -> In x l ->
  flat_map (fun y => if key x =? key y then f y else []) l = f x.
Proof.
  induction l as [|a l IH]; intros Hnd Hin; [destruct Hin|].
  simpl in *. inversion Hnd as [|? ? Hnotin Hnd']; subst.
  destruct Hin as [-> | Hin].
  - rewrite Z.eqb_refl.
    rewrite flat_map_nil; [apply app_nil_r|].
    intros y Hy. destruct (Z.eqb_spec (key x) (key y)) as [E|]; [|reflexivity].
    exfalso; apply Hnotin; rewrite E; apply in_map; exact Hy.
  - destruct (Z.eqb_spec (key x) (key a)) as [E|].
    + exfalso; apply Hnotin; rewrite <- E; apply in_map; exact Hin.
    + simpl; apply IH; assumption.
Qed.

Section OrderByFacts.
Context {A : Type} (leb : A -> A -> bool).
Hypothesis leb_total : forall a b, leb a b = false -> leb b a = true.

Lemma insert_sorted_perm (x : A) (l : list A) :
  Permutation (x :: l) (insert_sorted leb x l).
Proof.
  induction l as [|y l IH]; simpl; [apply Permutation_refl|].
  destruct (leb x y); [apply Permutation_refl|].
  eapply perm_trans; [apply perm_swap|]. apply perm_skip; exact IH.
Qed.

Lemma order_by_perm (l : list A) : Permutation l (order_by leb l).
Proof.
  induction l as [|x l IH]; simpl; [apply perm_nil|].
  eapply perm_trans; [apply perm_skip; exact IH|]. apply insert_sorted_perm.
Qed.

Lemma order_by_In (l : list A) (x : A) : In x (order_by leb l) <-> In x l.
Proof.
  split; apply Permutation_in;
    [apply Permutation_sym|]; apply order_by_perm.
Qed.

Lemma insert_sorted_hdrel (a x : A) (l : list A) :
  leb a x = true -> HdRel (fun u v => leb u v = true) a l ->
  HdRel (fun u v => leb u v = true) a (insert_sorted leb x l).
Proof.
  intros Hax Hl. destruct l as [|y l]; simpl.
  - constructor; exact Hax.
  - destruct (leb x y); constructor; [exact Hax|].
    inversion Hl; assumption.
Qed.

Lemma insert_sorted_sorted (x : A) (l : list A) :
  Sorted (fun u v => leb u v = true) l ->
  Sorted (fun u v => leb u v = true) (insert_sorted leb x l).
Proof.
  induction l as [|y l IH]; intros Hs; simpl.
  - repeat constructor.
  - destruct (leb x y) eqn:E.
    + constructor; [exact Hs|]. constructor; exact E.
    + inversion Hs as [|? ? Hs' Hhd]; subst.
      constructor; [apply IH; exact Hs'|].
      apply insert_sorted_hdrel; [apply leb_total; exact E | exact Hhd].
Qed.

Lemma order_by_sorted (l : list A) :
  Sorted (fun u v => leb u v = true) (order_by leb l).
Proof.
  induction l as [|x l IH]; simpl; [constructor|].
  apply insert_sorted_sorted; exact IH.
Qed.

End OrderByFacts.

(** Running the monad. *)
Lemma bind_ok {A B} (m : Sql A) (k : A -> Sql B) (n n' : nat) (b : B) :
  bind m k n = (Ok b, n') ->
  exists a n1, m n = (Ok a, n1) /\ k a n1 = (Ok b, n').
Proof.
  unfold bind. destruct (m n) as [[a|msg] n1]; intros H; [|discriminate].
  exists a, n1; split; [reflexivity | exact H].
Qed.

Lemma query_ok {A} (st : Store) (rows r : A) (n n' : nat) :
  query st rows n = (Ok r, n') -> r = rows /\ n' = S n.
Proof.
  unfold query. destruct (outage st n); intros H; inversion H; auto.
Qed.

Lemma for_each_ok {A B} (f : A -> Sql B) (g : A -> B) :
  (forall a n b n', f a n = (Ok b, n') -> b = g a) ->
  forall l n bs n', for_each f l n = (Ok bs, n') -> bs = map g l.
Proof.
  intros Hf. induction l as [|a l IH]; intros n bs n' H; simpl in H.
  - inversion H; reflexivity.
  - apply bind_ok in H as (b & n1 & Hb & H).
    apply bind_ok in H as (bs' & n2 & Hbs & H).
    inversion H; subst. simpl. f_equal; [eapply Hf; eassumption|].
    eapply IH; eassumption.
Qed.

(* ===================================================================== *)
(** ** The lineage chain: termination and depth                           *)
(* ===================================================================== *)

Module ChainFacts.
Import Mermaid ChainTerms.

Lemma levels_nil st n : levels st n [] = [].
Proof. induction n as [|n IH]; simpl; [reflexivity | exact IH]. Qed.

Lemma with_recursive_levels st n :
  forall work fuel,
    Nat.iter n (recursive_term st) work = [] -> (n <= fuel)%nat ->
    with_recursive st fuel work = Some (levels st n work).
Proof.
  induction n as [|n IH]; intros work fuel Hit Hle.
  - simpl in Hit; subst work. destruct fuel; reflexivity.
  - rewrite Nat.iter_succ_r in Hit.
    destruct work as [|r work].
    + rewrite levels_nil. destruct fuel; reflexivity.
    + destruct fuel as [|fuel]; [lia|].
      cbn [with_recursive levels].
      rewrite (IH _ fuel Hit) by lia. reflexivity.
Qed.

(** Where a row of the recursive term comes from. *)
Lemma recursive_term_In st work r :
  In r (recursive_term st work) ->
  exists lc tr, In lc work /\ In tr (transformations st)
    /\ tr_source_table_id tr = r_id lc /\ tr_target_table_id tr = r_id r
    /\ r_depth lc < 3 /\ r_depth r = r_depth lc + 1.
Proof.
  unfold recursive_term. intros H.
  apply in_flat_map in H as (lc & Hlc & H).
  apply in_flat_map in H as (tr & Htr & H).
  destruct (Z.eqb_spec (r_id lc) (tr_source_table_id tr)) as [E1|]; [|destruct H].
  apply in_flat_map in H as (tt & Htt & H).
  destruct (Z.eqb_spec (tr_target_table_id tr) (t_id tt)) as [E2|]; [|destruct H].
  apply in_flat_map in H as (tl & Htl & H).
  destruct (t_layer_id tt =? l_id tl); simpl in H; [|destruct H].
  destruct (Z.ltb_spec (r_depth lc) 3) as [E3|]; [|destruct H].
  destruct H as [<- | []]. simpl.
  exists lc, tr. repeat split; auto.
Qed.

Lemma iter_depth st seed k r :
  (forall s, In s seed -> r_depth s = 0) ->
  In r (Nat.iter k (recursive_term st) seed) -> r_depth r = Z.of_nat k.
Proof.
  intros Hseed. revert r. induction k as [|k IH]; intros r H.
  - simpl in H. rewrite (Hseed r H). reflexivity.
  - simpl in H. apply recursive_term_In in H as (lc & tr & Hlc & _ & _ & _ & _ & Hd).
    rewrite Hd, (IH lc Hlc). lia.
Qed.

Lemma iter_four_nil st seed :
  (forall s, In s seed -> r_depth s = 0) ->
  Nat.iter 4 (recursive_term st) seed = [].
Proof.
  intros Hseed.
  destruct (Nat.iter 4 (recursive_term st) seed) as [|r l] eqn:E; [reflexivity|].
  assert (H : In r (Nat.iter 4 (recursive_term st) seed)) by (rewrite E; left; reflexivity).
  change (Nat.iter 4 (recursive_term st) seed)
    with (recursive_term st (Nat.iter 3 (recursive_term st) seed)) in H.
  apply recursive_term_In in H as (lc & tr & Hlc & _ & _ & _ & Hlt & _).
  apply (iter_depth st seed 3 lc Hseed) in Hlc. lia.
Qed.

Lemma seed_term_depth st table lay s :
  In s (seed_term st table lay) -> r_depth s = 0.
Proof.
  unfold seed_term. intros H.
  apply in_flat_map in H as (t & _ & H).
  apply in_flat_map in H as (l & _ & H).
  destruct (_ && _); [|destruct H].
  destruct H as [<- | []]. reflexivity.
Qed.

(** The recursive query ends within four rounds (depths 0 to 3); any
    larger allowance gives the same rows. *)
Lemma with_recursive_seed st table lay fuel :
  (4 <= fuel)%nat ->
  with_recursive st fuel (seed_term st table lay)
  = Some (levels st 4 (seed_term st table lay)).
Proof.
  intros Hf. apply with_recursive_levels; [|exact Hf].
  apply iter_four_nil. apply seed_term_depth.
Qed.

Lemma lineage_chain_returns st table lay :
  lineage_chain st table lay
  = Some (order_by chain_leb (levels st 4 (seed_term st table lay))).
Proof.
  unfold lineage_chain, chain_rounds.
  rewrite with_recursive_seed by lia. reflexivity.
Qed.

Lemma levels_four st seed :
  levels st 4 seed
  = (Nat.iter 0 (recursive_term st) seed ++ Nat.iter 1 (recursive_term st) seed
     ++ Nat.iter 2 (recursive_term st) seed ++ Nat.iter 3 (recursive_term st) seed)%list.
Proof. simpl. rewrite app_nil_r. reflexivity. Qed.

Lemma levels_depth st table lay r :
  In r (levels st 4 (seed_term st table lay)) -> 0 <= r_depth r <= 3.
Proof.
  rewrite levels_four. intros H.
  repeat (apply in_app_or in H as [H|H]);
    apply (iter_depth st _ _ r (seed_term_depth st table lay)) in H; lia.
Qed.

Lemma build_nodes_ok st rows n ns n' :
  build_nodes st rows n = (Ok ns, n') -> ns = nodes_of st rows.
Proof.
  unfold build_nodes, nodes_of. apply for_each_ok.
  intros row m b m' H.
  apply bind_ok in H as (c & m1 & Hq & H).
  apply query_ok in Hq as [-> _]. inversion H; reflexivity.
Qed.

Lemma build_edges_ok st nodes :
  forall n es n', build_edges st nodes n = (Ok es, n') -> es = edges_of st nodes.
Proof.
  induction nodes as [|s rest IH]; intros n es n' H.
  - inversion H; reflexivity.
  - destruct rest as [|t rest'].
    + inversion H; reflexivity.
    + cbn [build_edges] in H.
      apply bind_ok in H as (rows & n1 & Hq & H).
      apply query_ok in Hq as [-> _].
      apply bind_ok in H as (es' & n2 & Hes & H).
      apply IH in Hes. subst es'.
      unfold edges_of. cbn [tl combine flat_map]. unfold edge_between at 1. cbn [fst snd].
      inversion H; subst.
      destruct (transformation_between st (n_id s) (n_id t)); reflexivity.
Qed.

(** The handler always answers, in one of these shapes. *)
Lemma POST_answers st req : exists out, POST st req = Some out /\ answered st req out.
Proof.
  unfold POST.
  destruct (Js.truthy (table_name req)) eqn:Et; simpl.
  2:{ eexists; split; [reflexivity|].
      apply answered_400; try reflexivity. rewrite Et; reflexivity. }
  destruct (Js.truthy (layer req)) eqn:El; simpl.
  2:{ eexists; split; [reflexivity|].
      apply answered_400; try reflexivity. rewrite Et, El; reflexivity. }
  rewrite lineage_chain_returns.
  set (rows := order_by chain_leb _).
  destruct (resolve st _ _ rows 0%nat) as [[response|msg] n] eqn:E.
  - eexists; split; [reflexivity|].
    unfold resolve in E.
    apply bind_ok in E as (rows' & n1 & Hq & E). apply query_ok in Hq as [-> _].
    apply bind_ok in E as (ns & n2 & Hns & E). apply build_nodes_ok in Hns.
    apply bind_ok in E as (es & n3 & Hes & E). apply build_edges_ok in Hes.
    destruct (synthesize ns es) as [text|msg] eqn:Es; [|discriminate].
    inversion E; subst response n. clear E.
    eapply answered_200 with (rows := rows) (text := text); simpl;
      try reflexivity; try assumption.
    rewrite Et, El; reflexivity.
  - eexists; split; [reflexivity|].
    eapply answered_500; [rewrite Et, El; reflexivity | reflexivity | reflexivity].
Qed.

End ChainFacts.

(* ===================================================================== *)
(** ** [mermaid/route.ts]: properties of the lineage chain                *)
(* ===================================================================== *)

Module ChainProps.
Import Mermaid ChainTerms ChainFacts Samples.

(** C3 (as stated, refuted): on the cycle A -> B -> C -> A the chain
    resolved from A returns A twice, at depth 0 and again at depth 3. *)
Lemma cycle_seed_returned_at_depth_3 :
  exists out,
    POST cycle_store (lineage_of "A" "bronze" None) = Some out
    /\ map (fun n => (n_name n, n_depth n)) (nodes (body out))
       = [("A", 0); ("A", 3); ("B", 1); ("C", 2)].
Proof. eexists; split; [vm_compute; reflexivity | reflexivity]. Qed.

(** C3 (amended): over every transformation relation, cyclic or not, the
    lineage-chain resolution returns; expansion stops at depth 3, so every
    returned entry has a depth from 0 to 3, and granting the recursive query
    more rounds does not change its rows. *)
Theorem lineage_chain_terminates_within_depth_3 (st : Store) (req : MermaidRequestBody) :
  (exists out,
      POST st req = Some out
      /\ forall n, In n (nodes (body out)) -> 0 <= n_depth n <= 3)
  /\ forall table lay fuel, (4 <= fuel)%nat ->
       with_recursive st fuel (seed_term st table lay)
       = with_recursive st chain_rounds (seed_term st table lay).
Proof.
  split.
  - destruct (POST_answers st req) as (out & Hout & Hshape).
    exists out; split; [exact Hout|].
    intros n Hn. destruct Hshape as [out H _ _ Hnodes | out msg _ _ Hbody
                                    | out rows text _ _ Hrows Hnodes].
    + rewrite Hnodes in Hn; destruct Hn.
    + rewrite Hbody in Hn; destruct Hn.
    + rewrite Hnodes in Hn. unfold nodes_of in Hn.
      apply in_map_iff in Hn as (row & <- & Hrow). simpl.
      subst rows. apply order_by_In in Hrow.
      eapply levels_depth; exact Hrow.
  - intros table lay fuel Hf. unfold chain_rounds.
    rewrite !with_recursive_seed by lia. reflexivity.
Qed.

(** C2 (evaluation at the failing input): an upstream request on
    [orders_clean] returns its descendant [orders_agg] and not its ancestor
    [orders]. *)
Lemma upstream_request_returns_descendants :
  exists out,
    POST chain_store (lineage_of "orders_clean" "silver" (Some "upstream")) = Some out
    /\ map n_name (nodes (body out)) = ["orders_clean"; "orders_agg"].
Proof. eexists; split; [vm_compute; reflexivity | reflexivity]. Qed.

(** The handler never reads the requested direction. *)
Lemma POST_ignores_direction (st : Store) (req : MermaidRequestBody) (d : option string) :
  POST st {| table_name := table_name req; layer := layer req; direction := d |}
  = POST st req.
Proof. reflexivity. Qed.

(** C7: a request naming a table and a layer, on a store that answers,
    where no table of that name belongs to a layer of that name, gets a
    success response with no node, no edge, depth 0, no layer and no
    [error] field. *)
Theorem absent_seed_gives_empty_graph
  (st : Store) (req : MermaidRequestBody) (name lay : string) :
  table_name req = Some name -> name <> EmptyString ->
  layer req = Some lay -> lay <> EmptyString ->
  (forall t l, In t (tables st) -> In l (layers st) -> t_layer_id t = l_id l ->
               t_name t = name -> l_name l <> lay) ->
  outage st 0%nat = None ->
  exists out,
    POST st req = Some out
    /\ status out = 200
    /\ nodes (body out) = [] /\ edges (body out) = []
    /\ total_depth (body out) = 0 /\ layers_involved (body out) = []
    /\ error (body out) = None.
Proof.
  intros Hname Hne Hlay Hle Habsent Hup.
  assert (Hseed : seed_term st name lay = []).
  { unfold seed_term. apply flat_map_nil; intros t Ht.
    apply flat_map_nil; intros l Hl.
    destruct (Z.eqb_spec (t_layer_id t) (l_id l)) as [E1|]; [|reflexivity].
    destruct (String.eqb_spec (t_name t) name) as [E2|]; [|reflexivity].
    destruct (String.eqb_spec (l_name l) lay) as [E3|]; [|reflexivity].
    exfalso; exact (Habsent t l Ht Hl E1 E2 E3). }
  unfold POST. rewrite Hname, Hlay. simpl.
  destruct (String.eqb_spec name EmptyString) as [|_]; [contradiction|].
  destruct (String.eqb_spec lay EmptyString) as [|_]; [contradiction|].
  simpl. rewrite lineage_chain_returns, Hseed.
  unfold resolve, bind, query. rewrite Hup. simpl.
  eexists; split; [reflexivity|]. simpl. repeat split; reflexivity.
Qed.

(** No table of the sample store is named [customers]. *)
Lemma absent_seed_gives_empty_graph_witness :
  exists out,
    POST chain_store (lineage_of "customers" "bronze" None) = Some out
    /\ status out = 200
    /\ nodes (body out) = [] /\ edges (body out) = []
    /\ total_depth (body out) = 0 /\ layers_involved (body out) = []
    /\ error (body out) = None.
Proof.
  apply (absent_seed_gives_empty_graph chain_store
           (lineage_of "customers" "bronze" None) "customers" "bronze").
  - reflexivity.
  - discriminate.
  - reflexivity.
  - discriminate.
  - intros t l Ht _ _ Hn _. simpl in Ht.
    destruct Ht as [<-|[<-|[<-|[]]]]; discriminate Hn.
  - reflexivity.
Defined.

(** C8: the diagram text of a successful response is a function of its
    node list and its edge list alone: two successful responses (whatever
    the stores and the requests) with the same nodes and the same edges carry
    the same [mermaid_syntax]. *)
Theorem diagram_determined_by_graph
  (st1 st2 : Store) (req1 req2 : MermaidRequestBody)
  (out1 out2 : Response MermaidLineageResponse) :
  POST st1 req1 = Some out1 -> POST st2 req2 = Some out2 ->
  status out1 = 200 -> status out2 = 200 ->
  nodes (body out1) = nodes (body out2) ->
  edges (body out1) = edges (body out2) ->
  mermaid_syntax (body out1) = mermaid_syntax (body out2)
  /\ synthesize (nodes (body out1)) (edges (body out1)) = Ok (mermaid_syntax (body out1)).
Proof.
  intros H1 H2 S1 S2 Hn He.
  destruct (POST_answers st1 req1) as (o1 & Ho1 & A1).
  destruct (POST_answers st2 req2) as (o2 & Ho2 & A2).
  rewrite H1 in Ho1; inversion Ho1; subst o1.
  rewrite H2 in Ho2; inversion Ho2; subst o2.
  destruct A1 as [? _ E | ? ? _ E | ? ? t1 _ _ _ _ _ Hs1 Hm1]; try (rewrite E in S1; discriminate).
  destruct A2 as [? _ E | ? ? _ E | ? ? t2 _ _ _ _ _ Hs2 Hm2]; try (rewrite E in S2; discriminate).
  rewrite Hn, He in Hs1. rewrite Hs1 in Hs2. inversion Hs2; subst t2.
  split; [congruence|]. rewrite Hn, He, Hs1, Hm1. reflexivity.
Qed.

(** The chain from [orders] is the same graph in two stores, requested
    with and without a direction: the same text is returned. *)
Lemma diagram_determined_by_graph_witness :
  exists out1 out2,
    POST chain_store (lineage_of "orders" "bronze" (Some "both")) = Some out1
    /\ POST busier_store (lineage_of "orders" "bronze" None) = Some out2
    /\ mermaid_syntax (body out1) = mermaid_syntax (body out2)
    /\ synthesize (nodes (body out1)) (edges (body out1)) = Ok (mermaid_syntax (body out1)).
Proof.
  destruct (POST chain_store (lineage_of "orders" "bronze" (Some "both")))
    as [out1|] eqn:E1; [|vm_compute in E1; discriminate E1].
  destruct (POST busier_store (lineage_of "orders" "bronze" None))
    as [out2|] eqn:E2; [|vm_compute in E2; discriminate E2].
  exists out1, out2. split; [reflexivity|]. split; [reflexivity|].
  apply (diagram_determined_by_graph chain_store busier_store
           (lineage_of "orders" "bronze" (Some "both")) (lineage_of "orders" "bronze" None)
           out1 out2 E1 E2);
    vm_compute in E1; vm_compute in E2;
    inversion E1; inversion E2; reflexivity.
Defined.

(** *** Edges *)

Lemma string_leb_total (a b : string) : String.leb a b = false -> String.leb b a = true.
Proof.
  unfold String.leb. rewrite (String.compare_antisym a b).
  destruct (String.compare b a); simpl; congruence.
Qed.

Lemma chain_leb_total (a b : ChainRow) : chain_leb a b = false -> chain_leb b a = true.
Proof.
  unfold chain_leb. intros H.
  apply orb_false_iff in H as [H1 H2]. apply Z.ltb_ge in H1.
  destruct (Z.eqb_spec (r_layer_id a) (r_layer_id b)) as [E|NE]; simpl in H2.
  - apply string_leb_total in H2. rewrite E, Z.eqb_refl, H2. apply orb_true_r.
  - assert (Hlt : r_layer_id b < r_layer_id a) by lia.
    apply Z.ltb_lt in Hlt. rewrite Hlt. reflexivity.
Qed.

Lemma nodes_of_sorted st rows :
  Sorted (fun a b => chain_leb a b = true) rows ->
  Sorted (fun a b => node_leb a b = true) (nodes_of st rows).
Proof.
  induction 1 as [|r rows Hs IH Hhd]; simpl; constructor; [exact IH|].
  destruct Hhd; simpl; constructor. assumption.
Qed.

Lemma combine_tl_nth {A} (l : list A) (s t : A) :
  In (s, t) (combine l (tl l)) ->
  exists i, nth_error l i = Some s /\ nth_error l (S i) = Some t.
Proof.
  induction l as [|a l IH]; [intros []|].
  destruct l as [|b l]; [intros []|].
  cbn [tl combine]. intros [H | H].
  - inversion H; subst. exists 0%nat; split; reflexivity.
  - destruct (IH H) as (i & Hi & Hsi). exists (S i); split; assumption.
Qed.

Lemma transformation_between_In st a b tb :
  In tb (transformation_between st a b) ->
  exists tr, In tr (transformations st)
    /\ tr_source_table_id tr = a /\ tr_target_table_id tr = b
    /\ tb_transformation_type tb = tr_transformation_type tr.
Proof.
  unfold transformation_between. intros H.
  apply in_flat_map in H as (tr & Htr & H).
  apply in_flat_map in H as (s & _ & H).
  destruct (Z.eqb_spec (tr_source_table_id tr) (t_id s)) as [E1|]; [|destruct H].
  apply in_flat_map in H as (tt & _ & H).
  destruct (Z.eqb_spec (tr_target_table_id tr) (t_id tt)) as [E2|]; [|destruct H].
  apply in_flat_map in H as (sl & _ & H).
  destruct (t_layer_id s =? l_id sl); [|destruct H].
  apply in_flat_map in H as (tl & _ & H).
  destruct (t_layer_id tt =? l_id tl); simpl in H; [|destruct H].
  destruct (Z.eqb_spec (t_id s) a) as [E3|]; simpl in H; [|destruct H].
  destruct (Z.eqb_spec (t_id tt) b) as [E4|]; simpl in H; [|destruct H].
  destruct H as [<- | []]. exists tr. simpl. repeat split; congruence.
Qed.

Lemma edges_of_length st ns : (length (edges_of st ns) <= length ns - 1)%nat.
Proof.
  unfold edges_of.
  assert (H : forall l : list (LineageNode * LineageNode),
             (length (flat_map (edge_between st) l) <= length l)%nat).
  { induction l as [|p l IH]; simpl; [lia|].
    rewrite length_app. unfold edge_between at 1.
    destruct (transformation_between st _ _); simpl; lia. }
  eapply Nat.le_trans; [apply H|].
  rewrite length_combine. destruct ns; cbn [tl length]; lia.
Qed.

(** C9: the handler answers, its node list is ordered by (layer id, name),
    and its edge list is obtained from the pairs of consecutive entries
    [(nodes[i], nodes[i+1])] in order, each pair giving one edge (typed by
    the first row of the query for that pair) when a transformation between
    the two tables is returned, and none otherwise.  Hence every edge joins
    two consecutive entries between which the store holds a transformation,
    and there are at most [nodes.length - 1] edges. *)
Theorem edges_only_between_consecutive_nodes (st : Store) (req : MermaidRequestBody) :
  exists out,
    POST st req = Some out
    /\ Sorted (fun a b => node_leb a b = true) (nodes (body out))
    /\ edges (body out)
       = flat_map (fun pair =>
                     match transformation_between st (n_id (fst pair)) (n_id (snd pair)) with
                     | first_row :: _ =>
                         [ {| e_source := n_name (fst pair);
                              e_target := n_name (snd pair);
                              e_source_layer := n_layer (fst pair);
                              e_target_layer := n_layer (snd pair);
                              e_transformation_type := tb_transformation_type first_row |} ]
                     | [] => []
                     end)
                  (combine (nodes (body out)) (tl (nodes (body out))))
    /\ (forall e, In e (edges (body out)) ->
          exists i s t tr,
            nth_error (nodes (body out)) i = Some s
            /\ nth_error (nodes (body out)) (S i) = Some t
            /\ In tr (transformations st)
            /\ tr_source_table_id tr = n_id s /\ tr_target_table_id tr = n_id t
            /\ e = {| e_source := n_name s; e_target := n_name t;
                      e_source_layer := n_layer s; e_target_layer := n_layer t;
                      e_transformation_type := tr_transformation_type tr |})
    /\ (length (edges (body out)) <= length (nodes (body out)) - 1)%nat.
Proof.
  destruct (POST_answers st req) as (out & Hout & Hshape).
  exists out; split; [exact Hout|].
  assert (Hchar : nodes (body out) = [] /\ edges (body out) = []
                  \/ (exists rows, Sorted (fun a b => chain_leb a b = true) rows
                                   /\ nodes (body out) = nodes_of st rows)
                     /\ edges (body out) = edges_of st (nodes (body out))).
  { destruct Hshape as [out _ _ _ Hn He | out msg _ _ Hbody
                       | out rows text _ _ Hrows Hn He].
    - left; split; assumption.
    - left; rewrite Hbody; split; reflexivity.
    - right; split; [|exact He]. exists rows; split; [|exact Hn].
      subst rows. apply order_by_sorted. exact chain_leb_total. }
  destruct Hchar as [[Hn He] | [(rows & Hs & Hn) He]].
  - rewrite Hn, He. simpl. repeat split; try constructor. intros e [].
  - split; [rewrite Hn; apply nodes_of_sorted; exact Hs|].
    split; [exact He|]. split.
    + rewrite He. generalize (nodes (body out)) as ns. intros ns e Hin.
      unfold edges_of in Hin. apply in_flat_map in Hin as ([s t] & Hpair & Hin).
      unfold edge_between in Hin. cbn [fst snd] in Hin.
      destruct (transformation_between st (n_id s) (n_id t)) as [|tb rest] eqn:Etb;
        [destruct Hin|].
      destruct Hin as [<- | []].
      destruct (combine_tl_nth ns s t Hpair) as (i & Hi & Hsi).
      destruct (transformation_between_In st (n_id s) (n_id t) tb) as (tr & Htr & Hsrc & Htgt & Hty).
      { rewrite Etb; left; reflexivity. }
      exists i, s, t, tr. repeat split; try assumption.
      unfold make_edge. rewrite Hty. reflexivity.
    + rewrite He. apply edges_of_length.
Qed.

(** On [raw -> clean -> mart] with a direct [raw -> mart], the node list
    is raw, clean, mart, mart: the direct transformation joins no two
    consecutive entries and is not drawn. *)
Example transformation_between_distant_nodes_not_drawn :
  exists out,
    POST shortcut_store (lineage_of "raw" "bronze" None) = Some out
    /\ map (fun e => (e_source e, e_target e, e_transformation_type e)) (edges (body out))
       = [("raw", "clean", Some "cleansing"); ("clean", "mart", Some "aggregation")].
Proof. eexists; split; [vm_compute; reflexivity | reflexivity]. Qed.

End ChainProps.

(* ===================================================================== *)
(** ** [mermaid/route.ts]: how often a table is returned                  *)
(* ===================================================================== *)

Module NodeCount.
Import Mermaid ChainTerms ChainFacts Samples.

Lemma list_sum_flat_map {A B} (g : B -> nat) (f : A -> list B) (l : list A) :
  list_sum (map g (flat_map f l)) = list_sum (map (fun x => list_sum (map g (f x))) l).
Proof.
  induction l as [|a l IH]; simpl; [reflexivity|].
  rewrite map_app, list_sum_app, IH. reflexivity.
Qed.

Lemma list_sum_ext {A} (f g : A -> nat) (l : list A) :
  (forall x, In x l -> f x = g x) -> list_sum (map f l) = list_sum (map g l).
Proof.
  induction l as [|a l IH]; intros H; simpl; [reflexivity|].
  rewrite (H a (or_introl eq_refl)), IH; [reflexivity|].
  intros x Hx; apply H; right; exact Hx.
Qed.

Lemma length_filter_sum {A} (p : A -> bool) (l : list A) :
  length (filter p l) = list_sum (map (fun x => if p x then 1%nat else 0%nat) l).
Proof.
  induction l as [|a l IH]; simpl; [reflexivity|].
  destruct (p a); simpl; rewrite IH; reflexivity.
Qed.

Lemma list_sum_zero {A} (l : list A) : list_sum (map (fun _ => 0%nat) l) = 0%nat.
Proof. induction l; simpl; auto. Qed.

Lemma list_sum_perm (l l' : list nat) : Permutation l l' -> list_sum l = list_sum l'.
Proof. induction 1; simpl; lia. Qed.

(** In a well-formed store the joins of the recursive term on [tables] and
    [layers] select one row per transformation. *)
Lemma join_target st lc tr :
  well_formed st -> In tr (transformations st) -> r_depth lc < 3 ->
  exists tt tl,
    t_id tt = tr_target_table_id tr
    /\ flat_map (fun tt =>
         if tr_target_table_id tr =? t_id tt then
           flat_map (fun tl =>
             if (t_layer_id tt =? l_id tl) && (r_depth lc <? 3)
             then [next_row lc tt tl] else []) (layers st)
         else []) (tables st)
       = [next_row lc tt tl].
Proof.
  intros W Htr Hd.
  destruct (wf_transformation_target st W tr Htr) as (tt0 & Htt0 & Eid).
  destruct (wf_table_layer st W tt0 Htt0) as (tl0 & Htl0 & Elid).
  exists tt0, tl0. split; [exact Eid|].
  rewrite <- Eid.
  etransitivity.
  { apply (flat_map_unique_key t_id
             (fun tt => flat_map (fun tl =>
                 if (t_layer_id tt =? l_id tl) && (r_depth lc <? 3)
                 then [next_row lc tt tl] else []) (layers st))
             (tables st) tt0 (wf_table_ids st W) Htt0). }
  rewrite <- Elid.
  etransitivity.
  { apply flat_map_ext with (g := fun tl => if l_id tl0 =? l_id tl
                                            then [next_row lc tt0 tl] else []).
    intros tl. apply Z.ltb_lt in Hd. rewrite Hd, andb_true_r. reflexivity. }
  apply (flat_map_unique_key l_id (fun tl => [next_row lc tt0 tl])
           (layers st) tl0 (wf_layer_ids st W) Htl0).
Qed.

Lemma recursive_term_sum st (g : Z -> nat) (work : list ChainRow) :
  well_formed st -> (forall lc, In lc work -> r_depth lc < 3) ->
  list_sum (map (fun r => g (r_id r)) (recursive_term st work))
  = list_sum (map (fun lc =>
        list_sum (map (fun tr => if r_id lc =? tr_source_table_id tr
                                 then g (tr_target_table_id tr) else 0%nat)
                      (transformations st))) work).
Proof.
  intros W Hd. unfold recursive_term.
  rewrite list_sum_flat_map. apply list_sum_ext; intros lc Hlc.
  rewrite list_sum_flat_map. apply list_sum_ext; intros tr Htr.
  destruct (r_id lc =? tr_source_table_id tr); [|reflexivity].
  destruct (join_target st lc tr W Htr (Hd lc Hlc)) as (tt & tl & Eid & Ejoin).
  change (list_sum (map (fun r => g (r_id r))
            (flat_map (fun tt =>
               if tr_target_table_id tr =? t_id tt then
                 flat_map (fun tl =>
                   if (t_layer_id tt =? l_id tl) && (r_depth lc <? 3)
                   then [next_row lc tt tl] else []) (layers st)
               else []) (tables st)))
          = g (tr_target_table_id tr)).
  rewrite Ejoin. simpl. rewrite Eid. lia.
Qed.

(** Round [k] of the recursive query holds one row per walk of [k]
    transformations from a seed row. *)
Lemma round_counts_walks st (t : Z) (k : nat) :
  well_formed st ->
  forall (d : Z) (work : list ChainRow),
    (forall lc, In lc work -> r_depth lc = d) -> d + Z.of_nat k <= 3 ->
    list_sum (map (fun r => if r_id r =? t then 1%nat else 0%nat)
                  (Nat.iter k (recursive_term st) work))
    = list_sum (map (fun lc => walks st k (r_id lc) t) work).
Proof.
  intros W. induction k as [|k IH]; intros d work Hd Hk.
  - reflexivity.
  - rewrite Nat.iter_succ_r.
    rewrite (IH (d + 1) (recursive_term st work)); [| |lia].
    + rewrite (recursive_term_sum st (fun x => walks st k x t)); [reflexivity|exact W|].
      intros lc Hlc. rewrite (Hd lc Hlc). lia.
    + intros r Hr. apply recursive_term_In in Hr as (lc & _ & Hlc & _ & _ & _ & _ & E).
      rewrite E, (Hd lc Hlc). reflexivity.
Qed.

Lemma round_entries st table lay (t : Z) (j k : nat) :
  list_sum (map (fun r => if (r_id r =? t) && (r_depth r =? Z.of_nat k)
                          then 1%nat else 0%nat)
                (Nat.iter j (recursive_term st) (seed_term st table lay)))
  = if Nat.eqb j k
    then list_sum (map (fun r => if r_id r =? t then 1%nat else 0%nat)
                       (Nat.iter j (recursive_term st) (seed_term st table lay)))
    else 0%nat.
Proof.
  destruct (Nat.eqb_spec j k) as [->|NE].
  - apply list_sum_ext; intros r Hr.
    rewrite (iter_depth st _ _ r (seed_term_depth st table lay) Hr).
    rewrite Z.eqb_refl, andb_true_r. reflexivity.
  - transitivity (list_sum (map (fun _ : ChainRow => 0%nat)
                   (Nat.iter j (recursive_term st) (seed_term st table lay)))).
    + apply list_sum_ext; intros r Hr.
      rewrite (iter_depth st _ _ r (seed_term_depth st table lay) Hr).
      destruct (Z.eqb_spec (Z.of_nat j) (Z.of_nat k)) as [E|_]; [lia|].
      rewrite andb_false_r. reflexivity.
    + apply list_sum_zero.
Qed.

(** C1 (as stated, refuted): with [raw -> clean -> mart] and a direct
    [raw -> mart], the chain from [raw] returns [mart] twice, at depth 1 and
    again at depth 2: the later encounter does add a second entry. *)
Lemma table_reached_twice_is_returned_twice :
  exists out,
    POST shortcut_store (lineage_of "raw" "bronze" None) = Some out
    /\ map (fun n => (n_id n, n_name n, n_depth n)) (nodes (body out))
       = [(1, "raw", 0); (2, "clean", 1); (3, "mart", 1); (3, "mart", 2)]
    /\ ~ NoDup (map n_id (nodes (body out))).
Proof.
  eexists; split; [vm_compute; reflexivity|]. split; [reflexivity|].
  simpl. intros H.
  apply NoDup_cons_iff in H as [_ H]. apply NoDup_cons_iff in H as [_ H].
  apply NoDup_cons_iff in H as [Hnotin _]. apply Hnotin; left; reflexivity.
Qed.

(** C1 (amended): in a successful response over a well-formed store, the
    node list holds one entry per walk of at most 3 transformations from
    the seed: table [t] is listed at depth [k] exactly as many times as
    there are walks of [k] transformations from a seed row to [t], and no
    entry has another depth. *)
Theorem node_entries_count_walks
  (st : Store) (req : MermaidRequestBody) (out : Response MermaidLineageResponse) :
  well_formed st -> POST st req = Some out -> status out = 200 ->
  (forall t k, (k <= 3)%nat ->
     entries_at t (Z.of_nat k) (nodes (body out))
     = list_sum (map (fun s => walks st k (r_id s) t)
                     (seed_term st (Js.or_default (table_name req) EmptyString)
                                   (Js.or_default (layer req) EmptyString))))
  /\ (forall t d, ~ 0 <= d <= 3 -> entries_at t d (nodes (body out)) = 0%nat).
Proof.
  intros W Hout Hst.
  destruct (POST_answers st req) as (o & Ho & A).
  rewrite Hout in Ho; inversion Ho; subst o; clear Ho.
  destruct A as [? _ E | ? ? _ E | ? rows text _ _ Hrows Hnodes];
    try (rewrite E in Hst; discriminate).
  set (seed := seed_term st _ _) in *.
  assert (Hcount : forall t d,
    entries_at t d (nodes (body out))
    = list_sum (map (fun r => if (r_id r =? t) && (r_depth r =? d) then 1%nat else 0%nat)
                    (levels st 4 seed))).
  { intros t d. unfold entries_at. rewrite Hnodes. unfold nodes_of.
    rewrite length_filter_sum, map_map. simpl.
    subst rows. apply list_sum_perm. apply Permutation_map.
    apply Permutation_sym, order_by_perm. }
  split.
  - intros t k Hk. rewrite Hcount, levels_four.
    rewrite !map_app, !list_sum_app.
    unfold seed. rewrite !round_entries.
    assert (Hw : list_sum (map (fun r => if r_id r =? t then 1%nat else 0%nat)
                   (Nat.iter k (recursive_term st) seed))
                 = list_sum (map (fun s => walks st k (r_id s) t) seed)).
    { apply (round_counts_walks st t k W 0); [apply seed_term_depth | lia]. }
    fold seed. rewrite <- Hw.
    destruct k as [|[|[|[|k]]]]; simpl Nat.eqb; cbv iota; lia.
  - intros t d Hd. rewrite Hcount.
    transitivity (list_sum (map (fun _ : ChainRow => 0%nat) (levels st 4 seed))).
    + apply list_sum_ext; intros r Hr. apply levels_depth in Hr.
      destruct (Z.eqb_spec (r_depth r) d) as [E|_]; [lia|].
      rewrite andb_false_r. reflexivity.
    + apply list_sum_zero.
Qed.

Lemma shortcut_store_well_formed : well_formed shortcut_store.
Proof.
  constructor.
  - simpl. repeat constructor; simpl; intuition discriminate.
  - simpl. repeat constructor; simpl; intuition discriminate.
  - intros t Ht. simpl in Ht.
    destruct Ht as [<-|[<-|[<-|[]]]]; simpl;
      [exists {| l_id := 1; l_name := "bronze" |}
      |exists {| l_id := 2; l_name := "silver" |}
      |exists {| l_id := 3; l_name := "gold" |}]; simpl; intuition.
  - intros tr Htr. simpl in Htr.
    destruct Htr as [<-|[<-|[<-|[]]]]; simpl;
      [exists (table 2 "clean" 2) | exists (table 3 "mart" 3) | exists (table 3 "mart" 3)];
      simpl; intuition.
Qed.

(** The count on the store with the direct transformation [raw -> mart]. *)
Lemma node_entries_count_walks_witness :
  exists out,
    POST shortcut_store (lineage_of "raw" "bronze" None) = Some out
    /\ (forall t k, (k <= 3)%nat ->
          entries_at t (Z.of_nat k) (nodes (body out))
          = list_sum (map (fun s => walks shortcut_store k (r_id s) t)
                          (seed_term shortcut_store "raw" "bronze")))
    /\ (forall t d, ~ 0 <= d <= 3 -> entries_at t d (nodes (body out)) = 0%nat).
Proof.
  destruct (POST shortcut_store (lineage_of "raw" "bronze" None))
    as [out|] eqn:E; [|vm_compute in E; discriminate E].
  exists out. split; [reflexivity|].
  apply (node_entries_count_walks shortcut_store (lineage_of "raw" "bronze" None) out
           shortcut_store_well_formed E).
  vm_compute in E. inversion E. reflexivity.
Defined.

End NodeCount.

(* ===================================================================== *)
(** ** [mermaid/route.ts]: the subgraphs of the diagram                   *)
(* ===================================================================== *)

Module DiagramProps.
Import Mermaid ChainTerms Samples.

Section Keys.
Context {V : Type}.
Implicit Types (d : Js.dict V) (k : string).

Lemma own_None d k : Js.own d k = None <-> ~ In k (map fst d).
Proof.
  induction d as [|[k' v] d IH]; simpl; [tauto|].
  destruct (String.eqb_spec k' k) as [->|NE].
  - split; [discriminate | intros H; exfalso; apply H; left; reflexivity].
  - rewrite IH. tauto.
Qed.

Lemma update_keys d k (f : V -> V) : map fst (Js.update d k f) = map fst d.
Proof.
  induction d as [|[k' v] d IH]; simpl; [reflexivity|].
  destruct (String.eqb k' k); simpl; [reflexivity | rewrite IH; reflexivity].
Qed.

Lemma add_key_keys d k (v : V) : map fst (Js.add_key d k v) = (map fst d ++ [k])%list.
Proof. unfold Js.add_key. rewrite map_app. reflexivity. Qed.

Lemma index_entries_snd d :
  map snd (Js.index_entries d)
  = filter (fun kv => match Js.array_index (fst kv) with
                      | Some _ => true
                      | None => false
                      end) d.
Proof.
  unfold Js.index_entries.
  induction d as [|kv d IH]; simpl; [reflexivity|].
  destruct (Js.array_index (fst kv)); simpl; rewrite IH; reflexivity.
Qed.

Lemma partition_perm (p : string * V -> bool) d :
  Permutation (filter p d ++ filter (fun kv => negb (p kv)) d)%list d.
Proof.
  induction d as [|kv d IH]; simpl; [constructor|].
  destruct (p kv); simpl.
  - constructor; exact IH.
  - apply Permutation_sym, Permutation_cons_app, Permutation_sym; exact IH.
Qed.

(** [Object.entries] lists every own property once. *)
Lemma entries_perm d : Permutation (Js.entries d) d.
Proof.
  unfold Js.entries.
  eapply perm_trans; [|apply (partition_perm
    (fun kv => match Js.array_index (fst kv) with Some _ => true | None => false end))].
  apply Permutation_app.
  - rewrite <- index_entries_snd. apply Permutation_map.
    apply Permutation_sym, order_by_perm.
  - match goal with
    | |- Permutation ?a ?b => assert (E : a = b); [|rewrite E; apply Permutation_refl]
    end.
    apply filter_ext. intros kv. destruct (Js.array_index (fst kv)); reflexivity.
Qed.

End Keys.

(** *** The grouping of the nodes by layer *)

Lemma members_other l l' ns :
  l' <> l ->
  members l' (filter (fun n => negb (String.eqb (n_layer n) l)) ns) = members l' ns.
Proof.
  intros Hne. unfold members. induction ns as [|n ns IH]; simpl; [reflexivity|].
  destruct (String.eqb_spec (n_layer n) l) as [E|_]; simpl.
  - destruct (String.eqb_spec (n_layer n) l') as [E'|_]; [congruence | exact IH].
  - rewrite IH. reflexivity.
Qed.

(** Layers without repetition that cover the layers of [ns] split [ns]:
    the nodes of these layers, taken layer by layer, are the nodes of
    [ns]. *)
Lemma members_split ls :
  NoDup ls ->
  forall ns, (forall n, In n ns -> In (n_layer n) ls) ->
  Permutation (flat_map (fun l => members l ns) ls) ns.
Proof.
  induction 1 as [|l ls Hnotin Hnd IH]; intros ns Hcover.
  - destruct ns as [|n ns]; [constructor|]. destruct (Hcover n (or_introl eq_refl)).
  - cbn [flat_map].
    set (others := filter (fun n => negb (String.eqb (n_layer n) l)) ns).
    assert (E : flat_map (fun l' => members l' ns) ls
                = flat_map (fun l' => members l' others) ls).
    { apply flat_map_ext_in. intros l' Hl'. symmetry. apply members_other.
      intros ->. exact (Hnotin Hl'). }
    rewrite E.
    eapply perm_trans; [|apply (filter_partition_perm (fun n => String.eqb (n_layer n) l))].
    apply Permutation_app_head. apply IH.
    intros n Hn. unfold others in Hn. apply filter_In in Hn as [Hn Hl].
    destruct (Hcover n Hn) as [El | Hin]; [|exact Hin].
    rewrite <- El, String.eqb_refl in Hl. discriminate Hl.
Qed.

Lemma update_In {V} (d : Js.dict V) k (f : V -> V) l v :
  NoDup (map fst d) ->
  In (l, v) (Js.update d k f) ->
  (l = k /\ exists v0, In (l, v0) d /\ v = f v0) \/ (l <> k /\ In (l, v) d).
Proof.
  induction d as [|[k' v'] d IH]; simpl; intros Hnd H; [destruct H|].
  inversion Hnd as [|? ? Hnotin Hnd']; subst.
  destruct (String.eqb_spec k' k) as [->|NE].
  - destruct H as [H | H].
    + inversion H; subst. left. split; [reflexivity|]. exists v'. split; [left|]; reflexivity.
    + right. split; [|right; exact H].
      intros ->. apply Hnotin. apply (in_map fst) in H. exact H.
  - destruct H as [H | H].
    + inversion H; subst. right. split; [exact NE | left; reflexivity].
    + destruct (IH Hnd' H) as [(-> & v0 & Hv0 & ->) | [Hne Hin]].
      * left. split; [reflexivity|]. exists v0. split; [right; exact Hv0 | reflexivity].
      * right. split; [exact Hne | right; exact Hin].
Qed.

Lemma group_step_grouped seen acc node :
  grouped seen acc ->
  (Js.inherited (n_layer node) = true /\ exists msg, group_step acc node = Throw msg)
  \/ (Js.inherited (n_layer node) = false
      /\ exists acc', group_step acc node = Ok acc' /\ grouped (seen ++ [node]) acc').
Proof.
  intros (Hnd & Hkeys & Hinh & Hval). unfold group_step.
  destruct (Js.own acc (n_layer node)) as [v|] eqn:E.
  - assert (Hin : In (n_layer node) (map fst acc)).
    { destruct (in_dec string_dec (n_layer node) (map fst acc)) as [H|H]; [exact H|].
      apply own_None in H. congruence. }
    right. split; [apply Hinh; exact Hin|]. eexists; split; [reflexivity|].
    split; [rewrite update_keys; exact Hnd|]. split; [|split].
    + intros l. rewrite update_keys, map_app, in_app_iff, Hkeys. simpl.
      split; [tauto|]. intros [H | [<- | []]]; [exact H | apply Hkeys; exact Hin].
    + intros l. rewrite update_keys. apply Hinh.
    + intros l w Hw. rewrite filter_app. simpl.
      apply update_In in Hw as [(-> & v0 & Hv0 & ->) | [Hne Hw]]; [| |exact Hnd].
      * rewrite String.eqb_refl. rewrite (Hval _ _ Hv0). reflexivity.
      * destruct (String.eqb_spec (n_layer node) l) as [Heq|_]; [congruence|].
        rewrite app_nil_r. apply Hval; exact Hw.
  - apply own_None in E.
    destruct (Js.inherited (n_layer node)) eqn:Ei.
    + left. split; [reflexivity|]. eexists; reflexivity.
    + right. split; [reflexivity|]. eexists; split; [reflexivity|].
      split; [|split; [|split]].
      * rewrite add_key_keys.
        apply NoDup_app; [exact Hnd | repeat constructor; intros [] |].
        intros l Hl [<- | []]. exact (E Hl).
      * intros l. rewrite add_key_keys, map_app, !in_app_iff, Hkeys.
        simpl. intuition.
      * intros l. rewrite add_key_keys, in_app_iff.
        intros [H | [<- | []]]; [apply Hinh; exact H | exact Ei].
      * intros l w Hw. unfold Js.add_key in Hw. apply in_app_or in Hw as [Hw | [Hw | []]].
        -- rewrite filter_app. simpl.
           destruct (String.eqb_spec (n_layer node) l) as [Heq|_].
           ++ exfalso. apply E. rewrite Heq. apply (in_map fst) in Hw. exact Hw.
           ++ rewrite app_nil_r. apply Hval; exact Hw.
        -- inversion Hw; subst l w. rewrite filter_app. simpl.
           rewrite String.eqb_refl.
           assert (Hnone : filter (fun n => String.eqb (n_layer n) (n_layer node)) seen = []).
           { destruct (filter _ seen) as [|n0 rest] eqn:Ef; [reflexivity|].
             assert (Hn0 : In n0 (filter (fun n => String.eqb (n_layer n) (n_layer node)) seen))
               by (rewrite Ef; left; reflexivity).
             apply filter_In in Hn0 as [Hs Heq]. apply String.eqb_eq in Heq.
             exfalso. apply E. apply Hkeys. rewrite <- Heq. apply in_map. exact Hs. }
           rewrite Hnone. reflexivity.
Qed.

Lemma group_from_grouped nodes :
  forall seen acc,
    grouped seen acc ->
    ((exists n, In n nodes /\ Js.inherited (n_layer n) = true)
     /\ exists msg, group_from acc nodes = Throw msg)
    \/ ((forall n, In n nodes -> Js.inherited (n_layer n) = false)
        /\ exists acc', group_from acc nodes = Ok acc'
                        /\ grouped (seen ++ nodes) acc').
Proof.
  induction nodes as [|node nodes IH]; intros seen acc G; simpl.
  - right. split; [intros n []|]. exists acc. rewrite app_nil_r. split; [reflexivity | exact G].
  - destruct (group_step_grouped seen acc node G)
      as [[Hi (msg & E)] | [Hi (acc1 & E & G1)]]; rewrite E.
    + left. split; [exists node; split; [left; reflexivity | exact Hi]|].
      exists msg; reflexivity.
    + destruct (IH (seen ++ [node])%list acc1 G1)
        as [[(n & Hn & Hni) Hthrow] | [Hall (acc' & E' & G')]].
      * left. split; [exists n; split; [right; exact Hn | exact Hni] | exact Hthrow].
      * right. split.
        -- intros n [<- | Hn]; [exact Hi | apply Hall; exact Hn].
        -- exists acc'. rewrite <- app_assoc in G'. split; [exact E' | exact G'].
Qed.

Lemma grouped_nil : grouped [] [].
Proof.
  repeat split; simpl; try constructor; try tauto; try (intros l v []).
Qed.

(** The groups of a node list none of whose layers is inherited. *)
Lemma nodesByLayer_grouped ns :
  (forall n, In n ns -> Js.inherited (n_layer n) = false) ->
  exists groups, nodesByLayer ns = Ok groups /\ grouped ns groups.
Proof.
  intros Hall. unfold nodesByLayer.
  destruct (group_from_grouped ns [] [] grouped_nil)
    as [[(n & Hn & Hi) _] | [_ (groups & E & G)]].
  - rewrite (Hall n Hn) in Hi. discriminate Hi.
  - exists groups. split; [exact E | exact G].
Qed.

Lemma synthesized_grouped ns es text :
  synthesize ns es = Ok text ->
  exists groups, grouped ns groups /\ text = mermaidSyntax groups es.
Proof.
  unfold synthesize, nodesByLayer. intros H.
  destruct (group_from_grouped ns [] [] grouped_nil)
    as [[_ (msg & E)] | [_ (groups & E & G)]]; rewrite E in H; [discriminate|].
  inversion H. exists groups. split; [exact G | reflexivity].
Qed.

(** *** The text written for the groups *)

Lemma edge_line_connection e : edge_line e = connection e.
Proof.
  unfold edge_line, connection, identifier. rewrite !string_append_assoc. reflexivity.
Qed.

(** The text of a completed synthesis, read on the node list: the layers
    drawn are the layers of the nodes, each once, and each subgraph
    declares the nodes of its layer. *)
Lemma synthesized_text ns es text :
  synthesize ns es = Ok text ->
  exists ls,
    NoDup ls
    /\ (forall l, In l ls <-> In l (map n_layer ns))
    /\ text = diagram header ls ns es.
Proof.
  intros H. apply synthesized_grouped in H as (groups & (Hnd & Hkeys & _ & Hval) & ->).
  exists (map fst (Js.entries groups)).
  assert (Hp : Permutation (map fst (Js.entries groups)) (map fst groups))
    by (apply Permutation_map, entries_perm).
  split; [eapply Permutation_NoDup; [apply Permutation_sym; exact Hp | exact Hnd]|].
  split.
  - intros l. rewrite <- Hkeys. split; apply Permutation_in;
      [exact Hp | apply Permutation_sym; exact Hp].
  - assert (Hentry : forall entry, In entry (Js.entries groups) ->
                       snd entry = members (fst entry) ns).
    { intros [l v] Hin. apply (Permutation_in _ (entries_perm groups)) in Hin.
      exact (Hval l v Hin). }
    unfold mermaidSyntax, diagram. rewrite !map_map.
    assert (E1 : map subgraph (Js.entries groups)
                 = map (fun entry => block header ns (fst entry)) (Js.entries groups)).
    { apply map_ext_in. intros entry Hin. unfold subgraph, block.
      rewrite (Hentry entry Hin). reflexivity. }
    assert (E2 : map class_lines (Js.entries groups)
                 = map (fun entry => classes ns (fst entry)) (Js.entries groups)).
    { apply map_ext_in. intros entry Hin. unfold class_lines, classes.
      rewrite (Hentry entry Hin). reflexivity. }
    assert (E3 : map edge_line es = map connection es)
      by (apply map_ext; exact edge_line_connection).
    rewrite E1, E2, E3. reflexivity.
Qed.

Lemma synthesis_completes ns es :
  (forall n, In n ns -> Js.inherited (n_layer n) = false) ->
  exists text, synthesize ns es = Ok text.
Proof.
  intros Hall. destruct (nodesByLayer_grouped ns Hall) as (groups & E & _).
  unfold synthesize. rewrite E. eexists; reflexivity.
Qed.

(** *** Lines of the text *)

Lemma occurs_here a : occurs a a.
Proof. exists EmptyString, EmptyString. rewrite string_append_nil_r. reflexivity. Qed.

Lemma occurs_after a b c : occurs a b -> occurs a (c ++ b).
Proof.
  intros (x & y & ->). exists (c ++ x), y. rewrite string_append_assoc. reflexivity.
Qed.

Lemma occurs_before a b c : occurs a b -> occurs a (b ++ c).
Proof.
  intros (x & y & ->). exists x, (y ++ c). rewrite !string_append_assoc. reflexivity.
Qed.

Lemma occurs_concat {A} (f : A -> string) (x : A) (l : list A) :
  In x l -> occurs (f x) (String.concat EmptyString (map f l)).
Proof.
  induction l as [|y l IH]; intros Hin; [destruct Hin|].
  cbn [map]. rewrite concat_cons. destruct Hin as [-> | Hin].
  - apply occurs_before, occurs_here.
  - apply occurs_after, IH, Hin.
Qed.

(** In a diagram that draws the layer of a node, the node is declared;
    every edge is connected. *)
Lemma declaration_occurs h ls ns es n :
  In n ns -> In (n_layer n) ls -> occurs (declaration n) (diagram h ls ns es).
Proof.
  intros Hn Hl. unfold diagram.
  do 3 apply occurs_after. apply occurs_before.
  assert (Hb : occurs (declaration n) (block h ns (n_layer n))).
  { unfold block. apply occurs_after, occurs_before, occurs_concat.
    unfold members. apply filter_In. split; [exact Hn | apply String.eqb_refl]. }
  destruct Hb as (x & y & Hb).
  destruct (occurs_concat (block h ns) (n_layer n) ls Hl) as (x' & y' & E).
  rewrite E, Hb. exists (x' ++ x), (y ++ y'). rewrite !string_append_assoc. reflexivity.
Qed.

Lemma connection_occurs h ls ns es e :
  In e es -> occurs (connection e) (diagram h ls ns es).
Proof.
  intros He. unfold diagram.
  do 4 apply occurs_after. apply occurs_before. apply occurs_concat. exact He.
Qed.

(** *** One subgraph per layer *)

(** C4 (as stated, refuted): the one table of a layer named [platinum] is
    drawn in a subgraph whose header carries the subtitle [Business
    Ready]; the text is not the one with the header without subtitle. *)
Lemma other_layer_is_subtitled_business_ready :
  exists out,
    POST platinum_store (lineage_of "kpi" "platinum" None) = Some out
    /\ status out = 200
    /\ map n_layer (nodes (body out)) = ["platinum"]
    /\ mermaid_syntax (body out)
       = "graph LR" ++ nl ++ nl
         ++ "    subgraph " ++ dquote ++ "Platinum Layer - Business Ready" ++ dquote ++ nl
         ++ "        PLATINUM_kpi[" ++ dquote
         ++ "kpi<br/>0 columns<br/>kpi table in platinum layer" ++ dquote ++ "]" ++ nl
         ++ "    end" ++ nl ++ nl
         ++ styling
         ++ "    class PLATINUM_kpi platinum" ++ nl
    /\ mermaid_syntax (body out)
       <> diagram claimed_header ["platinum"] (nodes (body out)) (edges (body out)).
Proof.
  eexists. split; [vm_compute; reflexivity|].
  split; [reflexivity|]. split; [reflexivity|]. split; [reflexivity|].
  vm_compute. discriminate.
Qed.

(** C4 (amended): for a node list on which the synthesis completes (no
    layer named like a property that every object inherits), with layer
    names in ASCII, the text has exactly one subgraph per distinct layer of
    the node list: there is a list [ls] holding each layer of the nodes
    once, and the text is [graph LR], then for each layer of [ls], in
    order, the header line, the declarations of the nodes of that layer,
    and [end], then the connections, the styling and the class lines.  The
    header is titled with the layer name, its first letter in upper case,
    followed by [Layer], and subtitled [Raw Data] for bronze, [Cleansed
    Data] for silver and [Business Ready] for every other layer name, gold
    included. *)
Theorem one_subgraph_per_layer (ns : list LineageNode) (es : list LineageEdge) :
  (forall n, In n ns -> Js.inherited (n_layer n) = false) ->
  ascii_layers ns es ->
  exists ls,
    NoDup ls
    /\ (forall l, In l ls <-> exists n, In n ns /\ n_layer n = l)
    /\ synthesize ns es
       = Ok (diagram
               (fun l =>
                  "    subgraph " ++ dquote
                  ++ (Js.toUpperCase (Js.charAt0 l) ++ Js.slice1 l ++ " Layer")
                  ++ " - "
                  ++ (if String.eqb l "bronze" then "Raw Data"
                      else if String.eqb l "silver" then "Cleansed Data"
                      else "Business Ready")
                  ++ dquote ++ nl)
               ls ns es).
Proof.
  intros Hall _.
  destruct (synthesis_completes ns es Hall) as (text & E).
  destruct (synthesized_text ns es text E) as (ls & Hnd & Hk & ->).
  exists ls. split; [exact Hnd|]. split; [|exact E].
  intros l. rewrite Hk, in_map_iff. split; intros (n & H1 & H2); exists n; tauto.
Qed.

(** The diagram of the one table of the layer [platinum]. *)
Lemma one_subgraph_per_layer_witness :
  synthesize [ make_node {| r_id := 1; r_name := "kpi"; r_layer := "platinum";
                            r_layer_id := 4; r_depth := 0; r_description := None |} 0 ]
             []
  = Ok ("graph LR" ++ nl ++ nl
        ++ "    subgraph " ++ dquote ++ "Platinum Layer - Business Ready" ++ dquote ++ nl
        ++ "        PLATINUM_kpi[" ++ dquote
        ++ "kpi<br/>0 columns<br/>kpi table in platinum layer" ++ dquote ++ "]" ++ nl
        ++ "    end" ++ nl ++ nl
        ++ styling
        ++ "    class PLATINUM_kpi platinum" ++ nl).
Proof.
  destruct (one_subgraph_per_layer
              [ make_node {| r_id := 1; r_name := "kpi"; r_layer := "platinum";
                             r_layer_id := 4; r_depth := 0; r_description := None |} 0 ]
              [])
    as (ls & Hnd & Hk & E).
  - intros n [<- | []]. reflexivity.
  - split; [intros n [<- | []]; reflexivity | intros e []].
  - assert (Els : ls = ["platinum"]).
    { apply nodup_singleton; [exact Hnd|]. intros l. rewrite Hk. split.
      - intros (n & [<- | []] & <-). reflexivity.
      - intros ->. eexists. split; [left; reflexivity | reflexivity]. }
    rewrite E, Els. reflexivity.
Defined.

End DiagramProps.

(* ===================================================================== *)
(** ** [relationships/route.ts]: direction of the returned edges          *)
(* ===================================================================== *)

Module RelationshipProps.
Import Relationships LookupTerms Samples.

Lemma filter_flat_map {A B} (c : B -> bool) (f : A -> list B) (l : list A) :
  filter c (flat_map f l) = flat_map (fun x => filter c (f x)) l.
Proof.
  induction l as [|a l IH]; simpl; [reflexivity|].
  rewrite filter_app, IH. reflexivity.
Qed.

(** A [WHERE] clause that can be read off the selected columns is a filter
    of the unrestricted join. *)
Lemma select_filter st label cond (c : Relationship -> bool) :
  (forall tr s tt sl tl,
      rel_source_table_id tr = t_id s -> rel_target_table_id tr = t_id tt ->
      cond tr s tt
      = c {| id := rel_id tr;
             relationship_type := rel_relationship_type tr;
             description := rel_description tr;
             confidence_score := rel_confidence_score tr;
             source_table := t_name s; source_table_id := t_id s;
             source_layer := l_name sl;
             target_table := t_name tt; target_table_id := t_id tt;
             target_layer := l_name tl;
             direction := label tr s tt |}) ->
  select st label cond = filter c (select st label unfiltered).
Proof.
  intros H. unfold select.
  rewrite filter_flat_map. apply flat_map_ext; intros tr.
  rewrite filter_flat_map. apply flat_map_ext; intros s.
  destruct (Z.eqb_spec (rel_source_table_id tr) (t_id s)) as [E1|]; [|reflexivity].
  rewrite filter_flat_map. apply flat_map_ext; intros tt.
  destruct (Z.eqb_spec (rel_target_table_id tr) (t_id tt)) as [E2|]; [|reflexivity].
  rewrite filter_flat_map. apply flat_map_ext; intros sl.
  destruct (t_layer_id s =? l_id sl); [|reflexivity].
  rewrite filter_flat_map. apply flat_map_ext; intros tl.
  unfold unfiltered. rewrite andb_true_r.
  destruct (t_layer_id tt =? l_id tl); simpl; [|reflexivity].
  rewrite (H tr s tt sl tl E1 E2).
  match goal with |- context [c ?r] => destruct (c r) end; reflexivity.
Qed.

Lemma select_In st label cond r :
  In r (select st label cond) ->
  exists tr s tt,
    rel_source_table_id tr = t_id s /\ rel_target_table_id tr = t_id tt
    /\ cond tr s tt = true
    /\ source_table_id r = t_id s /\ target_table_id r = t_id tt
    /\ source_table r = t_name s /\ target_table r = t_name tt
    /\ direction r = label tr s tt.
Proof.
  unfold select. intros H.
  apply in_flat_map in H as (tr & _ & H).
  apply in_flat_map in H as (s & _ & H).
  destruct (Z.eqb_spec (rel_source_table_id tr) (t_id s)) as [E1|]; [|destruct H].
  apply in_flat_map in H as (tt & _ & H).
  destruct (Z.eqb_spec (rel_target_table_id tr) (t_id tt)) as [E2|]; [|destruct H].
  apply in_flat_map in H as (sl & _ & H).
  destruct (t_layer_id s =? l_id sl); [|destruct H].
  apply in_flat_map in H as (tl & _ & H).
  destruct (t_layer_id tt =? l_id tl); simpl in H; [|destruct H].
  destruct (cond tr s tt) eqn:Ec; [|destruct H].
  destruct H as [<- | []]. exists tr, s, tt. simpl. repeat split; assumption.
Qed.

(** Conversely, an edge of the store whose tables and layers resolve is a
    row of the join. *)
Lemma select_complete st label cond tr s tt sl tl :
  In tr (table_relationships st) -> In s (tables st) -> In tt (tables st) ->
  In sl (layers st) -> In tl (layers st) ->
  rel_source_table_id tr = t_id s -> rel_target_table_id tr = t_id tt ->
  t_layer_id s = l_id sl -> t_layer_id tt = l_id tl -> cond tr s tt = true ->
  In {| id := rel_id tr;
        relationship_type := rel_relationship_type tr;
        description := rel_description tr;
        confidence_score := rel_confidence_score tr;
        source_table := t_name s; source_table_id := t_id s;
        source_layer := l_name sl;
        target_table := t_name tt; target_table_id := t_id tt;
        target_layer := l_name tl;
        direction := label tr s tt |}
     (select st label cond).
Proof.
  intros Htr Hs Htt Hsl Htl E1 E2 E3 E4 Hc. unfold select.
  apply in_flat_map; exists tr; split; [exact Htr|].
  apply in_flat_map; exists s; split; [exact Hs|].
  rewrite E1, Z.eqb_refl.
  apply in_flat_map; exists tt; split; [exact Htt|].
  rewrite E2, Z.eqb_refl.
  apply in_flat_map; exists sl; split; [exact Hsl|].
  rewrite E3, Z.eqb_refl.
  apply in_flat_map; exists tl; split; [exact Htl|].
  rewrite E4, Z.eqb_refl, Hc. left; reflexivity.
Qed.

Lemma confidence_desc_total a b :
  confidence_desc a b = false -> confidence_desc b a = true.
Proof.
  unfold confidence_desc. intros H.
  apply Qle_bool_iff. apply Qlt_le_weak. apply Qnot_le_lt.
  intros Hle. apply Qle_bool_iff in Hle. congruence.
Qed.

Lemma Sorted_weaken {A} (R R' : A -> A -> Prop) (l : list A) :
  (forall a b, R a b -> R' a b) -> Sorted R l -> Sorted R' l.
Proof.
  intros HR. induction 1 as [|a l Hs IH Hhd]; constructor; [exact IH|].
  destruct Hhd; constructor. apply HR; assumption.
Qed.

Lemma sorted_by_confidence (l : list Relationship) :
  Sorted (fun a b => (confidence_score b <= confidence_score a)%Q)
         (order_by confidence_desc l).
Proof.
  apply Sorted_weaken with (R := fun a b => confidence_desc a b = true).
  - intros a b H. apply Qle_bool_iff. exact H.
  - apply order_by_sorted. exact confidence_desc_total.
Qed.

Lemma lookup_answers d labelled rs (src tgt : Relationship -> bool)
  (at_source at_target : Relationship -> Prop) :
  (forall r, src r = true <-> at_source r) ->
  (forall r, tgt r = true <-> at_target r) ->
  (forall r, In r rs <-> In r labelled /\ restriction d src tgt r = true) ->
  (forall r, In r labelled -> direction r = if src r then "downstream" else "upstream") ->
  Sorted (fun a b => (confidence_score b <= confidence_score a)%Q) rs ->
  answers_lookup d labelled at_source at_target rs.
Proof.
  intros Hsrc Htgt Hin Hlabel Hsorted. unfold answers_lookup.
  split; [|split; [|split; [|exact Hsorted]]].
  - intros -> r. rewrite Hin. unfold restriction. simpl. rewrite Htgt. tauto.
  - intros -> r. rewrite Hin. unfold restriction. simpl. rewrite Hsrc. tauto.
  - intros r Hr. apply Hin in Hr as [Hl Hc].
    rewrite (Hlabel r Hl), <- Hsrc, <- Htgt.
    unfold restriction in Hc.
    destruct (src r) eqn:Es.
    + intuition congruence.
    + destruct (String.eqb d "upstream"); [intuition congruence|].
      destruct (String.eqb d "downstream"); simpl in Hc; intuition congruence.
Qed.

Lemma by_id_answers st d p :
  answers_lookup d (select st (label_by_id p) unfiltered)
    (fun r => source_table_id r = p) (fun r => target_table_id r = p)
    (by_id st d p).
Proof.
  apply lookup_answers with (src := fun r => source_table_id r =? p)
                            (tgt := fun r => target_table_id r =? p).
  - intros r. apply Z.eqb_eq.
  - intros r. apply Z.eqb_eq.
  - intros r. unfold by_id. rewrite order_by_In.
    rewrite (select_filter st _ _
               (restriction d (fun r => source_table_id r =? p)
                              (fun r => target_table_id r =? p))).
    + apply filter_In.
    + intros tr s tt sl tl E1 E2. unfold where_by_id, restriction. simpl.
      rewrite E1, E2. reflexivity.
  - intros r Hr. apply select_In in Hr
      as (tr & s & tt & E1 & _ & _ & Hs & _ & _ & _ & Hd).
    rewrite Hd, Hs, <- E1. reflexivity.
  - apply sorted_by_confidence.
Qed.

Lemma by_name_answers st d p :
  answers_lookup d (select st (label_by_name p) unfiltered)
    (fun r => source_table r = p) (fun r => target_table r = p)
    (by_name st d p).
Proof.
  apply lookup_answers with (src := fun r => String.eqb (source_table r) p)
                            (tgt := fun r => String.eqb (target_table r) p).
  - intros r. apply String.eqb_eq.
  - intros r. apply String.eqb_eq.
  - intros r. unfold by_name. rewrite order_by_In.
    rewrite (select_filter st _ _
               (restriction d (fun r => String.eqb (source_table r) p)
                              (fun r => String.eqb (target_table r) p))).
    + apply filter_In.
    + intros tr s tt sl tl E1 E2. reflexivity.
  - intros r Hr. apply select_In in Hr
      as (tr & s & tt & _ & _ & _ & _ & _ & Hs & _ & Hd).
    rewrite Hd, Hs. reflexivity.
  - apply sorted_by_confidence.
Qed.

(** What the handler returns when the store answers. *)
Lemma GET_by_id st req raw p :
  q_table_id req = Some raw -> raw <> EmptyString -> Js.parseInt raw = Some p ->
  outage st 0%nat = None ->
  relationships (body (GET st req))
  = by_id st (Js.or_default (q_direction req) "both") p.
Proof.
  intros Hid Hne Hp Hup. unfold GET. rewrite Hid. simpl.
  destruct (String.eqb_spec raw EmptyString) as [|_]; [contradiction|]. simpl.
  rewrite Hp. unfold answer, query. rewrite Hup. reflexivity.
Qed.

Lemma GET_by_name st req name :
  Js.truthy (q_table_id req) = false ->
  q_table_name req = Some name -> name <> EmptyString ->
  outage st 0%nat = None ->
  relationships (body (GET st req))
  = by_name st (Js.or_default (q_direction req) "both") name.
Proof.
  intros Hid Hname Hne Hup. unfold GET. rewrite Hid, Hname. simpl.
  destruct (String.eqb_spec name EmptyString) as [|_]; [contradiction|]. simpl.
  unfold answer, query. rewrite Hup. reflexivity.
Qed.

(** C5 (as stated, refuted): table 2 of the sample store has an edge to
    itself; the upstream lookup on table 2 returns it, as it must (table 2
    is its target), but labels it [downstream]. *)
Lemma edge_to_itself_is_labelled_downstream :
  map (fun r => (id r, source_table_id r, target_table_id r, direction r))
      (relationships (body (GET chain_store (lookup "2" "upstream"))))
  = [(1, 1, 2, "upstream"); (3, 2, 2, "downstream")]
  /\ ~ (forall r, In r (relationships (body (GET chain_store (lookup "2" "upstream")))) ->
                  (direction r = "upstream" <-> target_table_id r = 2)).
Proof.
  split; [vm_compute; reflexivity|].
  intros H.
  set (r := {| id := 3; relationship_type := "lineage"; description := "flow";
               confidence_score := (1 # 2)%Q;
               source_table := "orders_clean"; source_table_id := 2;
               source_layer := "silver";
               target_table := "orders_clean"; target_table_id := 2;
               target_layer := "silver"; direction := "downstream" |}).
  assert (Hr : In r (relationships (body (GET chain_store (lookup "2" "upstream")))))
    by (vm_compute; right; left; reflexivity).
  destruct (H r Hr) as [_ Hback]. specialize (Hback eq_refl). discriminate Hback.
Qed.

(** C5 (amended): when the store answers, a lookup on table [T] -- given
    by id, or by name, in which case being the source (target) reads
    having that name as source (target) table name -- returns, for
    direction upstream, exactly the edges whose target is [T] and, for
    direction downstream, exactly those whose source is [T]; every
    returned edge touches [T] and is labelled [downstream] if and only if
    [T] is its source, [upstream] if and only if [T] is not its source (so
    that an edge from [T] to itself is labelled [downstream] only); the
    result is sorted by confidence, descending. *)
Theorem relationship_lookup_direction (st : Store) (req : Request) :
  outage st 0%nat = None ->
  (forall raw T,
      q_table_id req = Some raw -> raw <> EmptyString -> Js.parseInt raw = Some T ->
      answers_lookup (Js.or_default (q_direction req) "both")
        (select st (label_by_id T) unfiltered)
        (fun r => source_table_id r = T) (fun r => target_table_id r = T)
        (relationships (body (GET st req))))
  /\ (forall name,
        Js.truthy (q_table_id req) = false ->
        q_table_name req = Some name -> name <> EmptyString ->
        answers_lookup (Js.or_default (q_direction req) "both")
          (select st (label_by_name name) unfiltered)
          (fun r => source_table r = name) (fun r => target_table r = name)
          (relationships (body (GET st req)))).
Proof.
  intros Hup. split.
  - intros raw T Hid Hne Hp. rewrite (GET_by_id st req raw T Hid Hne Hp Hup).
    apply by_id_answers.
  - intros name Hid Hname Hne. rewrite (GET_by_name st req name Hid Hname Hne Hup).
    apply by_name_answers.
Qed.

(** The upstream lookup on table 2 of the sample store. *)
Lemma relationship_lookup_direction_witness :
  answers_lookup "upstream"
    (select chain_store (label_by_id 2) unfiltered)
    (fun r => source_table_id r = 2) (fun r => target_table_id r = 2)
    (relationships (body (GET chain_store (lookup "2" "upstream")))).
Proof.
  refine (proj1 (relationship_lookup_direction chain_store (lookup "2" "upstream") eq_refl)
                "2" 2 eq_refl _ eq_refl).
  discriminate.
Defined.

(** C6 (evaluation at the failing input): a table id that is not a number
    is answered before any query, with the empty result and an [error]
    field, under the success status 200. *)
Lemma invalid_table_id_answered_with_status_200 :
  let out := GET chain_store {| q_table_id := Some "abc"; q_table_name := None;
                                q_direction := None |} in
  status out = 200 /\ queries out = 0%nat
  /\ error (body out) = Some "Invalid table ID"
  /\ relationships (body out) = [].
Proof. vm_compute. repeat split; reflexivity. Qed.

(** Whatever fails in the store, the route answers with the empty result,
    the message of the failure and the status 200. *)
Lemma relationships_store_failure st req msg :
  outage st 0%nat = Some msg ->
  Js.truthy (q_table_id req) = false ->
  GET st req = {| status := 200; body := empty_response msg; queries := 1 |}.
Proof.
  intros Hdown Hid. unfold GET. rewrite Hid.
  destruct (Js.truthy (q_table_name req)); unfold answer, query; rewrite Hdown; reflexivity.
Qed.

End RelationshipProps.

(* ===================================================================== *)
(** ** [tables/route.ts]: confidence of the returned transformations      *)
(* ===================================================================== *)

Module TransformationProps.
Import Transformations Samples.

Lemma table_specific_shape st b d :
  (exists msg n, table_specific st b d 0%nat = (Throw msg, n))
  \/ (exists response n,
        table_specific st b d 0%nat = (Ok response, n)
        /\ (exists rows, transformations_of response = map to_transformation rows)
        /\ avg_confidence (summary response) = 1%Q).
Proof.
  unfold table_specific, bind, query.
  destruct (outage st 0%nat) as [msg|].
  - left. eexists; eexists; reflexivity.
  - right. eexists; eexists. split; [reflexivity|]. simpl.
    split; [eexists; reflexivity | reflexivity].
Qed.

Lemma layer_to_layer_shape st s t :
  (exists msg n, layer_to_layer st s t 0%nat = (Throw msg, n))
  \/ (exists response n,
        layer_to_layer st s t 0%nat = (Ok response, n)
        /\ (exists rows, transformations_of response = map to_transformation rows)
        /\ avg_confidence (summary response) = 1%Q).
Proof.
  unfold layer_to_layer, bind, query.
  destruct (outage st 0%nat) as [msg|].
  - left. eexists; eexists; reflexivity.
  - right. eexists; eexists. split; [reflexivity|]. simpl.
    split; [eexists; reflexivity | reflexivity].
Qed.

Lemma POST_confidence st json :
  (forall t, In t (transformations_of (body (POST st json))) -> confidence_score t = 1%Q)
  /\ (transformations_of (body (POST st json)) <> [] ->
      avg_confidence (summary (body (POST st json))) = 1%Q)
  /\ (status (POST st json) = 200 -> avg_confidence (summary (body (POST st json))) = 1%Q).
Proof.
  unfold POST. destruct json as [b|msg];
    [|simpl; repeat split; try tauto; discriminate].
  destruct (Js.truthy (b_table_name b) || truthy_id (b_table_id b)).
  - destruct (table_specific_shape st b (Js.or_default (b_direction b) "both"))
      as [(msg & n & E) | (response & n & E & (rows & Hrows) & Havg)]; rewrite E; simpl.
    + repeat split; try tauto; discriminate.
    + repeat split; try (intros _; exact Havg).
      intros t Ht. rewrite Hrows in Ht. apply in_map_iff in Ht as (j & <- & _). reflexivity.
  - destruct (Js.truthy (b_source_layer b) && Js.truthy (b_target_layer b)).
    + destruct (layer_to_layer_shape st (Js.or_default (b_source_layer b) EmptyString)
                  (Js.or_default (b_target_layer b) EmptyString))
        as [(msg & n & E) | (response & n & E & (rows & Hrows) & Havg)]; rewrite E; simpl.
      * repeat split; try tauto; discriminate.
      * repeat split; try (intros _; exact Havg).
        intros t Ht. rewrite Hrows in Ht. apply in_map_iff in Ht as (j & <- & _). reflexivity.
    + simpl. repeat split; try tauto; discriminate.
Qed.

(** C10: whatever the store holds and whatever the request (table-scoped
    or layer pair, sent by [POST] or by [GET], with a body that can be read
    or not), every returned transformation carries the confidence 1, and
    the summary of a non-empty result, and of every successful one, gives 1
    as the average confidence. *)
Theorem returned_confidence_is_always_one (st : Store) :
  (forall json : Res TransformationRequestBody,
      (forall t, In t (transformations_of (body (POST st json))) -> confidence_score t = 1%Q)
      /\ (transformations_of (body (POST st json)) <> [] ->
          avg_confidence (summary (body (POST st json))) = 1%Q)
      /\ (status (POST st json) = 200 ->
          avg_confidence (summary (body (POST st json))) = 1%Q))
  /\ (forall p : Params,
      (forall t, In t (transformations_of (body (GET st p))) -> confidence_score t = 1%Q)
      /\ (transformations_of (body (GET st p)) <> [] ->
          avg_confidence (summary (body (GET st p))) = 1%Q)
      /\ (status (GET st p) = 200 -> avg_confidence (summary (body (GET st p))) = 1%Q)).
Proof.
  split.
  - intros json. apply POST_confidence.
  - intros p. unfold GET. apply POST_confidence.
Qed.

(** The store of the samples records the confidence 1/2 for each
    transformation; the lookup returns 1 for both. *)
Example chain_store_confidences :
  map tr_confidence_score (transformations chain_store) = [(1 # 2)%Q; (1 # 2)%Q]
  /\ map confidence_score
       (transformations_of (body (POST chain_store
          (Ok {| b_table_name := Some "orders_clean"; b_table_id := None;
                 b_source_layer := None; b_target_layer := None;
                 b_direction := None |}))))
     = [1%Q; 1%Q].
Proof. split; vm_compute; reflexivity. Qed.

End TransformationProps.

(* ===================================================================== *)
(** ** Validation and store failures across the routes                    *)
(* ===================================================================== *)

Module ErrorProps.
Import Samples.

(** A lineage-chain request without table name or layer is rejected with
    status 400 before any query. *)
Lemma mermaid_missing_field_rejected st req :
  Js.truthy (Mermaid.table_name req) && Js.truthy (Mermaid.layer req) = false ->
  exists out,
    Mermaid.POST st req = Some out /\ status out = 400 /\ queries out = 0%nat
    /\ Mermaid.error (body out) = Some "table_name and layer are required".
Proof.
  intros H. unfold Mermaid.POST.
  destruct (Js.truthy (Mermaid.table_name req)); simpl in *;
    [rewrite H; simpl|]; eexists; repeat split.
Qed.

(** A failure of the store during a lineage-chain request gives status 500
    and the empty graph with an [error] field. *)
Lemma mermaid_store_failure st req out :
  Mermaid.POST st req = Some out -> status out = 500 ->
  exists msg,
    body out = Mermaid.empty_response EmptyString EmptyString ("Database error: " ++ msg).
Proof.
  intros Hout Hst.
  destruct (ChainFacts.POST_answers st req) as (o & Ho & A).
  rewrite Hout in Ho; inversion Ho; subst o.
  destruct A as [? _ E | ? msg _ _ Hb | ? ? ? _ E]; try (rewrite E in Hst; discriminate).
  exists msg; exact Hb.
Qed.

(** A missing query string, or one shorter than 2 characters, is rejected
    with status 400 before any query. *)
Lemma search_short_query_rejected st req :
  match Search.q req with
  | Some term => (String.length term < 2)%nat
  | None => True
  end ->
  status (Search.GET st req) = 400 /\ queries (Search.GET st req) = 0%nat
  /\ Search.error (body (Search.GET st req))
     = Some "Query must be at least 2 characters long".
Proof.
  unfold Search.GET. destruct (Search.q req) as [term|]; intros H.
  - apply Nat.ltb_lt in H. rewrite H. repeat split.
  - repeat split.
Qed.

(** A query of 2 characters or more never gets status 400: it is answered
    with 200, or with 500 and the empty result when the store fails. *)
Lemma search_accepted_or_failed st req term :
  Search.q req = Some term -> (2 <= String.length term)%nat ->
  status (Search.GET st req) = 200
  \/ (status (Search.GET st req) = 500
      /\ exists msg, body (Search.GET st req) = Search.failure term msg).
Proof.
  intros Hq Hlen. unfold Search.GET. rewrite Hq.
  destruct (Nat.ltb_spec (String.length term) 2) as [|_]; [lia|].
  destruct (Search.run_search st term _ 0%nat) as [[response|msg] n].
  - left; reflexivity.
  - right; split; [reflexivity | exists msg; reflexivity].
Qed.

(** A transformation lookup with neither a table nor a layer pair is
    rejected with status 400 before any query. *)
Lemma transformations_missing_parameters_rejected st b :
  Js.truthy (Transformations.b_table_name b)
  || Transformations.truthy_id (Transformations.b_table_id b) = false ->
  Js.truthy (Transformations.b_source_layer b)
  && Js.truthy (Transformations.b_target_layer b) = false ->
  status (Transformations.POST st (Ok b)) = 400
  /\ queries (Transformations.POST st (Ok b)) = 0%nat.
Proof.
  intros H1 H2. unfold Transformations.POST. rewrite H1, H2. split; reflexivity.
Qed.

End ErrorProps.

(* ===================================================================== *)
(** ** [mermaid/route.ts]: further properties of the response             *)
(* ===================================================================== *)

Module ChainExtras.
Import Mermaid ChainTerms ChainFacts Samples.

Lemma levels_In st seed r :
  In r (levels st 4 seed) <->
  exists k, (k < 4)%nat /\ In r (Nat.iter k (recursive_term st) seed).
Proof.
  rewrite levels_four. rewrite !in_app_iff. split.
  - intros [H|[H|[H|H]]];
      [exists 0%nat | exists 1%nat | exists 2%nat | exists 3%nat]; split; (lia || exact H).
  - intros (k & Hk & H). destruct k as [|[|[|[|k]]]]; try lia; tauto.
Qed.

Lemma seed_term_In st table lay r :
  In r (seed_term st table lay) <->
  exists t l, In t (tables st) /\ In l (layers st) /\ t_layer_id t = l_id l
    /\ t_name t = table /\ l_name l = lay
    /\ r = {| r_id := t_id t; r_name := t_name t; r_layer := l_name l;
              r_layer_id := l_id l; r_depth := 0;
              r_description := t_description t |}.
Proof.
  unfold seed_term. rewrite in_flat_map. split.
  - intros (t & Ht & H). apply in_flat_map in H as (l & Hl & H).
    destruct (Z.eqb_spec (t_layer_id t) (l_id l)) as [E1|]; [|destruct H].
    destruct (String.eqb_spec (t_name t) table) as [E2|]; [|destruct H].
    destruct (String.eqb_spec (l_name l) lay) as [E3|]; [|destruct H].
    destruct H as [<- | []]. exists t, l. repeat split; assumption.
  - intros (t & l & Ht & Hl & E1 & E2 & E3 & ->).
    exists t; split; [exact Ht|]. apply in_flat_map; exists l; split; [exact Hl|].
    rewrite E1, Z.eqb_refl, E2, E3, !String.eqb_refl. left; reflexivity.
Qed.

(** The nodes of a successful response, read on the rows. *)
Lemma resolved_nodes st req out :
  POST st req = Some out -> status out = 200 ->
  nodes (body out)
  = nodes_of st (order_by chain_leb
      (levels st 4 (seed_term st (Js.or_default (table_name req) EmptyString)
                                 (Js.or_default (layer req) EmptyString))))
  /\ edges (body out) = edges_of st (nodes (body out))
  /\ total_depth (body out) = totalDepth (nodes (body out))
  /\ layers_involved (body out) = layersInvolved (nodes (body out))
  /\ exists text, synthesize (nodes (body out)) (edges (body out)) = Ok text
                  /\ mermaid_syntax (body out) = text.
Proof.
  intros Hout Hst.
  destruct (POST_answers st req) as (o & Ho & A).
  rewrite Hout in Ho; inversion Ho; subst o; clear Ho.
  destruct A as [? _ E | ? ? _ E | ? rows text _ _ Hrows Hn He Hs Hm Hd Hl];
    try (rewrite E in Hst; discriminate).
  subst rows. repeat split; try assumption. exists text; split; assumption.
Qed.

Lemma node_row st rows n :
  In n (nodes_of st rows) ->
  exists r, In r rows /\ n_id n = r_id r /\ n_name n = r_name r
            /\ n_layer n = r_layer r /\ n_depth n = r_depth r.
Proof.
  unfold nodes_of. intros H. apply in_map_iff in H as (r & <- & Hr).
  exists r. repeat split; assumption.
Qed.

Lemma row_node st rows r :
  In r rows ->
  exists n, In n (nodes_of st rows) /\ n_id n = r_id r /\ n_name n = r_name r
            /\ n_layer n = r_layer r /\ n_depth n = r_depth r.
Proof.
  intros Hr. exists (make_node r (column_count st (r_id r))).
  split; [apply in_map with (f := fun row => make_node row (column_count st (r_id row)));
          exact Hr|]. repeat split.
Qed.

(** X1: in a successful response the entries at depth 0 are the selected
    table: every entry at depth 0 carries the requested name and layer, and
    every table of that name in a layer of that name is listed at depth 0. *)
Theorem selected_table_is_listed_at_depth_0
  (st : Store) (req : MermaidRequestBody) (out : Response MermaidLineageResponse) :
  POST st req = Some out -> status out = 200 ->
  (forall n, In n (nodes (body out)) -> n_depth n = 0 ->
     Some (n_name n) = table_name req /\ Some (n_layer n) = layer req)
  /\ (forall t l, In t (tables st) -> In l (layers st) -> t_layer_id t = l_id l ->
        Some (t_name t) = table_name req -> Some (l_name l) = layer req ->
        exists n, In n (nodes (body out))
                  /\ n_id n = t_id t /\ n_name n = t_name t
                  /\ n_layer n = l_name l /\ n_depth n = 0).
Proof.
  intros Hout Hst.
  destruct (resolved_nodes st req out Hout Hst) as (Hn & _).
  assert (Hvalid : Js.truthy (table_name req) = true /\ Js.truthy (layer req) = true).
  { unfold POST in Hout.
    destruct (Js.truthy (table_name req)), (Js.truthy (layer req)); simpl in Hout;
      try (inversion Hout; subst out; discriminate Hst). split; reflexivity. }
  destruct Hvalid as [Vt Vl].
  destruct (table_name req) as [table|] eqn:Et; [|discriminate Vt].
  destruct (layer req) as [lay|] eqn:El; [|discriminate Vl].
  simpl in Vt, Vl, Hn.
  destruct (String.eqb table EmptyString); [discriminate Vt|].
  destruct (String.eqb lay EmptyString); [discriminate Vl|].
  split.
  - intros n Hin Hd. rewrite Hn in Hin.
    apply node_row in Hin as (r & Hr & _ & En & Ely & Ed).
    apply order_by_In, levels_In in Hr as (k & Hk & Hr).
    assert (Hk0 : r_depth r = Z.of_nat k)
      by (eapply iter_depth; [apply seed_term_depth | exact Hr]).
    assert (k = 0%nat) by lia. subst k. simpl in Hr.
    apply seed_term_In in Hr as (t & l & _ & _ & _ & E2 & E3 & ->).
    simpl in En, Ely. split; congruence.
  - intros t l Ht Hl E1 E2 E3. inversion E2; inversion E3; subst table lay.
    destruct (row_node st
                (order_by chain_leb (levels st 4 (seed_term st (t_name t) (l_name l))))
                {| r_id := t_id t; r_name := t_name t; r_layer := l_name l;
                   r_layer_id := l_id l; r_depth := 0;
                   r_description := t_description t |})
      as (n & Hin & Hid & Hname & Hlay & Hdepth).
    { apply order_by_In, levels_In. exists 0%nat. split; [lia|]. simpl.
      apply seed_term_In. exists t, l. repeat split; assumption. }
    exists n. rewrite Hn. repeat split; assumption.
Qed.

Lemma selected_table_is_listed_at_depth_0_witness :
  exists out,
    POST chain_store (lineage_of "orders" "bronze" None) = Some out
    /\ exists n, In n (nodes (body out))
                 /\ n_id n = 1 /\ n_name n = "orders"
                 /\ n_layer n = "bronze" /\ n_depth n = 0.
Proof.
  destruct (POST chain_store (lineage_of "orders" "bronze" None))
    as [out|] eqn:E; [|vm_compute in E; discriminate E].
  exists out. split; [reflexivity|].
  assert (S : status out = 200) by (vm_compute in E; inversion E; reflexivity).
  apply (proj2 (selected_table_is_listed_at_depth_0 chain_store
                  (lineage_of "orders" "bronze" None) out E S)
               (table 1 "orders" 1) {| l_id := 1; l_name := "bronze" |}).
  - left; reflexivity.
  - left; reflexivity.
  - reflexivity.
  - reflexivity.
  - reflexivity.
Defined.

(** X2: in a successful response every entry at a depth [d > 0] is one
    transformation away from an entry at depth [d - 1]: the store holds a
    transformation from that entry's table to its table. *)
Theorem deeper_node_has_a_parent
  (st : Store) (req : MermaidRequestBody) (out : Response MermaidLineageResponse) :
  POST st req = Some out -> status out = 200 ->
  forall n, In n (nodes (body out)) -> 0 < n_depth n ->
    exists m tr,
      In m (nodes (body out)) /\ In tr (transformations st)
      /\ n_depth m = n_depth n - 1
      /\ tr_source_table_id tr = n_id m /\ tr_target_table_id tr = n_id n.
Proof.
  intros Hout Hst n Hin Hd.
  destruct (resolved_nodes st req out Hout Hst) as (Hn & _).
  rewrite Hn in Hin. apply node_row in Hin as (r & Hr & Eid & _ & _ & Ed).
  apply order_by_In, levels_In in Hr as (k & Hk & Hr).
  destruct k as [|k].
  - simpl in Hr. apply seed_term_depth in Hr. lia.
  - simpl in Hr.
    apply recursive_term_In in Hr as (lc & tr & Hlc & Htr & Es & Et & _ & Edepth).
    destruct (row_node st
                (order_by chain_leb
                   (levels st 4 (seed_term st (Js.or_default (table_name req) EmptyString)
                                              (Js.or_default (layer req) EmptyString))))
                lc) as (m & Hm & Emid & _ & _ & Emd).
    { apply order_by_In, levels_In. exists k. split; [lia | exact Hlc]. }
    exists m, tr. rewrite Hn. repeat split; try assumption; try congruence. lia.
Qed.

Lemma deeper_node_has_a_parent_witness :
  exists out,
    POST chain_store (lineage_of "orders" "bronze" None) = Some out
    /\ forall n, In n (nodes (body out)) -> 0 < n_depth n ->
         exists m tr,
           In m (nodes (body out)) /\ In tr (transformations chain_store)
           /\ n_depth m = n_depth n - 1
           /\ tr_source_table_id tr = n_id m /\ tr_target_table_id tr = n_id n.
Proof.
  destruct (POST chain_store (lineage_of "orders" "bronze" None))
    as [out|] eqn:E; [|vm_compute in E; discriminate E].
  exists out. split; [reflexivity|].
  apply (deeper_node_has_a_parent chain_store (lineage_of "orders" "bronze" None) out E).
  vm_compute in E. inversion E. reflexivity.
Defined.

(** *** Summary fields *)

Lemma fold_max_spec (l : list Z) (a : Z) :
  a <= fold_left Z.max l a
  /\ (forall x, In x l -> x <= fold_left Z.max l a)
  /\ (fold_left Z.max l a = a \/ In (fold_left Z.max l a) l).
Proof.
  revert a. induction l as [|y l IH]; intros a; simpl.
  - split; [lia|]. split; [intros x []|left; reflexivity].
  - destruct (IH (Z.max a y)) as (H1 & H2 & H3). split; [lia|]. split.
    + intros x [<- | Hx]; [lia | apply H2; exact Hx].
    + destruct H3 as [H3 | H3]; [|right; right; exact H3].
      rewrite H3. destruct (Z.max_spec a y) as [[_ ->] | [_ ->]]; [right; left|left]; reflexivity.
Qed.

Lemma max_list_spec (x : Z) (l : list Z) :
  In (Js.max_list (x :: l)) (x :: l)
  /\ forall y, In y (x :: l) -> y <= Js.max_list (x :: l).
Proof.
  unfold Js.max_list. destruct (fold_max_spec l x) as (H1 & H2 & H3). split.
  - destruct H3 as [-> | H3]; [left; reflexivity | right; exact H3].
  - intros y [<- | Hy]; [exact H1 | apply H2; exact Hy].
Qed.

Lemma uniq_In (l : list string) (x : string) : In x (Js.uniq l) <-> In x l.
Proof.
  induction l as [|y l IH]; simpl; [tauto|].
  rewrite filter_In, IH. split.
  - intros [H | [H _]]; [left | right]; assumption.
  - intros [H | H]; [left; exact H|].
    destruct (String.eqb_spec x y) as [->|NE]; [left; reflexivity|].
    right. split; [exact H | reflexivity].
Qed.

Lemma uniq_NoDup (l : list string) : NoDup (Js.uniq l).
Proof.
  induction l as [|y l IH]; simpl; constructor.
  - rewrite filter_In. intros [_ H]. rewrite String.eqb_refl in H. discriminate.
  - apply NoDup_filter. exact IH.
Qed.

(** X3: [total_depth] is the greatest depth of the node list: no entry is
    deeper, some entry has that depth unless the list is empty (then it is
    0), and it never exceeds 3. *)
Theorem total_depth_is_the_greatest_depth (st : Store) (req : MermaidRequestBody) :
  exists out,
    POST st req = Some out
    /\ (forall n, In n (nodes (body out)) -> n_depth n <= total_depth (body out))
    /\ (nodes (body out) <> [] ->
        exists n, In n (nodes (body out)) /\ n_depth n = total_depth (body out))
    /\ (nodes (body out) = [] -> total_depth (body out) = 0)
    /\ 0 <= total_depth (body out) <= 3.
Proof.
  destruct (POST_answers st req) as (out & Hout & A).
  exists out. split; [exact Hout|].
  assert (Hcases : (nodes (body out) = [] /\ total_depth (body out) = 0)
                   \/ (total_depth (body out) = totalDepth (nodes (body out))
                       /\ forall n, In n (nodes (body out)) -> 0 <= n_depth n <= 3)).
  { destruct A as [? Hv _ _ Hn _ _ _ | ? ? _ _ Hb | ? rows ? _ _ Hrows Hn _ _ _ Hd].
    - left. split; [exact Hn|]. unfold POST in Hout.
      destruct (negb (Js.truthy (table_name req)) || negb (Js.truthy (layer req))) eqn:V.
      + inversion Hout; reflexivity.
      + apply orb_false_iff in V as [V1 V2]. apply negb_false_iff in V1, V2.
        rewrite V1, V2 in Hv. discriminate Hv.
    - left. rewrite Hb. split; reflexivity.
    - right. split; [exact Hd|]. intros n Hin. rewrite Hn in Hin.
      apply node_row in Hin as (r & Hr & _ & _ & _ & ->).
      subst rows. apply order_by_In in Hr. eapply levels_depth; exact Hr. }
  destruct Hcases as [[Hn Hd] | [Hd Hb]].
  - rewrite Hn, Hd. repeat split; try lia; try tauto; try (intros n []).
  - rewrite Hd. destruct (nodes (body out)) as [|n0 ns] eqn:En.
    + simpl. repeat split; try lia; try tauto; try (intros n []).
    + unfold totalDepth.
      destruct (max_list_spec (n_depth n0) (map n_depth ns)) as [Hin Hmax].
      change (n_depth n0 :: map n_depth ns) with (map n_depth (n0 :: ns)) in Hin, Hmax.
      apply in_map_iff in Hin as (m & Hm & Hmin).
      split; [intros n Hn; apply Hmax; apply in_map; exact Hn|].
      split; [intros _; exists m; split; assumption|].
      split; [discriminate|].
      rewrite <- Hm. apply Hb. exact Hmin.
Qed.

(** X4: [layers_involved] lists each layer of the node list once and
    nothing else, and in a successful response the subgraphs of the diagram
    are those of its entries, one each: the text is the diagram of a
    rearrangement of [layers_involved] (for layer names in ASCII, on which
    the identifiers are the upper-case forms that the code writes). *)
Theorem layers_involved_are_the_layers_drawn (st : Store) (req : MermaidRequestBody) :
  exists out,
    POST st req = Some out
    /\ NoDup (layers_involved (body out))
    /\ (forall l, In l (layers_involved (body out))
                  <-> exists n, In n (nodes (body out)) /\ n_layer n = l)
    /\ (status out = 200 ->
        (forall n, In n (nodes (body out)) -> Js.is_ascii (n_layer n) = true) ->
        exists ls,
          Permutation ls (layers_involved (body out))
          /\ mermaid_syntax (body out)
             = diagram header ls (nodes (body out)) (edges (body out))).
Proof.
  destruct (POST_answers st req) as (out & Hout & A).
  exists out. split; [exact Hout|].
  destruct A as [? _ Hs _ Hn _ _ _ | ? ? _ Hs Hb | ? rows text _ Hs _ _ _ Hsyn Htext _ Hl].
  - assert (Hli : layers_involved (body out) = []).
    { unfold POST in Hout.
      destruct (negb (Js.truthy (table_name req)) || negb (Js.truthy (layer req)));
        [inversion Hout; reflexivity|].
      destruct (lineage_chain st _ _); [|discriminate].
      destruct (resolve st _ _ _ _) as [[?|?] ?]; inversion Hout; subst out; discriminate Hs. }
    rewrite Hli, Hn. split; [constructor|]. split.
    + intros l. split; [intros [] | intros (n & [] & _)].
    + rewrite Hs. discriminate.
  - rewrite Hb. simpl. split; [constructor|]. split.
    + intros l. split; [intros [] | intros (n & [] & _)].
    + rewrite Hs. discriminate.
  - rewrite Hl. unfold layersInvolved. split; [apply uniq_NoDup|]. split.
    + intros l. rewrite uniq_In, in_map_iff. split; intros (n & H1 & H2); exists n; tauto.
    + intros _ _.
      destruct (DiagramProps.synthesized_text _ _ _ Hsyn) as (ls & Hnd & Hk & E).
      exists ls. split; [|rewrite Htext; exact E].
      apply NoDup_Permutation; [exact Hnd | apply uniq_NoDup|].
      intros l. rewrite uniq_In. apply Hk.
Qed.

(** *** Queries issued *)

Lemma for_each_count {A B} (f : A -> Sql B) :
  (forall a n b n', f a n = (Ok b, n') -> n' = S n) ->
  forall l n bs n', for_each f l n = (Ok bs, n') -> n' = (n + length l)%nat.
Proof.
  intros Hf. induction l as [|a l IH]; intros n bs n' H; simpl in H.
  - inversion H. simpl. lia.
  - apply bind_ok in H as (b & n1 & Hb & H).
    apply bind_ok in H as (bs' & n2 & Hbs & H).
    inversion H; subst. apply Hf in Hb. apply IH in Hbs. simpl. lia.
Qed.

Lemma build_edges_count st ns :
  forall n es n', build_edges st ns n = (Ok es, n') -> n' = (n + (length ns - 1))%nat.
Proof.
  induction ns as [|s rest IH]; intros n es n' H.
  - inversion H. simpl. lia.
  - destruct rest as [|t rest'].
    + inversion H. simpl. lia.
    + cbn [build_edges] in H.
      apply bind_ok in H as (rows & n1 & Hq & H). apply query_ok in Hq as [_ ->].
      apply bind_ok in H as (es' & n2 & Hes & H). apply IH in Hes.
      inversion H; subst. cbn [length] in *. lia.
Qed.

(** X5: a successful resolution issues one query for the chain, one per
    node for its column count and one per pair of consecutive nodes for its
    edge: [1 + n + (n - 1)] queries for [n] nodes (1 when there is none). *)
Theorem queries_of_a_resolution
  (st : Store) (req : MermaidRequestBody) (out : Response MermaidLineageResponse) :
  POST st req = Some out -> status out = 200 ->
  queries out
  = (1 + length (nodes (body out)) + (length (nodes (body out)) - 1))%nat.
Proof.
  intros Hout Hst. unfold POST in Hout.
  destruct (negb (Js.truthy (table_name req)) || negb (Js.truthy (layer req)));
    [inversion Hout; subst out; discriminate Hst|].
  destruct (lineage_chain st _ _) as [rows|]; [|discriminate].
  destruct (resolve st _ _ rows 0%nat) as [[response|msg] n] eqn:E;
    inversion Hout; subst out; [|discriminate Hst]. simpl. clear Hout Hst.
  unfold resolve in E.
  apply bind_ok in E as (rows' & n1 & Hq & E). apply query_ok in Hq as [-> ->].
  apply bind_ok in E as (ns & n2 & Hns & E).
  assert (Hc : n2 = (1 + length rows)%nat).
  { eapply (for_each_count _ _ rows 1%nat ns n2 Hns). }
  apply build_nodes_ok in Hns.
  apply bind_ok in E as (es & n3 & Hes & E).
  apply build_edges_count in Hes.
  destruct (synthesize ns es); [|discriminate].
  inversion E; subst response n. simpl.
  subst ns. unfold nodes_of in *. rewrite length_map in *. lia.
  Unshelve.
  intros row m b m' H. apply bind_ok in H as (c & m1 & Hq & H).
  apply query_ok in Hq as [_ ->]. inversion H; reflexivity.
Qed.

Lemma queries_of_a_resolution_witness :
  exists out,
    POST chain_store (lineage_of "orders" "bronze" None) = Some out
    /\ queries out = 6%nat.
Proof.
  destruct (POST chain_store (lineage_of "orders" "bronze" None))
    as [out|] eqn:E; [|vm_compute in E; discriminate E].
  exists out. split; [reflexivity|].
  assert (S : status out = 200) by (vm_compute in E; inversion E; reflexivity).
  rewrite (queries_of_a_resolution chain_store (lineage_of "orders" "bronze" None) out E S).
  vm_compute in E. inversion E. reflexivity.
Defined.

(** *** Grouping by layer *)

(** X6: for a node list on which the synthesis completes, with layer names
    in ASCII, the text is the diagram of some layers [ls] in which each
    subgraph declares exactly the nodes of its layer, in the order of the
    node list ([diagram], [block], [members]); no subgraph is empty, and
    the nodes declared, subgraph after subgraph, are the nodes of the list:
    none is dropped and none is declared twice. *)
Theorem subgraph_holds_the_nodes_of_its_layer
  (ns : list LineageNode) (es : list LineageEdge) :
  (forall n, In n ns -> Js.inherited (n_layer n) = false) ->
  ascii_layers ns es ->
  exists ls,
    synthesize ns es = Ok (diagram header ls ns es)
    /\ (forall l, In l ls ->
          members l ns <> []
          /\ forall n, In n (members l ns) <-> In n ns /\ n_layer n = l)
    /\ Permutation (flat_map (fun l => members l ns) ls) ns.
Proof.
  intros Hall _.
  destruct (DiagramProps.synthesis_completes ns es Hall) as (text & E).
  destruct (DiagramProps.synthesized_text ns es text E) as (ls & Hnd & Hk & ->).
  exists ls. split; [exact E|]. split.
  - intros l Hl. split.
    + apply Hk, in_map_iff in Hl as (n & Hn & Hin). intros Hnil.
      assert (Hf : In n (members l ns)).
      { unfold members. apply filter_In. split; [exact Hin|].
        rewrite Hn. apply String.eqb_refl. }
      rewrite Hnil in Hf. destruct Hf.
    + intros n. unfold members. rewrite filter_In, String.eqb_eq. reflexivity.
  - apply DiagramProps.members_split; [exact Hnd|].
    intros n Hn. apply Hk. apply in_map. exact Hn.
Qed.

Lemma subgraph_holds_the_nodes_of_its_layer_witness :
  exists ls,
    synthesize (nodes_of chain_store
                  [ {| r_id := 1; r_name := "orders"; r_layer := "bronze";
                       r_layer_id := 1; r_depth := 0; r_description := None |};
                    {| r_id := 2; r_name := "orders_clean"; r_layer := "silver";
                       r_layer_id := 2; r_depth := 1; r_description := None |} ]) []
    = Ok (diagram header ls
            (nodes_of chain_store
               [ {| r_id := 1; r_name := "orders"; r_layer := "bronze";
                    r_layer_id := 1; r_depth := 0; r_description := None |};
                 {| r_id := 2; r_name := "orders_clean"; r_layer := "silver";
                    r_layer_id := 2; r_depth := 1; r_description := None |} ]) [])
    /\ Permutation
         (flat_map (fun l => members l
            (nodes_of chain_store
               [ {| r_id := 1; r_name := "orders"; r_layer := "bronze";
                    r_layer_id := 1; r_depth := 0; r_description := None |};
                 {| r_id := 2; r_name := "orders_clean"; r_layer := "silver";
                    r_layer_id := 2; r_depth := 1; r_description := None |} ])) ls)
         (nodes_of chain_store
            [ {| r_id := 1; r_name := "orders"; r_layer := "bronze";
                 r_layer_id := 1; r_depth := 0; r_description := None |};
              {| r_id := 2; r_name := "orders_clean"; r_layer := "silver";
                 r_layer_id := 2; r_depth := 1; r_description := None |} ]).
Proof.
  destruct (subgraph_holds_the_nodes_of_its_layer
              (nodes_of chain_store
                 [ {| r_id := 1; r_name := "orders"; r_layer := "bronze";
                      r_layer_id := 1; r_depth := 0; r_description := None |};
                   {| r_id := 2; r_name := "orders_clean"; r_layer := "silver";
                      r_layer_id := 2; r_depth := 1; r_description := None |} ]) [])
    as (ls & E & _ & Hp).
  - intros n [<- | [<- | []]]; reflexivity.
  - split; [intros n [<- | [<- | []]]; reflexivity | intros e []].
  - exists ls. split; [exact E | exact Hp].
Defined.

(** X7: the synthesis fails exactly when some node belongs to a layer named
    like a property that every object inherits ([constructor],
    [toString], [__proto__], ...); the error is then the [TypeError] of the
    [push]. *)
Theorem synthesis_fails_on_inherited_layer_names
  (ns : list LineageNode) (es : list LineageEdge) :
  ((exists msg, synthesize ns es = Throw msg)
   <-> exists n, In n ns /\ Js.inherited (n_layer n) = true)
  /\ (forall msg, synthesize ns es = Throw msg ->
                  msg = "acc[node.layer].push is not a function").
Proof.
  split.
  - unfold synthesize, nodesByLayer.
    destruct (DiagramProps.group_from_grouped ns [] [] DiagramProps.grouped_nil)
      as [[Hex (msg & E)] | [Hall (groups & E & _)]]; rewrite E.
    + split; [intros _; exact Hex | intros _; exists msg; reflexivity].
    + split; [intros (msg & H); discriminate|].
      intros (n & Hn & Hi). rewrite (Hall n Hn) in Hi. discriminate.
  - unfold synthesize, nodesByLayer. generalize (@nil (string * list LineageNode)).
    induction ns as [|node ns IH]; intros acc msg H; simpl in H; [discriminate|].
    unfold group_step in H at 1.
    destruct (Js.own acc (n_layer node)).
    + apply (IH _ _ H).
    + destruct (Js.inherited (n_layer node)); [inversion H; reflexivity|].
      apply (IH _ _ H).
Qed.

(** X8: in a successful response with layer names in ASCII, every edge
    joins two entries of the node list; the text of the diagram declares
    each of the two under its identifier (its layer in upper case, an
    underscore, its name), and connects these two identifiers in the line
    of the edge. *)
Theorem edges_connect_declared_nodes
  (st : Store) (req : MermaidRequestBody) (out : Response MermaidLineageResponse) :
  POST st req = Some out -> status out = 200 ->
  (forall n, In n (nodes (body out)) -> Js.is_ascii (n_layer n) = true) ->
  forall e, In e (edges (body out)) ->
    exists s t,
      In s (nodes (body out)) /\ In t (nodes (body out))
      /\ occurs ("        " ++ (Js.toUpperCase (n_layer s) ++ "_" ++ n_name s)
                 ++ "[" ++ dquote
                 ++ (n_name s ++ "<br/>" ++ Js.show_Z (n_column_count s)
                     ++ " columns<br/>" ++ n_description s)
                 ++ dquote ++ "]" ++ nl)
                (mermaid_syntax (body out))
      /\ occurs ("        " ++ (Js.toUpperCase (n_layer t) ++ "_" ++ n_name t)
                 ++ "[" ++ dquote
                 ++ (n_name t ++ "<br/>" ++ Js.show_Z (n_column_count t)
                     ++ " columns<br/>" ++ n_description t)
                 ++ dquote ++ "]" ++ nl)
                (mermaid_syntax (body out))
      /\ occurs ("    " ++ (Js.toUpperCase (n_layer s) ++ "_" ++ n_name s)
                 ++ " -->|" ++ Js.show_opt (e_transformation_type e) ++ "| "
                 ++ (Js.toUpperCase (n_layer t) ++ "_" ++ n_name t) ++ nl)
                (mermaid_syntax (body out)).
Proof.
  intros Hout Hst _ e He.
  destruct (resolved_nodes st req out Hout Hst) as (_ & Hedges & _ & _ & text & Hsyn & Htext).
  destruct (DiagramProps.synthesized_text _ _ _ Hsyn) as (ls & _ & Hk & E).
  rewrite Htext, E.
  assert (Hconn := DiagramProps.connection_occurs header ls (nodes (body out))
                     (edges (body out)) e He).
  rewrite Hedges in He. unfold edges_of in He.
  apply in_flat_map in He as ([s t] & Hpair & He).
  unfold edge_between in He. cbn [fst snd] in He.
  destruct (transformation_between st (n_id s) (n_id t)); [destruct He|].
  destruct He as [<- | []].
  assert (Hs : In s (nodes (body out))) by (eapply in_combine_l; exact Hpair).
  assert (Ht : In t (nodes (body out))).
  { apply in_combine_r in Hpair. destruct (nodes (body out)); [destruct Hpair|].
    right; exact Hpair. }
  exists s, t. split; [exact Hs|]. split; [exact Ht|].
  split; [|split].
  - apply (DiagramProps.declaration_occurs header ls _ _ s Hs).
    apply Hk, in_map, Hs.
  - apply (DiagramProps.declaration_occurs header ls _ _ t Ht).
    apply Hk, in_map, Ht.
  - exact Hconn.
Qed.

Lemma edges_connect_declared_nodes_witness :
  exists out,
    POST chain_store (lineage_of "orders" "bronze" None) = Some out
    /\ length (edges (body out)) = 2%nat
    /\ forall e, In e (edges (body out)) ->
         exists s t,
           In s (nodes (body out)) /\ In t (nodes (body out))
           /\ occurs ("    " ++ (Js.toUpperCase (n_layer s) ++ "_" ++ n_name s)
                      ++ " -->|" ++ Js.show_opt (e_transformation_type e) ++ "| "
                      ++ (Js.toUpperCase (n_layer t) ++ "_" ++ n_name t) ++ nl)
                     (mermaid_syntax (body out)).
Proof.
  destruct (POST chain_store (lineage_of "orders" "bronze" None))
    as [out|] eqn:E; [|vm_compute in E; discriminate E].
  exists out. split; [reflexivity|].
  assert (S : status out = 200) by (vm_compute in E; inversion E; reflexivity).
  assert (L : length (edges (body out)) = 2%nat)
    by (vm_compute in E; inversion E; reflexivity).
  assert (A : forall n, In n (nodes (body out)) -> Js.is_ascii (n_layer n) = true).
  { vm_compute in E. inversion E. simpl. intros n [<- | [<- | [<- | []]]]; reflexivity. }
  split; [exact L|].
  intros e He.
  destruct (edges_connect_declared_nodes chain_store (lineage_of "orders" "bronze" None)
              out E S A e He) as (s & t & Hs & Ht & _ & _ & Hc).
  exists s, t. split; [exact Hs|]. split; [exact Ht | exact Hc].
Defined.

End ChainExtras.

(* ===================================================================== *)
(** ** The lineage viewer: node ids and table names                       *)
(* ===================================================================== *)

Module ViewerProps.
Import Mermaid Viewer.

Lemma split_not_nil sep s : split sep s <> [].
Proof.
  destruct s as [|c r]; simpl; [discriminate|].
  destruct (Ascii.eqb c sep); [discriminate|].
  destruct (split sep r); discriminate.
Qed.

Lemma split_before_separator sep a b :
  ~ In sep (list_ascii_of_string a) ->
  split sep (a ++ String sep b) = a :: split sep b.
Proof.
  induction a as [|c a IH]; simpl; intros H.
  - rewrite Ascii.eqb_refl. reflexivity.
  - destruct (Ascii.eqb_spec c sep) as [->|_]; [exfalso; apply H; left; reflexivity|].
    rewrite IH; [reflexivity|]. intros Hin; apply H; right; exact Hin.
Qed.

(** Splitting and joining on the same separator gives the string back. *)
Lemma join_split sep s :
  String.concat (String sep EmptyString) (split sep s) = s.
Proof.
  induction s as [|c r IH]; simpl; [reflexivity|].
  destruct (Ascii.eqb_spec c sep) as [->|_].
  - destruct (split sep r) as [|h t] eqn:E; [exfalso; exact (split_not_nil sep r E)|].
    cbn [String.concat]. change (String.concat (String sep EmptyString) (h :: t))
      with (String.concat (String sep EmptyString) (h :: t)) in IH.
    simpl. f_equal. exact IH.
  - destruct (split sep r) as [|h t] eqn:E; [exfalso; exact (split_not_nil sep r E)|].
    destruct t as [|h' t'].
    + simpl in *. f_equal. exact IH.
    + cbn [String.concat] in *. simpl. f_equal. exact IH.
Qed.

Lemma upper_ascii_underscore c : Js.upper_ascii c = "_"%char -> c = "_"%char.
Proof.
  destruct c as [[] [] [] [] [] [] [] []]; vm_compute; intros H;
    first [reflexivity | discriminate H].
Qed.

Lemma toUpperCase_no_underscore s :
  ~ In "_"%char (list_ascii_of_string s) ->
  ~ In "_"%char (list_ascii_of_string (Js.toUpperCase s)).
Proof.
  induction s as [|c s IH]; simpl; intros H; [exact H|].
  intros [E | Hin].
  - apply H. left. apply upper_ascii_underscore. exact E.
  - apply IH; [|exact Hin]. intros Hs; apply H; right; exact Hs.
Qed.

(** X9: clicking a node of the diagram selects its table: from the
    identifier the route gives a node, [handleNodeClick] recovers the
    table name, underscores included, provided the layer name has no
    underscore. *)
Theorem clicked_node_selects_its_table (n : LineageNode) :
  ~ In "_"%char (list_ascii_of_string (n_layer n)) ->
  handleNodeClick (nodeId n) = Some (n_name n).
Proof.
  intros H. unfold handleNodeClick, nodeId.
  change (Js.toUpperCase (n_layer n) ++ "_" ++ n_name n)
    with (Js.toUpperCase (n_layer n) ++ String "_" (n_name n)).
  rewrite split_before_separator by (apply toUpperCase_no_underscore; exact H).
  destruct (split "_" (n_name n)) as [|h t] eqn:E;
    [exfalso; exact (split_not_nil _ _ E)|].
  cbn [length tl]. simpl Nat.leb. rewrite <- E. f_equal. apply join_split.
Qed.

Lemma clicked_node_selects_its_table_witness :
  handleNodeClick "SILVER_orders_clean" = Some "orders_clean".
Proof.
  refine (clicked_node_selects_its_table
            {| n_id := 2; n_name := "orders_clean"; n_layer := "silver";
               n_layer_id := 2; n_depth := 1; n_column_count := 0;
               n_description := EmptyString |} _).
  simpl. intros H.
  repeat (destruct H as [H | H]; [discriminate H|]). exact H.
Defined.

End ViewerProps.

(* ===================================================================== *)
(** ** [relationships/route.ts]: summary and unknown directions           *)
(* ===================================================================== *)

Module RelationshipExtras.
Import Relationships LookupTerms RelationshipProps Samples.

Lemma count_both_labels (rs : list Relationship) :
  (forall r, In r rs -> direction r = "upstream" \/ direction r = "downstream") ->
  count_direction "upstream" rs + count_direction "downstream" rs
  = Z.of_nat (length rs).
Proof.
  unfold count_direction. induction rs as [|r rs IH]; intros H; [reflexivity|].
  assert (IH' := IH (fun x Hx => H x (or_intror Hx))).
  simpl. destruct (H r (or_introl eq_refl)) as [-> | ->]; simpl length; lia.
Qed.

Lemma count_no_label (d : string) (rs : list Relationship) :
  (forall r, In r rs -> direction r <> d) -> count_direction d rs = 0.
Proof.
  unfold count_direction. induction rs as [|r rs IH]; intros H; [reflexivity|].
  simpl. destruct (String.eqb_spec (direction r) d) as [E|_].
  - exfalso; exact (H r (or_introl eq_refl) E).
  - apply IH. intros x Hx; apply H; right; exact Hx.
Qed.

Lemma answer_summary st rows :
  total (summary (body (answer st rows)))
  = Z.of_nat (length (relationships (body (answer st rows))))
  /\ upstream (summary (body (answer st rows)))
     = count_direction "upstream" (relationships (body (answer st rows)))
  /\ downstream (summary (body (answer st rows)))
     = count_direction "downstream" (relationships (body (answer st rows)))
  /\ (relationships (body (answer st rows)) = rows
      \/ relationships (body (answer st rows)) = []).
Proof.
  unfold answer, query. destruct (outage st 0%nat); simpl; repeat split; auto.
Qed.

(** X10: in every response of the relationship lookup [total] is the
    number of relationships returned; for a lookup on a table, by id or by
    name, the [upstream] and [downstream] counts add up to [total]; for the
    listing of all relationships both counts are 0. *)
Theorem relationship_summary_counts (st : Store) (req : Request) :
  total (summary (body (GET st req)))
  = Z.of_nat (length (relationships (body (GET st req))))
  /\ (Js.truthy (q_table_id req) || Js.truthy (q_table_name req) = true ->
      upstream (summary (body (GET st req))) + downstream (summary (body (GET st req)))
      = total (summary (body (GET st req))))
  /\ (Js.truthy (q_table_id req) || Js.truthy (q_table_name req) = false ->
      upstream (summary (body (GET st req))) = 0
      /\ downstream (summary (body (GET st req))) = 0).
Proof.
  unfold GET.
  destruct (Js.truthy (q_table_id req)) eqn:Eid; simpl.
  - destruct (Js.parseInt _) as [p|]; [|simpl; repeat split; discriminate].
    destruct (answer_summary st (by_id st (Js.or_default (q_direction req) "both") p))
      as (Ht & Hu & Hd & Hrows).
    split; [exact Ht|]. split; [|discriminate].
    intros _. rewrite Ht, Hu, Hd. apply count_both_labels.
    intros r Hr. destruct Hrows as [E | E]; rewrite E in Hr; [|destruct Hr].
    apply order_by_In, select_In in Hr as (tr & s & tt & _ & _ & _ & _ & _ & _ & _ & Hl).
    rewrite Hl. unfold label_by_id. destruct (_ =? _); [right | left]; reflexivity.
  - destruct (Js.truthy (q_table_name req)) eqn:En.
    + destruct (answer_summary st
                  (by_name st (Js.or_default (q_direction req) "both")
                           (Js.or_default (q_table_name req) EmptyString)))
        as (Ht & Hu & Hd & Hrows).
      split; [exact Ht|]. split; [|discriminate].
      intros _. rewrite Ht, Hu, Hd. apply count_both_labels.
      intros r Hr. destruct Hrows as [E | E]; rewrite E in Hr; [|destruct Hr].
      apply order_by_In, select_In in Hr as (tr & s & tt & _ & _ & _ & _ & _ & _ & _ & Hl).
      rewrite Hl. unfold label_by_name. destruct (String.eqb _ _); [right | left]; reflexivity.
    + destruct (answer_summary st (all_relationships st)) as (Ht & Hu & Hd & Hrows).
      split; [exact Ht|]. split; [discriminate|].
      intros _. rewrite Hu, Hd.
      assert (Hboth : forall r, In r (relationships (body (answer st (all_relationships st)))) ->
                                direction r = "both").
      { intros r Hr. destruct Hrows as [E | E]; rewrite E in Hr; [|destruct Hr].
        apply order_by_In, select_In in Hr
          as (tr & s & tt & _ & _ & _ & _ & _ & _ & _ & Hl). exact Hl. }
      split; apply count_no_label; intros r Hr; rewrite (Hboth r Hr); discriminate.
Qed.

(** X11: a direction that is neither [upstream] nor [downstream] (a
    missing one, [both], or any other text) is answered as [both]: the
    whole response is that of the same request with direction [both], and
    when the store answers a lookup by id it returns exactly the edges that
    have the table as source or as target. *)
Theorem other_directions_are_read_as_both (st : Store) (req : Request) :
  Js.or_default (q_direction req) "both" <> "upstream" ->
  Js.or_default (q_direction req) "both" <> "downstream" ->
  GET st req
  = GET st {| q_table_id := q_table_id req; q_table_name := q_table_name req;
              q_direction := Some "both" |}
  /\ forall raw T,
       q_table_id req = Some raw -> raw <> EmptyString -> Js.parseInt raw = Some T ->
       outage st 0%nat = None ->
       forall r, In r (relationships (body (GET st req)))
                 <-> In r (select st (label_by_id T) unfiltered)
                     /\ (source_table_id r = T \/ target_table_id r = T).
Proof.
  intros Hup Hdown.
  apply String.eqb_neq in Hup, Hdown.
  split.
  - unfold GET. simpl.
    unfold by_id, by_name, where_by_id, where_by_name.
    rewrite Hup, Hdown. reflexivity.
  - intros raw T Hid Hne Hp Hok r.
    rewrite (GET_by_id st req raw T Hid Hne Hp Hok).
    unfold by_id. rewrite order_by_In.
    rewrite (select_filter st _ _
               (fun r => (source_table_id r =? T) || (target_table_id r =? T))).
    + rewrite filter_In, orb_true_iff, !Z.eqb_eq. reflexivity.
    + intros tr s tt sl tl E1 E2. unfold where_by_id. rewrite Hup, Hdown. simpl.
      rewrite E1, E2. reflexivity.
Qed.

Lemma other_directions_are_read_as_both_witness :
  GET chain_store (lookup "2" "sideways") = GET chain_store (lookup "2" "both").
Proof.
  refine (proj1 (other_directions_are_read_as_both chain_store (lookup "2" "sideways") _ _));
    discriminate.
Defined.

End RelationshipExtras.

(* ===================================================================== *)
(** ** The middleware                                                     *)
(* ===================================================================== *)

Module MiddlewareProps.
Import Middleware.

(** X12: the list of public routes holds the route [/], and every path
    name starts with it: the middleware lets every request through, also
    to the routes it lists as protected or as reserved to administrators,
    whatever the session -- it never redirects to the sign-in page and never
    denies access. *)
Theorem middleware_lets_every_path_through
  (pathname : string) (rest : string) (session : Session) :
  pathname = String "/" rest ->
  middleware pathname session = Next.
Proof.
  intros ->. unfold middleware.
  destruct (startsWith (String "/" rest) "/handler/"); [reflexivity|].
  assert (H : existsb (startsWith (String "/" rest)) publicRoutes = true).
  { unfold publicRoutes. cbn [existsb]. unfold startsWith at 1. simpl.
    destruct rest; reflexivity. }
  rewrite H. reflexivity.
Qed.

Lemma middleware_lets_every_path_through_witness :
  middleware "/api/lineage/mermaid" Anonymous = Next
  /\ middleware "/admin/users" (User false) = Next.
Proof.
  split.
  - exact (middleware_lets_every_path_through "/api/lineage/mermaid"
             "api/lineage/mermaid" Anonymous eq_refl).
  - exact (middleware_lets_every_path_through "/admin/users"
             "admin/users" (User false) eq_refl).
Defined.

End MiddlewareProps.

(* ===================================================================== *)
(** ** [search/route.ts]: result sizes, type filter, matching             *)
(* ===================================================================== *)

Module SearchProps.
Import Search Samples.

(** What the three queries of a search contribute: the rows of the
    statement, or nothing when the type filter leaves the statement out. *)
Lemma run_search_Ok st term type response n :
  run_search st term type 0%nat = (Ok response, n) ->
  query_echo response = term /\ error response = None
  /\ r_tables (results response)
     = (if wanted type "tables" then search_tables st term else [])
  /\ r_columns (results response)
     = (if wanted type "columns" then search_columns st term else [])
  /\ r_transformations (results response)
     = (if wanted type "transformations" then search_transformations st term else [])
  /\ r_total (results response)
     = Z.of_nat (length (r_tables (results response)))
       + Z.of_nat (length (r_columns (results response)))
       + Z.of_nat (length (r_transformations (results response)))
  /\ s_tables (suggestions response)
     = map st_name (firstn 3 (r_tables (results response)))
  /\ s_layers (suggestions response)
     = firstn 3 (Js.uniq (map st_layer (r_tables (results response))))
  /\ n = ((if wanted type "tables" then 1 else 0)
          + (if wanted type "columns" then 1 else 0)
          + (if wanted type "transformations" then 1 else 0))%nat.
Proof.
  unfold run_search. intros H.
  apply bind_ok in H as (ts & n1 & H1 & H).
  apply bind_ok in H as (cs & n2 & H2 & H).
  apply bind_ok in H as (xs & n3 & H3 & H).
  inversion H; subst response n; clear H. simpl.
  assert (E1 : ts = (if wanted type "tables" then search_tables st term else [])
               /\ n1 = (if wanted type "tables" then 1 else 0)%nat).
  { destruct (wanted type "tables"); [apply query_ok in H1; tauto|].
    inversion H1; split; reflexivity. }
  assert (E2 : cs = (if wanted type "columns" then search_columns st term else [])
               /\ n2 = (n1 + if wanted type "columns" then 1 else 0)%nat).
  { destruct (wanted type "columns"); [apply query_ok in H2 as [-> ->]; split; [reflexivity|lia]|].
    inversion H2; split; [reflexivity | lia]. }
  assert (E3 : xs = (if wanted type "transformations"
                     then search_transformations st term else [])
               /\ n3 = (n2 + if wanted type "transformations" then 1 else 0)%nat).
  { destruct (wanted type "transformations");
      [apply query_ok in H3 as [-> ->]; split; [reflexivity|lia]|].
    inversion H3; split; [reflexivity | lia]. }
  destruct E1 as [<- E1], E2 as [<- E2], E3 as [<- E3].
  repeat split. lia.
Qed.

Lemma firstn_In {A} (k : nat) (l : list A) (x : A) : In x (firstn k l) -> In x l.
Proof.
  revert k. induction l as [|y l IH]; intros k H; destruct k; simpl in H; try tauto.
  destruct H as [-> | H]; [left; reflexivity | right; eapply IH; exact H].
Qed.

Lemma firstn_uniq_NoDup (k : nat) (l : list string) : NoDup (firstn k (Js.uniq l)).
Proof.
  assert (H : forall (m : list string) j, NoDup m -> NoDup (firstn j m)).
  { induction m as [|x m IH]; intros j Hnd; destruct j; simpl; try constructor.
    - inversion Hnd as [|? ? Hnotin Hnd']; subst.
      intros Hin. apply Hnotin. eapply firstn_In; exact Hin.
    - inversion Hnd; subst. apply IH; assumption. }
  apply H. apply ChainExtras.uniq_NoDup.
Qed.

(** X13: every response of the search holds at most 10 tables, 10 columns
    and 10 transformations; [total] is the sum of the three lengths; there
    are at most 3 suggested tables, the names of the first tables
    returned, and at most 3 suggested layers, all different, each the layer
    of a table returned. *)
Theorem search_results_are_capped (st : Store) (req : Request) :
  let response := body (GET st req) in
  (length (r_tables (results response)) <= 10)%nat
  /\ (length (r_columns (results response)) <= 10)%nat
  /\ (length (r_transformations (results response)) <= 10)%nat
  /\ r_total (results response)
     = Z.of_nat (length (r_tables (results response)))
       + Z.of_nat (length (r_columns (results response)))
       + Z.of_nat (length (r_transformations (results response)))
  /\ s_tables (suggestions response)
     = map st_name (firstn 3 (r_tables (results response)))
  /\ (length (s_tables (suggestions response)) <= 3)%nat
  /\ (length (s_layers (suggestions response)) <= 3)%nat
  /\ NoDup (s_layers (suggestions response))
  /\ forall l, In l (s_layers (suggestions response)) ->
       exists t, In t (r_tables (results response)) /\ st_layer t = l.
Proof.
  assert (Hfail : forall term msg,
    let response := failure term msg in
    (length (r_tables (results response)) <= 10)%nat
    /\ (length (r_columns (results response)) <= 10)%nat
    /\ (length (r_transformations (results response)) <= 10)%nat
    /\ r_total (results response)
       = Z.of_nat (length (r_tables (results response)))
         + Z.of_nat (length (r_columns (results response)))
         + Z.of_nat (length (r_transformations (results response)))
    /\ s_tables (suggestions response)
       = map st_name (firstn 3 (r_tables (results response)))
    /\ (length (s_tables (suggestions response)) <= 3)%nat
    /\ (length (s_layers (suggestions response)) <= 3)%nat
    /\ NoDup (s_layers (suggestions response))
    /\ forall l, In l (s_layers (suggestions response)) ->
         exists t, In t (r_tables (results response)) /\ st_layer t = l).
  { intros term msg. simpl. repeat split; try lia; try constructor; try (intros l []). }
  unfold GET. destruct (q req) as [term|]; [|apply Hfail].
  destruct (String.length term <? 2)%nat; [apply Hfail|].
  destruct (run_search st term _ 0%nat) as [[response|msg] n] eqn:E; [|apply Hfail].
  apply run_search_Ok in E as (_ & _ & Et & Ec & Ex & Etot & Est & Esl & _).
  simpl.
  assert (Lt : (length (r_tables (results response)) <= 10)%nat).
  { rewrite Et. destruct (wanted _ "tables"); [apply firstn_le_length | simpl; lia]. }
  assert (Lc : (length (r_columns (results response)) <= 10)%nat).
  { rewrite Ec. destruct (wanted _ "columns"); [apply firstn_le_length | simpl; lia]. }
  assert (Lx : (length (r_transformations (results response)) <= 10)%nat).
  { rewrite Ex. destruct (wanted _ "transformations"); [apply firstn_le_length | simpl; lia]. }
  repeat split; try assumption.
  - rewrite Est, length_map. apply firstn_le_length.
  - rewrite Esl. apply firstn_le_length.
  - rewrite Esl. apply firstn_uniq_NoDup.
  - intros l Hl. rewrite Esl in Hl. apply firstn_In in Hl.
    apply ChainExtras.uniq_In, in_map_iff in Hl as (t & E & Ht). exists t; split; assumption.
Qed.

(** X14: the type filter decides which statements are sent: an accepted
    search that succeeds has issued one query per kind asked for (three for
    [all]); a type that names no kind is not rejected, it gets a success
    response with no result, without any query. *)
Theorem search_type_selects_the_queries (st : Store) (req : Request) (term : string) :
  q req = Some term -> (2 <= String.length term)%nat ->
  let kind := Js.or_default (type req) "all" in
  (status (GET st req) = 200 ->
   queries (GET st req)
   = ((if wanted kind "tables" then 1 else 0)
      + (if wanted kind "columns" then 1 else 0)
      + (if wanted kind "transformations" then 1 else 0))%nat)
  /\ (kind = "all" -> status (GET st req) = 200 -> queries (GET st req) = 3%nat)
  /\ (kind <> "all" -> kind <> "tables" -> kind <> "columns" ->
      kind <> "transformations" ->
      status (GET st req) = 200 /\ queries (GET st req) = 0%nat
      /\ r_total (results (body (GET st req))) = 0
      /\ error (body (GET st req)) = None).
Proof.
  intros Hq Hlen kind. unfold GET. rewrite Hq.
  destruct (Nat.ltb_spec (String.length term) 2) as [|_]; [lia|].
  fold kind.
  split; [|split].
  - destruct (run_search st term kind 0%nat) as [[response|msg] n] eqn:E; simpl;
      [|discriminate].
    intros _. apply run_search_Ok in E. tauto.
  - intros Hk. destruct (run_search st term kind 0%nat) as [[response|msg] n] eqn:E; simpl;
      [|discriminate].
    intros _. apply run_search_Ok in E as (_ & _ & _ & _ & _ & _ & _ & _ & ->).
    rewrite Hk. reflexivity.
  - intros H1 H2 H3 H4.
    assert (W : forall k, k = "tables" \/ k = "columns" \/ k = "transformations" ->
                          wanted kind k = false).
    { intros k Hk. unfold wanted. apply String.eqb_neq in H1. rewrite H1. simpl.
      apply String.eqb_neq. destruct Hk as [-> | [-> | ->]]; assumption. }
    unfold run_search, bind.
    rewrite !W by tauto. simpl. repeat split.
Qed.

Lemma search_type_selects_the_queries_witness :
  status (GET chain_store {| q := Some "orders"; type := Some "views" |}) = 200
  /\ queries (GET chain_store {| q := Some "orders"; type := Some "views" |}) = 0%nat
  /\ r_total (results (body (GET chain_store {| q := Some "orders"; type := Some "views" |}))) = 0
  /\ error (body (GET chain_store {| q := Some "orders"; type := Some "views" |})) = None.
Proof.
  refine (proj2 (proj2 (search_type_selects_the_queries chain_store
                          {| q := Some "orders"; type := Some "views" |} "orders"
                          eq_refl _)) _ _ _ _);
    [simpl; lia | discriminate | discriminate | discriminate | discriminate].
Defined.

(** *** Matching *)

Lemma ilike_percent p t :
  ilike (String "%" p) t
  = ilike p t || match t with
                 | EmptyString => false
                 | String _ t' => ilike (String "%" p) t'
                 end.
Proof. destruct t; reflexivity. Qed.

Lemma ilike_skip p a t : ilike p t = true -> ilike (String "%" p) (a ++ t) = true.
Proof.
  intros H. induction a as [|c a IH]; simpl append.
  - rewrite ilike_percent, H. reflexivity.
  - rewrite ilike_percent, IH. apply orb_true_r.
Qed.

Lemma ilike_percent_end t : ilike "%" t = true.
Proof.
  induction t as [|c t IH]; [reflexivity|].
  rewrite ilike_percent, IH. apply orb_true_r.
Qed.

Lemma ilike_plain_char c d p t :
  SearchTerms.wildcard c = false ->
  ilike (String c p) (String d t) = same_letter c d && ilike p t.
Proof.
  destruct c as [[] [] [] [] [] [] [] []]; intros H;
    first [discriminate H | reflexivity].
Qed.

Lemma ilike_literal q :
  forall q' p t,
    SearchTerms.plain q = true -> SearchTerms.same_text q q' = true ->
    ilike p t = true -> ilike (q ++ p) (q' ++ t) = true.
Proof.
  induction q as [|c q IH]; intros q' p t Hp Hs Ht; destruct q' as [|d q'];
    simpl in Hs; try discriminate; [exact Ht|].
  simpl in Hp. apply andb_true_iff in Hp as [Hc Hp], Hs as [Hl Hs].
  apply negb_true_iff in Hc. simpl append.
  rewrite (ilike_plain_char c d _ _ Hc), Hl. simpl. apply IH; assumption.
Qed.

Lemma same_text_refl q : SearchTerms.same_text q q = true.
Proof.
  induction q as [|c q IH]; simpl; [reflexivity|].
  unfold same_letter. rewrite Ascii.eqb_refl. exact IH.
Qed.

Lemma upper_ascii_idempotent c : Js.upper_ascii (Js.upper_ascii c) = Js.upper_ascii c.
Proof. destruct c as [[] [] [] [] [] [] [] []]; reflexivity. Qed.

Lemma wildcard_upper c : SearchTerms.wildcard (Js.upper_ascii c) = SearchTerms.wildcard c.
Proof. destruct c as [[] [] [] [] [] [] [] []]; reflexivity. Qed.

Lemma same_text_upper q :
  SearchTerms.same_text q (Js.toUpperCase q) = true
  /\ SearchTerms.same_text (Js.toUpperCase q) q = true.
Proof.
  induction q as [|c q [IH1 IH2]]; simpl; [split; reflexivity|].
  unfold same_letter. rewrite upper_ascii_idempotent, Ascii.eqb_refl, IH1, IH2.
  split; reflexivity.
Qed.

Lemma plain_upper q : SearchTerms.plain (Js.toUpperCase q) = SearchTerms.plain q.
Proof.
  induction q as [|c q IH]; simpl; [reflexivity|]. rewrite wildcard_upper, IH. reflexivity.
Qed.

Lemma contains_literal q q' a b :
  SearchTerms.plain q = true -> SearchTerms.same_text q q' = true ->
  contains q (a ++ q' ++ b) = true.
Proof.
  intros Hp Hs. unfold contains.
  change ("%" ++ q ++ "%") with (String "%" (q ++ "%")).
  apply ilike_skip. apply ilike_literal; [exact Hp | exact Hs | apply ilike_percent_end].
Qed.

(** X15: a query without wildcard characters matches every text that
    contains it, whatever stands before and after, and the case of letters
    does not matter on either side. *)
Theorem query_matches_texts_containing_it (q a b : string) :
  SearchTerms.plain q = true ->
  contains q (a ++ q ++ b) = true
  /\ contains q (a ++ Js.toUpperCase q ++ b) = true
  /\ contains (Js.toUpperCase q) (a ++ q ++ b) = true.
Proof.
  intros Hp. repeat split.
  - apply contains_literal; [exact Hp | apply same_text_refl].
  - apply contains_literal; [exact Hp | apply same_text_upper].
  - apply contains_literal; [rewrite plain_upper; exact Hp | apply same_text_upper].
Qed.

Lemma query_matches_texts_containing_it_witness :
  contains "cust" ("" ++ "cust" ++ "omer_raw") = true
  /\ contains "cust" ("" ++ "CUST" ++ "omer_raw") = true
  /\ contains "CUST" ("" ++ "cust" ++ "omer_raw") = true.
Proof. exact (query_matches_texts_containing_it "cust" "" "omer_raw" eq_refl). Defined.

Lemma all_percent_matches p :
  SearchTerms.all_percent p = true -> forall t, ilike (String "%" p) t = true.
Proof.
  induction p as [|c p IH]; intros H t; [apply ilike_percent_end|].
  simpl in H. apply andb_true_iff in H as [Hc H]. apply Ascii.eqb_eq in Hc. subst c.
  rewrite ilike_percent, (IH H). reflexivity.
Qed.

Lemma all_percent_app p : SearchTerms.all_percent p = true ->
  SearchTerms.all_percent (p ++ "%") = true.
Proof.
  induction p as [|c p IH]; simpl; [reflexivity|].
  intros H. apply andb_true_iff in H as [-> H]. simpl. apply IH; exact H.
Qed.

(** X16: the query string is put into the pattern as it is, so its
    [%] are wildcards: a query made of [%] only matches every text, and the
    table search then returns the first 10 tables by name, whatever their
    names and descriptions. *)
Theorem percent_query_matches_everything (st : Store) (q : string) :
  SearchTerms.all_percent q = true ->
  (forall text, contains q text = true)
  /\ search_tables st q
     = firstn 10 (order_by (fun a b => String.leb (st_name a) (st_name b))
         (flat_map (fun t =>
            flat_map (fun l =>
              if t_layer_id t =? l_id l
              then [ {| st_id := t_id t; st_name := t_name t;
                        st_description := t_description t; st_layer := l_name l |} ]
              else []) (layers st)) (tables st))).
Proof.
  intros H.
  assert (Hall : forall q', SearchTerms.all_percent q' = true ->
                            forall text, contains q' text = true).
  { intros q' Hq' text. unfold contains.
    change ("%" ++ q' ++ "%") with (String "%" (q' ++ "%")).
    apply all_percent_matches. apply all_percent_app; exact Hq'. }
  split; [apply Hall; exact H|].
  unfold search_tables. f_equal. f_equal.
  apply flat_map_ext; intros t. apply flat_map_ext; intros l.
  rewrite (Hall q H). simpl. rewrite andb_true_r. reflexivity.
Qed.

Lemma percent_query_matches_everything_witness :
  (forall text, contains "%%" text = true)
  /\ map st_name (search_tables chain_store "%%")
     = ["orders"; "orders_agg"; "orders_clean"].
Proof.
  split.
  - exact (proj1 (percent_query_matches_everything chain_store "%%" eq_refl)).
  - rewrite (proj2 (percent_query_matches_everything chain_store "%%" eq_refl)).
    reflexivity.
Defined.

End SearchProps.

(* ===================================================================== *)
(** ** [tables/route.ts]: validation and filters of the lookups           *)
(* ===================================================================== *)

Module TransformationExtras.
Import Transformations Samples LookupSamples.

Lemma join_In st cond j : In j (join st cond) -> cond j = true.
Proof.
  unfold join. intros H.
  apply in_flat_map in H as (t & _ & H).
  apply in_flat_map in H as (s & _ & H).
  destruct (tr_source_table_id t =? t_id s); [|destruct H].
  apply in_flat_map in H as (tt & _ & H).
  destruct (tr_target_table_id t =? t_id tt); [|destruct H].
  apply in_flat_map in H as (sl & _ & H).
  destruct (t_layer_id s =? l_id sl); [|destruct H].
  apply in_flat_map in H as (tl & _ & H).
  destruct (t_layer_id tt =? l_id tl); simpl in H; [|destruct H].
  match type of H with In _ (if ?c then _ else _) => destruct c eqn:Ec end; [|destruct H].
  destruct H as [<- | []]. exact Ec.
Qed.

(** X17: a transformation lookup is rejected, with status 400, exactly
    when its body can be read and names no table (no table name and no
    table id other than 0) and no complete pair of layers.  A request whose
    body cannot be read is answered with status 500 and the error of the
    reading.  Neither costs a query nor returns a transformation; every
    other request costs exactly one query. *)
Theorem transformation_lookup_validation
  (st : Store) (json : Res TransformationRequestBody) :
  (status (POST st json) = 400
   <-> exists b, json = Ok b
         /\ Js.truthy (b_table_name b) || truthy_id (b_table_id b) = false
         /\ Js.truthy (b_source_layer b) && Js.truthy (b_target_layer b) = false)
  /\ (status (POST st json) = 400 ->
      queries (POST st json) = 0%nat /\ transformations_of (body (POST st json)) = [])
  /\ (forall msg, json = Throw msg ->
        POST st json
        = {| status := 500; body := failure ("Database error: " ++ msg);
             queries := 0%nat |})
  /\ (forall b, json = Ok b -> status (POST st json) <> 400 ->
        queries (POST st json) = 1%nat).
Proof.
  destruct json as [b|msg]; cycle 1.
  { simpl. split; [split; [discriminate | intros (b & H & _); discriminate H]|].
    split; [discriminate|]. split; [intros m H; inversion H; reflexivity|].
    intros b H; discriminate H. }
  assert (Hgen :
    (status (POST st (Ok b)) = 400
     <-> Js.truthy (b_table_name b) || truthy_id (b_table_id b) = false
         /\ Js.truthy (b_source_layer b) && Js.truthy (b_target_layer b) = false)
    /\ (status (POST st (Ok b)) = 400 ->
        queries (POST st (Ok b)) = 0%nat
        /\ transformations_of (body (POST st (Ok b))) = [])
    /\ (status (POST st (Ok b)) <> 400 -> queries (POST st (Ok b)) = 1%nat));
    [|destruct Hgen as (H1 & H2 & H3); split; [|split; [exact H2|split]];
      [rewrite H1; split;
         [intros H; exists b; split; [reflexivity | exact H]
         |intros (b' & E & H); inversion E; subst b'; exact H]
      |intros m E; discriminate E
      |intros b' _; exact H3]].
  unfold POST.
  destruct (Js.truthy (b_table_name b) || truthy_id (b_table_id b)).
  - unfold table_specific, bind, query. destruct (outage st 0%nat); simpl;
      (split; [split; [discriminate | intros [H _]; discriminate H]|]);
      (split; [discriminate | reflexivity]).
  - destruct (Js.truthy (b_source_layer b) && Js.truthy (b_target_layer b)).
    + unfold layer_to_layer, bind, query. destruct (outage st 0%nat); simpl;
        (split; [split; [discriminate | intros [_ H]; discriminate H]|]);
        (split; [discriminate | reflexivity]).
    + simpl. split; [split; [intros _; split; reflexivity | reflexivity]|].
      split; [intros _; split; reflexivity | intros H; exfalso; apply H; reflexivity].
Qed.

Lemma sorted_map_created (rows : list JoinRow) :
  Sorted (fun a b => created_desc a b = true) rows ->
  Sorted (fun a b => created_at b <= created_at a) (map to_transformation rows).
Proof.
  induction 1 as [|r rows Hs IH Hhd]; simpl; constructor; [exact IH|].
  destruct Hhd as [|r' rows' Hle]; simpl; constructor.
  unfold created_desc in Hle. apply Z.leb_le in Hle. exact Hle.
Qed.

Lemma created_desc_total a b : created_desc a b = false -> created_desc b a = true.
Proof. unfold created_desc. intros H. apply Z.leb_gt in H. apply Z.leb_le. lia. Qed.

(** X18: when the store answers, a lookup by table name honours the
    direction: every transformation returned has the table as target for
    [upstream], as source for [downstream], and as one of the two
    otherwise; the summary counts the transformations returned, is titled
    with the table name and lists each of their layers once.  A table id
    sent along with the name is not read. *)
Theorem transformation_lookup_by_name
  (st : Store) (b : TransformationRequestBody) (name : string) :
  b_table_name b = Some name -> name <> EmptyString -> outage st 0%nat = None ->
  let d := Js.or_default (b_direction b) "both" in
  let out := POST st (Ok b) in
  status out = 200
  /\ (d = "upstream" -> forall t, In t (transformations_of (body out)) -> target_table t = name)
  /\ (d = "downstream" -> forall t, In t (transformations_of (body out)) -> source_table t = name)
  /\ (forall t, In t (transformations_of (body out)) ->
        source_table t = name \/ target_table t = name)
  /\ total (summary (body out)) = Z.of_nat (length (transformations_of (body out)))
  /\ table_name (summary (body out)) = name
  /\ NoDup (layers_involved (summary (body out)))
  /\ (forall l, In l (layers_involved (summary (body out)))
                <-> exists t, In t (transformations_of (body out))
                              /\ (source_layer t = l \/ target_layer t = l))
  /\ out = POST st (Ok {| b_table_name := b_table_name b; b_table_id := None;
                          b_source_layer := b_source_layer b;
                          b_target_layer := b_target_layer b;
                          b_direction := b_direction b |}).
Proof.
  intros Hname Hne Hup d out.
  assert (Ht : Js.truthy (b_table_name b) = true).
  { rewrite Hname. simpl. destruct (String.eqb_spec name EmptyString); [contradiction|reflexivity]. }
  assert (Hd : Js.or_default (b_table_name b) EmptyString = name).
  { rewrite Hname. simpl. destruct (String.eqb_spec name EmptyString); [contradiction|reflexivity]. }
  assert (Hd' : forall x, Js.or_default (b_table_name b) x = name).
  { intros x. rewrite Hname. simpl.
    destruct (String.eqb_spec name EmptyString); [contradiction|reflexivity]. }
  subst out. unfold POST. simpl. rewrite Ht. simpl.
  unfold table_specific, bind, query. simpl. rewrite Hup, Ht, ?Hd. repeat rewrite Hd'.
  simpl. fold d.
  assert (Hrows : forall t,
            In t (map to_transformation (order_by table_scoped_leb (join st (where_name d name)))) ->
            exists j, t = to_transformation j /\ where_name d name j = true).
  { intros t Hin. apply in_map_iff in Hin as (j & <- & Hj).
    apply order_by_In, join_In in Hj. exists j; split; [reflexivity | exact Hj]. }
  split; [reflexivity|].
  split; [|split; [|split; [|split; [|split; [|split; [|split]]]]]].
  - intros Ed t Hin. destruct (Hrows t Hin) as (j & -> & Hw).
    unfold where_name in Hw. rewrite Ed in Hw. simpl in Hw. apply String.eqb_eq. exact Hw.
  - intros Ed t Hin. destruct (Hrows t Hin) as (j & -> & Hw).
    unfold where_name in Hw. rewrite Ed in Hw. simpl in Hw. apply String.eqb_eq. exact Hw.
  - intros t Hin. destruct (Hrows t Hin) as (j & -> & Hw).
    unfold where_name in Hw. simpl.
    destruct (String.eqb d "upstream"); [right; apply String.eqb_eq; exact Hw|].
    destruct (String.eqb d "downstream"); [left; apply String.eqb_eq; exact Hw|].
    apply orb_true_iff in Hw as [Hw | Hw]; apply String.eqb_eq in Hw; tauto.
  - reflexivity.
  - reflexivity.
  - apply ChainExtras.uniq_NoDup.
  - intros l. rewrite ChainExtras.uniq_In, in_app_iff, !in_map_iff. split.
    + intros [(t & E & Hin) | (t & E & Hin)]; exists t; tauto.
    + intros (t & Hin & [E | E]); [left | right]; exists t; tauto.
  - reflexivity.
Qed.

Lemma transformation_lookup_by_name_witness :
  map (fun t => (source_table t, target_table t))
      (transformations_of
         (body (POST chain_store (Ok (by_name_request "orders_clean" "upstream")))))
  = [("orders", "orders_clean")]
  /\ forall t,
       In t (transformations_of
               (body (POST chain_store (Ok (by_name_request "orders_clean" "upstream"))))) ->
       target_table t = "orders_clean".
Proof.
  split; [reflexivity|].
  refine (proj1 (proj2 (transformation_lookup_by_name chain_store
                          (by_name_request "orders_clean" "upstream") "orders_clean"
                          eq_refl _ eq_refl)) eq_refl).
  discriminate.
Defined.

(** X19: when the store answers, a lookup by layer pair returns only
    transformations from the first layer to the second, the most recently
    created first; the summary counts them and lists the two requested
    layers as they were given, also when nothing is found and when the two
    are the same layer. *)
Theorem transformation_lookup_by_layer_pair
  (st : Store) (b : TransformationRequestBody) (source target : string) :
  Js.truthy (b_table_name b) || truthy_id (b_table_id b) = false ->
  b_source_layer b = Some source -> source <> EmptyString ->
  b_target_layer b = Some target -> target <> EmptyString ->
  outage st 0%nat = None ->
  let out := POST st (Ok b) in
  status out = 200
  /\ (forall t, In t (transformations_of (body out)) ->
        source_layer t = source /\ target_layer t = target)
  /\ Sorted (fun a b => created_at b <= created_at a) (transformations_of (body out))
  /\ total (summary (body out)) = Z.of_nat (length (transformations_of (body out)))
  /\ layers_involved (summary (body out)) = [source; target].
Proof.
  intros Hno Hs Hsne Ht Htne Hup out. subst out.
  unfold POST. rewrite Hno, Hs, Ht. simpl.
  destruct (String.eqb_spec source EmptyString) as [|_]; [contradiction|].
  destruct (String.eqb_spec target EmptyString) as [|_]; [contradiction|].
  simpl. unfold layer_to_layer, bind, query. rewrite Hup. simpl.
  split; [reflexivity|]. split; [|split; [|split; reflexivity]].
  - intros t Hin. apply in_map_iff in Hin as (j & <- & Hj).
    apply order_by_In, join_In in Hj. unfold where_layers in Hj.
    apply andb_true_iff in Hj as [H1 H2]. apply String.eqb_eq in H1, H2.
    simpl. split; assumption.
  - apply sorted_map_created. apply order_by_sorted. exact created_desc_total.
Qed.

Lemma transformation_lookup_by_layer_pair_witness :
  layers_involved (summary (body (POST chain_store (Ok (layer_pair_request "gold" "gold")))))
  = ["gold"; "gold"]
  /\ transformations_of (body (POST chain_store (Ok (layer_pair_request "gold" "gold")))) = [].
Proof.
  split; [|reflexivity].
  refine (proj2 (proj2 (proj2 (proj2
            (transformation_lookup_by_layer_pair chain_store
               (layer_pair_request "gold" "gold") "gold" "gold"
               eq_refl eq_refl _ eq_refl _ eq_refl)))));
    discriminate.
Defined.

End TransformationExtras.

(* ===================================================================== *)
(** ** [tables/route.ts], [GET]: the tables of a layer                    *)
(* ===================================================================== *)

Module TablesProps.
Import TablesRoute Samples.





End TablesProps.

(* ===================================================================== *)
(** ** The columns route                                                  *)
(* ===================================================================== *)

Module ColumnsProps.
Import Columns.

(** X21: the columns route rejects a request, with status 400, no column
    and no query, exactly when its body can be read and the table is
    missing, the layer is missing, or the layer is not one of [bronze],
    [silver], [gold] as written (a layer of the store under another name,
    or in another case, is refused).  A request whose body cannot be read
    is answered with status 500 and the error of the reading, without a
    query.  Every other request issues one query and its status is 200, or
    500 when the store fails. *)
Theorem columns_request_validation
  (flags : ColumnRow -> Flags) (st : Store) (json : Res ColumnsRequestBody) :
  (status (POST flags st json) = 400
   <-> exists req, json = Ok req
         /\ (Js.truthy (table req) = false \/ Js.truthy (layer req) = false
             \/ (layer req <> Some "bronze" /\ layer req <> Some "silver"
                 /\ layer req <> Some "gold")))
  /\ (status (POST flags st json) = 400 ->
      queries (POST flags st json) = 0%nat
      /\ exists msg, body (POST flags st json) = Failed [] msg)
  /\ (forall msg, json = Throw msg ->
        POST flags st json
        = {| status := 500; body := Failed [] ("Database error: " ++ msg);
             queries := 0%nat |})
  /\ (forall req, json = Ok req -> status (POST flags st json) <> 400 ->
        queries (POST flags st json) = 1%nat
        /\ (status (POST flags st json) = 200 \/ status (POST flags st json) = 500)).
Proof.
  destruct json as [req|msg]; cycle 1.
  { simpl. split; [split; [discriminate | intros (req & H & _); discriminate H]|].
    split; [discriminate|]. split; [intros m H; inversion H; reflexivity|].
    intros req H; discriminate H. }
  assert (Hgen :
    (status (POST flags st (Ok req)) = 400
     <-> Js.truthy (table req) = false \/ Js.truthy (layer req) = false
         \/ (layer req <> Some "bronze" /\ layer req <> Some "silver"
             /\ layer req <> Some "gold"))
    /\ (status (POST flags st (Ok req)) = 400 ->
        queries (POST flags st (Ok req)) = 0%nat
        /\ exists msg, body (POST flags st (Ok req)) = Failed [] msg)
    /\ (status (POST flags st (Ok req)) <> 400 ->
        queries (POST flags st (Ok req)) = 1%nat
        /\ (status (POST flags st (Ok req)) = 200
            \/ status (POST flags st (Ok req)) = 500)));
    [|destruct Hgen as (H1 & H2 & H3); split; [|split; [exact H2|split]];
      [rewrite H1; split;
         [intros H; exists req; split; [reflexivity | exact H]
         |intros (req' & E & H); inversion E; subst req'; exact H]
      |intros m E; discriminate E
      |intros req' _; exact H3]].
  unfold POST.
  destruct (Js.truthy (table req)) eqn:Et; simpl.
  2:{ split; [split; [intros _; left; reflexivity | reflexivity]|].
      split; [intros _; split; [reflexivity | eexists; reflexivity]|].
      intros H; exfalso; apply H; reflexivity. }
  destruct (Js.truthy (layer req)) eqn:El; simpl.
  2:{ split; [split; [intros _; right; left; reflexivity | reflexivity]|].
      split; [intros _; split; [reflexivity | eexists; reflexivity]|].
      intros H; exfalso; apply H; reflexivity. }
  destruct (layer req) as [lay|] eqn:Elay; [|discriminate El]. simpl in El |- *.
  destruct (String.eqb_spec lay EmptyString) as [|_]; [discriminate El|].
  destruct (String.eqb_spec lay "bronze") as [->|N1]; simpl.
  { unfold query. destruct (outage st 0%nat); simpl;
      (split; [split; [discriminate | intros [H|[H|[H _]]]; try discriminate H;
                                      exfalso; apply H; reflexivity]|]);
      (split; [discriminate | intros _; split; [reflexivity | tauto]]). }
  destruct (String.eqb_spec lay "silver") as [->|N2]; simpl.
  { unfold query. destruct (outage st 0%nat); simpl;
      (split; [split; [discriminate | intros [H|[H|[_ [H _]]]]; try discriminate H;
                                      exfalso; apply H; reflexivity]|]);
      (split; [discriminate | intros _; split; [reflexivity | tauto]]). }
  destruct (String.eqb_spec lay "gold") as [->|N3]; simpl.
  { unfold query. destruct (outage st 0%nat); simpl;
      (split; [split; [discriminate | intros [H|[H|[_ [_ H]]]]; try discriminate H;
                                      exfalso; apply H; reflexivity]|]);
      (split; [discriminate | intros _; split; [reflexivity | tauto]]). }
  split; [split; [intros _; right; right; repeat split; congruence | reflexivity]|].
  split; [intros _; split; [reflexivity | eexists; reflexivity]|].
  intros H; exfalso; apply H; reflexivity.
Qed.

(** X22: when the store answers a valid request, the response echoes the
    table and the layer, [total_columns] is the number of columns returned,
    the columns are ordered by name, and each of them is a column of the
    store that belongs to a table of that name and is recorded in a layer
    of that name. *)
Theorem columns_of_a_table
  (flags : ColumnRow -> Flags) (st : Store) (req : ColumnsRequestBody) (tab lay : string) :
  table req = Some tab -> tab <> EmptyString ->
  layer req = Some lay -> In lay LAYER_MAP_keys ->
  outage st 0%nat = None ->
  exists cols,
    POST flags st (Ok req)
    = {| status := 200;
         body := Found cols tab lay (Z.of_nat (length cols));
         queries := 1 |}
    /\ Sorted (fun a b => String.leb (name a) (name b) = true) cols
    /\ forall c, In c cols ->
         exists row t l,
           In row (columns st) /\ In t (tables st) /\ In l (layers st)
           /\ c_table_id row = t_id t /\ c_layer_id row = l_id l
           /\ t_name t = tab /\ l_name l = lay
           /\ id c = c_id row /\ name c = c_name row
           /\ key c = is_key (flags row) /\ nullable c = is_nullable (flags row).
Proof.
  intros Ht Htne Hl Hin Hup.
  exists (select flags st tab lay). split; [|split].
  - assert (Hlne : lay <> EmptyString).
    { simpl in Hin. destruct Hin as [<-|[<-|[<-|[]]]]; discriminate. }
    assert (T1 : Js.truthy (Some tab) = true /\ Js.or_default (Some tab) EmptyString = tab).
    { simpl. destruct (String.eqb_spec tab EmptyString); [contradiction | split; reflexivity]. }
    assert (T2 : Js.truthy (Some lay) = true /\ Js.or_default (Some lay) EmptyString = lay).
    { simpl. destruct (String.eqb_spec lay EmptyString); [contradiction | split; reflexivity]. }
    assert (Hk : existsb (String.eqb lay) LAYER_MAP_keys = true).
    { apply existsb_exists. exists lay. split; [exact Hin | apply String.eqb_refl]. }
    unfold POST. rewrite Ht, Hl.
    destruct T1 as [-> ->], T2 as [-> ->]. rewrite Hk. cbn [negb].
    unfold query. rewrite Hup. reflexivity.
  - unfold select. apply order_by_sorted. intros a b. apply ChainProps.string_leb_total.
  - intros c Hc. unfold select in Hc. apply order_by_In in Hc.
    apply in_flat_map in Hc as (row & Hrow & Hc).
    apply in_flat_map in Hc as (t & Htab & Hc).
    destruct (Z.eqb_spec (c_table_id row) (t_id t)) as [E1|]; [|destruct Hc].
    apply in_flat_map in Hc as (l & Hlay & Hc).
    destruct (Z.eqb_spec (c_layer_id row) (l_id l)) as [E2|]; simpl in Hc; [|destruct Hc].
    destruct (String.eqb_spec (t_name t) tab) as [E3|]; simpl in Hc; [|destruct Hc].
    destruct (String.eqb_spec (l_name l) lay) as [E4|]; [|destruct Hc].
    destruct Hc as [<- | []]. exists row, t, l. simpl. repeat split; assumption.
Qed.

Lemma columns_of_a_table_witness :
  exists cols,
    POST (fun _ => {| is_key := false; is_nullable := true |}) Samples.chain_store
         (Ok {| table := Some "orders"; layer := Some "bronze" |})
    = {| status := 200;
         body := Found cols "orders" "bronze" (Z.of_nat (length cols));
         queries := 1 |}.
Proof.
  destruct (columns_of_a_table (fun _ => {| is_key := false; is_nullable := true |})
              Samples.chain_store {| table := Some "orders"; layer := Some "bronze" |}
              "orders" "bronze" eq_refl) as (cols & E & _).
  - discriminate.
  - reflexivity.
  - left; reflexivity.
  - reflexivity.
  - exists cols. exact E.
Defined.

End ColumnsProps.

(* ===================================================================== *)
(** ** The data-flow route: the assembled graph                           *)
(* ===================================================================== *)

Module FlowProps.
Import Flow FlowTerms.

Lemma visit_fold (rows : list FlowRow) :
  forall acc,
    fold_left visit rows acc
    = (fold_left set_if_absent (mentions rows) (fst acc),
       (snd acc ++ map edge_of rows)%list).
Proof.
  induction rows as [|row rows IH]; intros [m es]; simpl.
  - rewrite app_nil_r. reflexivity.
  - rewrite IH. simpl. rewrite <- app_assoc. reflexivity.
Qed.

Lemma assemble_graph (rows : list FlowRow) :
  nodes (assemble rows) = fold_left set_if_absent (mentions rows) []
  /\ edges (assemble rows) = map edge_of rows.
Proof.
  unfold assemble. rewrite visit_fold. simpl. split; reflexivity.
Qed.

Lemma has_In m k : has m k = true <-> exists n, In n m /\ id n = k.
Proof.
  unfold has. rewrite existsb_exists. split; intros (n & Hn & E); exists n;
    (split; [exact Hn|]); apply Z.eqb_eq; exact E.
Qed.

Lemma has_app m x k : has (m ++ [x])%list k = has m k || (id x =? k).
Proof. unfold has. rewrite existsb_app. simpl. rewrite orb_false_r. reflexivity. Qed.

(** The map after the mentions [l]: a node is in it when it was there
    before, or when it is the first mention of a table that was not. *)
Lemma set_fold_In (l : list FlowNode) :
  forall m n,
    In n (fold_left set_if_absent l m)
    <-> In n m \/ (has m (id n) = false /\ find (fun x => id x =? id n) l = Some n).
Proof.
  induction l as [|x l IH]; intros m n; simpl.
  - split; [tauto | intros [H | [_ H]]; [exact H | discriminate H]].
  - rewrite IH. unfold set_if_absent.
    destruct (has m (id x)) eqn:Hx.
    + destruct (Z.eqb_spec (id x) (id n)) as [E|NE]; [|reflexivity].
      rewrite <- E, Hx. intuition discriminate.
    + rewrite in_app_iff, has_app. simpl.
      destruct (Z.eqb_spec (id x) (id n)) as [E|NE].
      * rewrite orb_true_r. rewrite <- E, Hx. split.
        -- intros [[H | [H | []]] | [H _]]; [tauto | right; split; [reflexivity | f_equal; exact H]
                                            | discriminate H].
        -- intros [H | [_ H]]; [tauto|]. inversion H. tauto.
      * rewrite orb_false_r. split.
        -- intros [[H | [H | []]] | H]; [tauto | subst; contradiction | tauto].
        -- tauto.
Qed.

Lemma set_fold_NoDup (l : list FlowNode) :
  forall m, NoDup (map id m) -> NoDup (map id (fold_left set_if_absent l m)).
Proof.
  induction l as [|x l IH]; intros m Hnd; simpl; [exact Hnd|].
  apply IH. unfold set_if_absent. destruct (has m (id x)) eqn:Hx; [exact Hnd|].
  rewrite map_app. apply NoDup_app; [exact Hnd | repeat constructor; intros [] |].
  intros k Hk [<- | []]. apply in_map_iff in Hk as (n & E & Hn).
  assert (H : has m (id x) = true) by (apply has_In; exists n; split; assumption).
  congruence.
Qed.

Lemma set_fold_has (l : list FlowNode) :
  forall m k,
    has (fold_left set_if_absent l m) k = has m k || existsb (fun x => id x =? k) l.
Proof.
  induction l as [|x l IH]; intros m k; simpl; [rewrite orb_false_r; reflexivity|].
  rewrite IH. unfold set_if_absent. destruct (has m (id x)) eqn:Hx.
  - destruct (Z.eqb_spec (id x) k) as [<-|_]; [rewrite Hx; reflexivity | reflexivity].
  - rewrite has_app, orb_assoc. reflexivity.
Qed.

(** X23: the graph assembled from the rows of the data flow is closed and
    has no duplicate: no two nodes share an id, there is one edge per row,
    in row order, both ends of every edge are nodes, every node is an end
    of some row, and the summary counts the nodes and the edges. *)
Theorem assembled_graph_is_closed (rows : list FlowRow) :
  NoDup (map id (nodes (assemble rows)))
  /\ edges (assemble rows) = map edge_of rows
  /\ (forall e, In e (edges (assemble rows)) ->
        (exists n, In n (nodes (assemble rows)) /\ id n = source e)
        /\ (exists n, In n (nodes (assemble rows)) /\ id n = target e))
  /\ (forall n, In n (nodes (assemble rows)) ->
        exists row, In row rows
                    /\ (n = source_node row \/ n = target_node row))
  /\ total_nodes (summary (assemble rows)) = Z.of_nat (length (nodes (assemble rows)))
  /\ total_edges (summary (assemble rows)) = Z.of_nat (length rows).
Proof.
  destruct (assemble_graph rows) as [Hn He].
  split; [rewrite Hn; apply set_fold_NoDup; constructor|].
  split; [exact He|]. split; [|split; [|split]].
  - intros e Hin. rewrite He in Hin. apply in_map_iff in Hin as (row & <- & Hrow).
    rewrite Hn. split; apply has_In; rewrite set_fold_has; simpl;
      apply existsb_exists.
    + exists (source_node row). split; [|apply Z.eqb_refl].
      unfold mentions. apply in_flat_map. exists row. split; [exact Hrow | left; reflexivity].
    + exists (target_node row). split; [|apply Z.eqb_refl].
      unfold mentions. apply in_flat_map. exists row.
      split; [exact Hrow | right; left; reflexivity].
  - intros n Hin. rewrite Hn in Hin. apply set_fold_In in Hin as [[] | [_ Hf]].
    apply find_some in Hf as [Hm _]. unfold mentions in Hm.
    apply in_flat_map in Hm as (row & Hrow & [<- | [<- | []]]); exists row; tauto.
  - unfold assemble. rewrite visit_fold. reflexivity.
  - unfold assemble. rewrite visit_fold. simpl. rewrite length_map. reflexivity.
Qed.

(** X24: the first mention of a table wins: a node is in the assembled
    graph exactly when it is the first node, in row order (source before
    target), that a row gives for its id; the name and the layer that later
    rows give for the same id are not used. *)
Theorem first_mention_of_a_table_wins (rows : list FlowRow) (n : FlowNode) :
  In n (nodes (assemble rows))
  <-> find (fun x => id x =? id n) (mentions rows) = Some n.
Proof.
  destruct (assemble_graph rows) as [Hn _]. rewrite Hn, set_fold_In. simpl.
  split; [intros [[] | [_ H]]; exact H | intros H; right; split; [reflexivity | exact H]].
Qed.

(** X25: [max_depth] of the summary is the greatest depth of the edges (0
    without edges), and [layers] lists each layer of the nodes once. *)
Theorem flow_summary_is_consistent (rows : list FlowRow) :
  (forall e, In e (edges (assemble rows)) -> depth e <= max_depth (summary (assemble rows)))
  /\ (rows <> [] ->
      exists e, In e (edges (assemble rows))
                /\ depth e = max_depth (summary (assemble rows)))
  /\ (rows = [] -> max_depth (summary (assemble rows)) = 0)
  /\ NoDup (layers_of (summary (assemble rows)))
  /\ (forall l, In l (layers_of (summary (assemble rows)))
                <-> exists n, In n (nodes (assemble rows)) /\ layer n = l).
Proof.
  assert (Hs : max_depth (summary (assemble rows))
               = match edges (assemble rows) with
                 | [] => 0
                 | _ :: _ => Js.max_list (map depth (edges (assemble rows)))
                 end
               /\ layers_of (summary (assemble rows))
                  = Js.uniq (map layer (nodes (assemble rows)))).
  { unfold assemble. destruct (fold_left visit rows ([], [])). split; reflexivity. }
  destruct Hs as [Hmax Hlay]. destruct (assemble_graph rows) as [_ He].
  rewrite Hmax, Hlay. split; [|split; [|split; [|split]]].
  - intros e Hin. destruct (edges (assemble rows)) as [|e0 es]; [destruct Hin|].
    apply (proj2 (ChainExtras.max_list_spec (depth e0) (map depth es))).
    change (depth e0 :: map depth es) with (map depth (e0 :: es)). apply in_map. exact Hin.
  - intros Hne. destruct (edges (assemble rows)) as [|e0 es] eqn:E.
    + destruct rows; [contradiction | discriminate He].
    + destruct (ChainExtras.max_list_spec (depth e0) (map depth es)) as [Hin _].
      change (depth e0 :: map depth es) with (map depth (e0 :: es)) in Hin.
      apply in_map_iff in Hin as (e & Hd & Hin). exists e. split; assumption.
  - intros ->. reflexivity.
  - apply ChainExtras.uniq_NoDup.
  - intros l. rewrite ChainExtras.uniq_In, in_map_iff. split; intros (n & H1 & H2); exists n; tauto.
Qed.

End FlowProps.
